(** * MAX! Cube integration: climate, binary sensors and poll coordinator

    A shallow embedding of [custom_components/maxcube] ([__init__.py],
    [climate.py], [binary_sensor.py]) and the properties of its entities
    and of its coordinator.

    Modelling conventions.
    - Temperatures are finite Python floats.  The source only compares
      them and takes [max]/[min], none of which rounds, so they are
      modelled as exact rationals ([Q]); Python [==] is [Qeq_bool].
    - A Python attribute that the source probes with [hasattr]/[getattr]
      is an [attr]: it may be absent from the object.  A value that may
      be [None] is an [option]; where the source compares such a value
      with a number, [None] raises [TypeError] as it does in Python.
    - Devices are objects owned by the maxcube client library; an entity
      holds a reference ([ref]) to one and reads its fields through the
      object store of the [World]. *)

From Stdlib Require Import ZArith QArith Lqa Lia List Bool.
From stdpp Require Import base option list strings functions gmap.

Local Open Scope Z_scope.

(** ** Python values *)

(** An attribute slot of an object: [hasattr(obj, name)] is false on
    [Absent] and true on [Present v], where [v] is [obj.name]. *)
Inductive attr (A : Type) : Type :=
| Absent
| Present (v : A).
Arguments Absent {A}.
Arguments Present {A} v.

(** [getattr(obj, name, default)] *)
Definition getattr {A} (a : attr A) (default : A) : A :=
  match a with Absent => default | Present v => v end.

(** Truth value of a float-or-None: [None] and [0.0] are falsy. *)
Definition truthy (x : option Q) : bool :=
  match x with
  | None => false
  | Some q => negb (Qeq_bool q 0)
  end.

(** [x or default] where [default] is a float. *)
Definition py_or (x : option Q) (default : Q) : Q :=
  match x with
  | Some q => if truthy x then q else default
  | None => default
  end.

(** [a <= b] and [a < b] on floats. *)
Definition py_le (a b : Q) : bool := Qle_bool a b.
Definition py_lt (a b : Q) : bool := negb (Qle_bool b a).

(** Python's two-argument [max(a, b)]: the first argument is kept
    unless the second is strictly greater. *)
Definition py_max (a b : Q) : Q := if py_lt a b then b else a.

(** Python's two-argument [min(a, b)]: the first argument is kept
    unless the second is strictly smaller. *)
Definition py_min (a b : Q) : Q := if py_lt b a then b else a.

(** [a == b] on float-or-None operands. *)
Definition py_eq (a b : option Q) : bool :=
  match a, b with
  | Some x, Some y => Qeq_bool x y
  | None, None => true
  | _, _ => false
  end.

(** Equality of float-or-None values as numbers. *)
Definition same_number (a b : option Q) : Prop :=
  match a, b with
  | Some x, Some y => (x == y)%Q
  | None, None => True
  | _, _ => False
  end.

(** ** Exceptions and effects *)

(** The exception classes the source names, and the ones the client
    library can raise into it.  All of them derive from [Exception];
    [TimeoutError] and the connection errors derive from [OSError],
    [UpdateFailed] from [HomeAssistantError]. *)
Inductive exc_class : Type :=
| TimeoutError
| OSError
| OSErrorSubclass (cls : string)
| HomeAssistantError
| UpdateFailed
| ExceptionSubclass (cls : string).

(** An exception instance: class, [str(err)] and [__cause__]. *)
Inductive pyexc : Type :=
| Exc (cls : exc_class) (msg : string)
| ExcFrom (cls : exc_class) (msg : string) (cause : pyexc).

Definition exc_cls (e : pyexc) : exc_class :=
  match e with Exc c _ | ExcFrom c _ _ => c end.
Definition exc_str (e : pyexc) : string :=
  match e with Exc _ m | ExcFrom _ m _ => m end.
Definition exc_cause (e : pyexc) : option pyexc :=
  match e with Exc _ _ => None | ExcFrom _ _ c => Some c end.

(** [isinstance(err, TimeoutError)] *)
Definition is_TimeoutError (e : pyexc) : bool :=
  match exc_cls e with TimeoutError => true | _ => false end.

(** [isinstance(err, OSError)] *)
Definition is_OSError (e : pyexc) : bool :=
  match exc_cls e with
  | TimeoutError | OSError | OSErrorSubclass _ => true
  | _ => false
  end.

(** [TypeError(msg)] *)
Definition TypeError (msg : string) : pyexc :=
  Exc (ExceptionSubclass "TypeError") msg.

(** [raise cls(msg) from err] *)
Definition raise_from (cls : exc_class) (msg : string) (err : pyexc) : pyexc :=
  ExcFrom cls msg err.

(** Outcome of a call: a value, or a raised exception. *)
Inductive result (A : Type) : Type :=
| Ok (a : A)
| Raise (e : pyexc).
Arguments Ok {A} a.
Arguments Raise {A} e.

(** Computations over a mutable state [S] that may raise.  A raise keeps
    the state reached so far: nothing is rolled back. *)
Definition M (S A : Type) : Type := S -> result A * S.

#[global] Instance M_ret {S} : MRet (M S) := fun A a s => (Ok a, s).

#[global] Instance M_bind {S} : MBind (M S) := fun A B k c s =>
  match c s with
  | (Ok a, s') => k a s'
  | (Raise e, s') => (Raise e, s')
  end.

Definition raise {S A} (e : pyexc) : M S A := fun s => (Raise e, s).

(** [try: c  except Exception as err: h err] (every modelled class
    derives from [Exception]). *)
Definition try_except {S A} (c : M S A) (h : pyexc -> M S A) : M S A :=
  fun s => match c s with
           | (Ok a, s') => (Ok a, s')
           | (Raise e, s') => h e s'
           end.

Definition get {S} : M S S := fun s => (Ok s, s).
Definition modify {S} (f : S -> S) : M S unit := fun s => (Ok tt, f s).


(** ** The device model of the client library *)

(** Identity of a Python object. *)
Definition ref : Type := positive.
#[global] Instance ref_eq_dec : EqDecision ref := Pos.eq_dec.

(** A [MaxDevice] instance as the integration reads it.  The library
    creates a device with [None] in every field below and fills them in
    from the cube's data, so each of them may still be [None]. *)
Record MaxDevice : Type := {
  type : Z;
  rf_address : string;
  room_id : Z;
  name : string;
  serial : string;
  battery : attr (option Z);
  mode : option Z;
  target_temperature : option Q;
  actual_temperature : option Q;
  comfort_temperature : option Q;
  eco_temperature : option Q;
  min_temperature : attr (option Q);
  max_temperature : attr (option Q);
  valve_position : attr (option Z);
  is_open : attr (option bool)
}.

Record MaxRoom : Type := {
  room_ident : Z;
  room_name : string
}.

(** A [MaxCube] instance: its public attributes. *)
Record MaxCube : Type := {
  devices : list ref;
  rooms : list MaxRoom;
  cube_serial : string;
  firmware_version : string;
  use_persistent_connection : bool
}.

(** The objects the library owns and mutates in place. *)
Record Heap : Type := {
  device_obj : ref -> MaxDevice;
  cube_obj : ref -> MaxCube
}.

(** The part of [maxcube.cube] and [maxcube.device] that the integration
    calls.  The library is not part of this repository: its constants,
    its queries and its two blocking session operations are left
    abstract, so every result below holds for any behaviour of it. *)
Class MaxCubeLibrary : Type := {
  MAX_DEVICE_MODE_AUTOMATIC : Z;
  MAX_DEVICE_MODE_MANUAL : Z;
  MAX_DEVICE_MODE_VACATION : Z;
  MAX_DEVICE_MODE_BOOST : Z;
  is_thermostat : MaxDevice -> bool;
  is_wallthermostat : MaxDevice -> bool;
  is_windowshutter : MaxDevice -> bool;
  (** [cube.device_by_rf(rf)] *)
  device_by_rf : Heap -> ref -> string -> option ref;
  (** [cube.room_by_id(id)] *)
  room_by_id : Heap -> ref -> Z -> option MaxRoom;
  (** [cube.devices_by_room(room)] *)
  devices_by_room : Heap -> ref -> MaxRoom -> list ref;
  (** [MaxCube(host, port, now=now)] *)
  MaxCube_new : string -> Z -> Heap -> result ref * Heap;
  (** [cube.update()] *)
  cube_update : ref -> Heap -> result unit * Heap;
  (** [cube.set_temperature_mode(device, temperature, mode)] *)
  cube_set_temperature_mode :
    ref -> ref -> option Q -> option Z -> Heap -> result unit * Heap
}.

(** ** Home Assistant constants *)

Module HVACMode.
Inductive t : Type := OFF | HEAT | COOL | HEAT_COOL | AUTO | DRY | FAN_ONLY.
#[global] Instance eq_dec : EqDecision t.
Proof. solve_decision. Defined.
End HVACMode.

Module HVACAction.
Inductive t : Type :=
  COOLING | DEFROSTING | DRYING | FAN | HEATING | IDLE | OFF | PREHEATING.
#[global] Instance eq_dec : EqDecision t.
Proof. solve_decision. Defined.
End HVACAction.

Definition PRESET_AWAY : string := "away".
Definition PRESET_BOOST : string := "boost".
Definition PRESET_COMFORT : string := "comfort".
Definition PRESET_ECO : string := "eco".

(** ** [datetime.timedelta] *)

(** A timedelta is kept normalised: [0 <= seconds < 86400] and
    [0 <= microseconds < 1000000]; only [days] may be negative. *)
Record timedelta : Type := {
  days : Z;
  seconds : Z;
  microseconds : Z
}.

Definition timedelta_wf (td : timedelta) : Prop :=
  0 <= seconds td < 86400 /\ 0 <= microseconds td < 1000000.

(** [timedelta(seconds=s)] for an integer [s]. *)
Definition timedelta_of_seconds (s : Z) : timedelta :=
  {| days := s / 86400; seconds := s mod 86400; microseconds := 0 |}.

(** [a <= b]: comparison of the [(days, seconds, microseconds)] tuples. *)
Definition timedelta_le (a b : timedelta) : bool :=
  if days a <? days b then true
  else if days b <? days a then false
  else if seconds a <? seconds b then true
  else if seconds b <? seconds a then false
  else microseconds a <=? microseconds b.

Definition total_microseconds (td : timedelta) : Z :=
  (days td * 86400 + seconds td) * 1000000 + microseconds td.

(** ** The coordinator and the world around an entity *)

(** [MaxCubeDataUpdateCoordinator]: [cube] is the identity of its
    [MaxCube] object; [data] is what the last successful refresh
    returned; [refresh_requests] counts [async_request_refresh()]. *)
Record MaxCubeDataUpdateCoordinator : Type := {
  cube : ref;
  _host : string;
  update_interval : timedelta;
  data : option ref;
  last_exception : option pyexc;
  refresh_requests : nat
}.

(** A blocking library call handed to the executor. *)
Inductive LibCall : Type :=
| CallUpdate (cube : ref)
| CallSetTemperatureMode (cube device : ref)
    (temperature : option Q) (mode : option Z).

(** What [async_write_ha_state()] publishes for an entity. *)
Inductive HaState : Type :=
| ClimateState (unique_id : string)
    (hvac_mode : option HVACMode.t) (hvac_action : option HVACAction.t)
    (current_temperature target_temperature : option Q)
    (preset_mode : option string)
    (extra_state_attributes : gmap string (option Z))
    (min_temp max_temp : Q)
| BinarySensorState (unique_id : string) (is_on : option bool).

Record World : Type := {
  coordinator : MaxCubeDataUpdateCoordinator;
  heap : Heap;
  calls : list LibCall;
  states : list HaState
}.

(** State seen by a method of an entity: the entity and its world. *)
Record Env (Self : Type) : Type := {
  self : Self;
  world : World
}.
Arguments self {Self} e.
Arguments world {Self} e.

Definition set_self {Self} (f : Self -> Self) (s : Env Self) : Env Self :=
  {| self := f (self s); world := world s |}.

Definition set_world {Self} (f : World -> World) (s : Env Self) : Env Self :=
  {| self := self s; world := f (world s) |}.

(** Running a blocking library call: the call is recorded, the library
    acts on the heap, and its outcome is the outcome of the [await]. *)
Definition executor_job (c : LibCall) (job : Heap -> result unit * Heap)
  : M World unit :=
  fun w =>
    let '(r, h) := job (heap w) in
    (r, {| coordinator := coordinator w; heap := h;
           calls := calls w ++ [c]; states := states w |}).

(** [coordinator.async_request_refresh()] *)
Definition async_request_refresh : M World unit :=
  modify (fun w =>
    let c := coordinator w in
    {| coordinator :=
         {| cube := cube c; _host := _host c;
            update_interval := update_interval c; data := data c;
            last_exception := last_exception c;
            refresh_requests := S (refresh_requests c) |};
       heap := heap w; calls := calls w; states := states w |}).

(** A computation on the world, run from inside an entity method. *)
Definition in_world {Self A} (c : M World A) : M (Env Self) A :=
  fun s => let '(r, w) := c (world s) in
           (r, {| self := self s; world := w |}).

Definition publish {Self} (st : HaState) : M (Env Self) unit :=
  modify (set_world (fun w =>
    {| coordinator := coordinator w; heap := heap w; calls := calls w;
       states := states w ++ [st] |})).

(** [self.coordinator.data]: [None] has no [device_by_rf]. *)
Definition coordinator_data {Self} : M (Env Self) ref :=
  s ← get;
  match data (coordinator (world s)) with
  | Some c => mret c
  | None =>
      raise (Exc (ExceptionSubclass "AttributeError")
               "'NoneType' object has no attribute 'device_by_rf'")
  end.

(** * climate.py *)

Module Climate.
Section WithLibrary.
Context `{MaxCubeLibrary}.

Definition ATTR_VALVE_POSITION : string := "valve_position".
Definition PRESET_ON : string := "on".

Definition OFF_TEMPERATURE : Q := 9 # 2.
Definition ON_TEMPERATURE : Q := 61 # 2.
Definition MIN_TEMPERATURE : Q := 5.
Definition MAX_TEMPERATURE : Q := 30.

(** The dict literal [MODE_TO_HVAC_MODE], keys inserted in source order. *)
Definition MODE_TO_HVAC_MODE : gmap Z HVACMode.t :=
  <[MAX_DEVICE_MODE_BOOST := HVACMode.AUTO]>
  (<[MAX_DEVICE_MODE_VACATION := HVACMode.AUTO]>
  (<[MAX_DEVICE_MODE_MANUAL := HVACMode.HEAT]>
  (<[MAX_DEVICE_MODE_AUTOMATIC := HVACMode.AUTO]> ∅))).

Definition SUPPORT_PRESETS : list string :=
  [PRESET_BOOST; PRESET_COMFORT; PRESET_ECO; PRESET_AWAY; PRESET_ON].

(** [MaxCubeClimate]: the device reference, the cube reference and the
    cached [_attr_*] state attributes.  ([_attr_device_info] is set once
    in [__init__] and never read by the methods below.) *)
Record MaxCubeClimate : Type := {
  _device : ref;
  _cube : ref;
  _attr_unique_id : string;
  _attr_hvac_mode : option HVACMode.t;
  _attr_hvac_action : option HVACAction.t;
  _attr_current_temperature : option Q;
  _attr_target_temperature : option Q;
  _attr_preset_mode : option string;
  _attr_extra_state_attributes : gmap string (option Z)
}.

(** Property [min_temp], for [self._device] being the object [d]. *)
Definition min_temp (d : MaxDevice) : Q :=
  let min_t :=
    py_or (getattr (min_temperature d) (Some MIN_TEMPERATURE)) MIN_TEMPERATURE in
  py_max min_t MIN_TEMPERATURE.

(** Property [max_temp]. *)
Definition max_temp (d : MaxDevice) : Q :=
  let max_t :=
    py_or (getattr (max_temperature d) (Some MAX_TEMPERATURE)) MAX_TEMPERATURE in
  py_min max_t MAX_TEMPERATURE.

(** [_get_current_preset], for [self._device] being the object [d]. *)
Definition _get_current_preset (d : MaxDevice) : option string :=
  let mode := mode d in
  let target_temp := target_temperature d in
  let comfort_temp := comfort_temperature d in
  let eco_temp := eco_temperature d in
  if bool_decide (mode = Some MAX_DEVICE_MODE_BOOST) then Some PRESET_BOOST
  else if bool_decide (mode = Some MAX_DEVICE_MODE_VACATION) then Some PRESET_AWAY
  else if bool_decide (mode = Some MAX_DEVICE_MODE_MANUAL) then
    if py_eq target_temp comfort_temp then Some PRESET_COMFORT
    else if py_eq target_temp eco_temp then Some PRESET_ECO
    else if py_eq target_temp (Some ON_TEMPERATURE) then Some PRESET_ON
    else None
  else None.

(** [None > 0] and the like: ordering [None] against an int. *)
Definition none_gt_int : pyexc :=
  TypeError "'>' not supported between instances of 'NoneType' and 'int'".

(** The loop of [_update_attrs] over the devices of a wall thermostat's
    room (lines 162-164): the largest valve position among its
    thermostats.  [dev.valve_position > valve] raises on a thermostat
    whose valve position is [None]. *)
Fixpoint room_valve (h : Heap) (devs : list ref) (valve : Z) : result Z :=
  match devs with
  | [] => Ok valve
  | r :: devs' =>
      let dev := device_obj h r in
      if is_thermostat dev then
        match valve_position dev with
        | Present (Some v) =>
            room_valve h devs' (if valve <? v then v else valve)
        | Present None => Raise none_gt_int
        | Absent => room_valve h devs' valve
        end
      else room_valve h devs' valve
  end.

(** Lines 139-152: the HVAC mode shown for the device. *)
Definition hvac_mode_for (d : MaxDevice) : option HVACMode.t :=
  let mode := mode d in
  let target_temp := target_temperature d in
  if bool_decide (mode = Some MAX_DEVICE_MODE_MANUAL)
     && py_eq target_temp (Some OFF_TEMPERATURE)
  then Some HVACMode.OFF
  else match mode ≫= (MODE_TO_HVAC_MODE !!.) with
       | Some hm =>
           if bool_decide (hm = HVACMode.HEAT)
              && py_eq target_temp (Some OFF_TEMPERATURE)
           then Some HVACMode.OFF else Some hm
       | None => None
       end.

(** Lines 155-164: the valve position looked at, the device's own or the
    largest of its room. *)
Definition valve_for (h : Heap) (cube : ref) (d : MaxDevice)
  : result (option Z) :=
  match is_thermostat d, valve_position d with
  | true, Present v => Ok v
  | _, _ =>
      if is_wallthermostat d then
        match room_by_id h cube (room_id d) with
        | Some room =>
            match room_valve h (devices_by_room h cube room) 0 with
            | Ok v => Ok (Some v)
            | Raise err => Raise err
            end
        | None => Ok (Some 0)
        end
      else Ok (Some 0)
  end.

(** Lines 166-171: the HVAC action; [valve > 0] is evaluated only when
    the mode is not OFF. *)
Definition hvac_action_for (hvac_mode : option HVACMode.t) (valve : option Z)
  : result HVACAction.t :=
  if bool_decide (hvac_mode = Some HVACMode.OFF) then Ok HVACAction.OFF
  else match valve with
       | Some v => Ok (if 0 <? v then HVACAction.HEATING else HVACAction.IDLE)
       | None => Raise none_gt_int
       end.

(** Lines 176-192: the target temperature shown. *)
Definition target_for (hvac_mode : option HVACMode.t) (d : MaxDevice)
  : option Q :=
  if bool_decide (hvac_mode ≠ Some HVACMode.OFF) then
    match target_temperature d with
    | Some temp =>
        if py_le (min_temp d) temp && py_le temp (max_temp d) then Some temp
        else if bool_decide (hvac_mode = Some HVACMode.AUTO) then None
        else comfort_temperature d
    | None =>
        if bool_decide (hvac_mode = Some HVACMode.AUTO) then None
        else comfort_temperature d
    end
  else None.

(** Lines 198-201: the extra state attributes. *)
Definition extra_attrs_for (d : MaxDevice) : gmap string (option Z) :=
  match is_thermostat d, valve_position d with
  | true, Present v => <[ATTR_VALVE_POSITION := v]> ∅
  | _, _ => ∅
  end.

Definition with_hvac_mode (m : option HVACMode.t) (e : MaxCubeClimate)
  : MaxCubeClimate :=
  {| _device := _device e;
     _cube := _cube e;
     _attr_unique_id := _attr_unique_id e;
     _attr_hvac_mode := m;
     _attr_hvac_action := _attr_hvac_action e;
     _attr_current_temperature := _attr_current_temperature e;
     _attr_target_temperature := _attr_target_temperature e;
     _attr_preset_mode := _attr_preset_mode e;
     _attr_extra_state_attributes := _attr_extra_state_attributes e |}.

(** [_update_attrs].  The attributes are assigned in source order: the
    HVAC mode first; a [TypeError] from a valve comparison leaves the
    entity with the new mode and every other attribute as it was. *)
Definition _update_attrs (h : Heap) (e : MaxCubeClimate)
  : result unit * MaxCubeClimate :=
  let d := device_obj h (_device e) in
  let hvac_mode := hvac_mode_for d in
  let e1 := with_hvac_mode hvac_mode e in
  match valve_for h (_cube e) d with
  | Raise err => (Raise err, e1)
  | Ok valve =>
      match hvac_action_for hvac_mode valve with
      | Raise err => (Raise err, e1)
      | Ok hvac_action =>
          (Ok tt,
           {| _device := _device e;
              _cube := _cube e;
              _attr_unique_id := _attr_unique_id e;
              _attr_hvac_mode := hvac_mode;
              _attr_hvac_action := Some hvac_action;
              _attr_current_temperature := actual_temperature d;
              _attr_target_temperature := target_for hvac_mode d;
              _attr_preset_mode := _get_current_preset d;
              _attr_extra_state_attributes := extra_attrs_for d |})
      end
  end.

(** The state [async_write_ha_state()] publishes: the cached attributes
    and the [min_temp]/[max_temp] properties. *)
Definition climate_state (h : Heap) (e : MaxCubeClimate) : HaState :=
  let d := device_obj h (_device e) in
  ClimateState (_attr_unique_id e) (_attr_hvac_mode e) (_attr_hvac_action e)
    (_attr_current_temperature e) (_attr_target_temperature e)
    (_attr_preset_mode e) (_attr_extra_state_attributes e)
    (min_temp d) (max_temp d).

Definition async_write_ha_state : M (Env MaxCubeClimate) unit :=
  s ← get;
  publish (climate_state (heap (world s)) (self s)).

(** The cached state attributes of the entity. *)
Definition state_attrs (e : MaxCubeClimate) :=
  (_attr_hvac_mode e, _attr_hvac_action e, _attr_current_temperature e,
   _attr_target_temperature e, _attr_preset_mode e,
   _attr_extra_state_attributes e).

Definition with_device (o : ref) (e : MaxCubeClimate) : MaxCubeClimate :=
  {| _device := o;
     _cube := _cube e;
     _attr_unique_id := _attr_unique_id e;
     _attr_hvac_mode := _attr_hvac_mode e;
     _attr_hvac_action := _attr_hvac_action e;
     _attr_current_temperature := _attr_current_temperature e;
     _attr_target_temperature := _attr_target_temperature e;
     _attr_preset_mode := _attr_preset_mode e;
     _attr_extra_state_attributes := _attr_extra_state_attributes e |}.

(** [self._update_attrs()] as a step of the entity's methods: the
    attributes assigned before a raise stay assigned. *)
Definition update_attrs : M (Env MaxCubeClimate) unit :=
  fun s =>
    let '(r, e) := _update_attrs (heap (world s)) (self s) in
    (r, set_self (fun _ => e) s).

(** [_handle_coordinator_update].  A [MaxDevice] object is truthy, so
    [if updated_device:] is the test for a found device.  When
    [_update_attrs] raises, [async_write_ha_state] is not reached. *)
Definition _handle_coordinator_update : M (Env MaxCubeClimate) unit :=
  snapshot ← coordinator_data;
  s ← get;
  let h := heap (world s) in
  match device_by_rf h snapshot (rf_address (device_obj h (_device (self s)))) with
  | Some updated_device =>
      modify (set_self (with_device updated_device));;
      update_attrs;;
      async_write_ha_state
  | None => mret tt
  end.

(** [_async_set_temperature_mode]: the blocking call, then the refresh
    request, both inside the [try]. *)
Definition _async_set_temperature_mode
    (temperature : option Q) (mode : option Z) : M (Env MaxCubeClimate) unit :=
  s ← get;
  let cube := cube (coordinator (world s)) in
  let dev := _device (self s) in
  try_except
    (in_world
       (executor_job (CallSetTemperatureMode cube dev temperature mode)
          (cube_set_temperature_mode cube dev temperature mode));;
     in_world async_request_refresh)
    (fun err =>
       if is_TimeoutError err || is_OSError err then
         raise (raise_from HomeAssistantError
                  ("Failed to set mode/temperature: " +:+ exc_str err) err)
       else
         raise (raise_from HomeAssistantError
                  ("Unexpected error setting mode/temperature: " +:+ exc_str err)
                  err)).

Definition self_device (s : Env MaxCubeClimate) : MaxDevice :=
  device_obj (heap (world s)) (_device (self s)).

(** [max(None, self.min_temp)]: ordering a float against [None]. *)
Definition float_gt_none : pyexc :=
  TypeError "'>' not supported between instances of 'float' and 'NoneType'".

(** [async_set_hvac_mode].  In the HEAT branch [max(temp, self.min_temp)]
    raises when neither the cached target nor the comfort temperature
    gives a number. *)
Definition async_set_hvac_mode (hvac_mode : HVACMode.t)
  : M (Env MaxCubeClimate) unit :=
  match hvac_mode with
  | HVACMode.OFF =>
      _async_set_temperature_mode (Some OFF_TEMPERATURE)
        (Some MAX_DEVICE_MODE_MANUAL)
  | HVACMode.HEAT =>
      s ← get;
      let current_target := _attr_target_temperature (self s) in
      let temp :=
        match current_target with
        | Some t =>
            if py_lt OFF_TEMPERATURE t then Some t
            else comfort_temperature (self_device s)
        | None => comfort_temperature (self_device s)
        end in
      match temp with
      | Some temp =>
          let temp := py_max temp (min_temp (self_device s)) in
          _async_set_temperature_mode (Some temp) (Some MAX_DEVICE_MODE_MANUAL)
      | None => raise float_gt_none
      end
  | HVACMode.AUTO =>
      _async_set_temperature_mode None (Some MAX_DEVICE_MODE_AUTOMATIC)
  | _ => mret tt
  end.

(** [async_set_preset_mode] *)
Definition async_set_preset_mode (preset_mode : string)
  : M (Env MaxCubeClimate) unit :=
  s ← get;
  if bool_decide (preset_mode = PRESET_BOOST) then
    _async_set_temperature_mode None (Some MAX_DEVICE_MODE_BOOST)
  else if bool_decide (preset_mode = PRESET_AWAY) then
    _async_set_temperature_mode None (Some MAX_DEVICE_MODE_VACATION)
  else if bool_decide (preset_mode = PRESET_COMFORT) then
    _async_set_temperature_mode (comfort_temperature (self_device s))
      (Some MAX_DEVICE_MODE_MANUAL)
  else if bool_decide (preset_mode = PRESET_ECO) then
    _async_set_temperature_mode (eco_temperature (self_device s))
      (Some MAX_DEVICE_MODE_MANUAL)
  else if bool_decide (preset_mode = PRESET_ON) then
    _async_set_temperature_mode (Some ON_TEMPERATURE)
      (Some MAX_DEVICE_MODE_MANUAL)
  else mret tt.

(** [async_set_temperature]; the argument is the value of
    [kwargs.get(ATTR_TEMPERATURE)]. *)
Definition async_set_temperature (temperature : option Q)
  : M (Env MaxCubeClimate) unit :=
  match temperature with
  | None => mret tt
  | Some temp =>
      s ← get;
      let d := self_device s in
      let temp := py_max (min_temp d) (py_min (max_temp d) temp) in
      _async_set_temperature_mode (Some temp) (Some MAX_DEVICE_MODE_MANUAL)
  end.

End WithLibrary.
End Climate.

(** The value [async_set_temperature] computes on line 300. *)
Definition clamped (d : MaxDevice) (t : Q) : Q :=
  py_max (Climate.min_temp d) (py_min (Climate.max_temp d) t).

(** * binary_sensor.py *)

Module BinarySensor.
Section WithLibrary.
Context `{MaxCubeLibrary}.

(** [MaxCubeBinarySensorBase] *)
Record MaxCubeBinarySensorBase : Type := {
  _device : ref;
  _cube : ref;
  _attr_unique_id : string
}.

(** [MaxCubeShutter.is_on], for [self._device] being the object [d]
    (an object is truthy, so the guard is the [hasattr] test). *)
Definition MaxCubeShutter_is_on (d : MaxDevice) : option bool :=
  match is_open d with
  | Present v => v
  | Absent => None
  end.

(** [MaxCubeBattery.is_on]: [self._device.battery == 1]. *)
Definition MaxCubeBattery_is_on (d : MaxDevice) : option bool :=
  match battery d with
  | Present b => Some (bool_decide (b = Some 1))
  | Absent => None
  end.

Section Base.
(** The [is_on] property of the concrete sensor class. *)
Variable is_on : MaxDevice -> option bool.

Definition async_write_ha_state : M (Env MaxCubeBinarySensorBase) unit :=
  s ← get;
  publish (BinarySensorState (_attr_unique_id (self s))
             (is_on (device_obj (heap (world s)) (_device (self s))))).

Definition with_device (o : ref) (e : MaxCubeBinarySensorBase)
  : MaxCubeBinarySensorBase :=
  {| _device := o; _cube := _cube e; _attr_unique_id := _attr_unique_id e |}.

(** [MaxCubeBinarySensorBase._handle_coordinator_update] *)
Definition _handle_coordinator_update : M (Env MaxCubeBinarySensorBase) unit :=
  snapshot ← coordinator_data;
  s ← get;
  let h := heap (world s) in
  match device_by_rf h snapshot (rf_address (device_obj h (_device (self s)))) with
  | Some updated_device =>
      modify (set_self (with_device updated_device));;
      async_write_ha_state
  | None => mret tt
  end.

End Base.
End WithLibrary.
End BinarySensor.

(** * __init__.py *)

Module Coordinator.
Section WithLibrary.
Context `{MaxCubeLibrary}.

Definition DEFAULT_SCAN_INTERVAL : timedelta := timedelta_of_seconds 30.

Definition set_use_persistent_connection (c : ref) (b : bool) (h : Heap) : Heap :=
  let o := cube_obj h c in
  {| device_obj := device_obj h;
     cube_obj := <[c := {| devices := devices o; rooms := rooms o;
                           cube_serial := cube_serial o;
                           firmware_version := firmware_version o;
                           use_persistent_connection := b |}]> (cube_obj h) |}.

(** [MaxCubeDataUpdateCoordinator.__init__] *)
Definition __init__ (host : string) (port : Z) (update_interval : timedelta)
  : M Heap MaxCubeDataUpdateCoordinator :=
  c ← MaxCube_new host port;
  modify (set_use_persistent_connection c
            (timedelta_le update_interval (timedelta_of_seconds 300)));;
  mret {| cube := c; _host := host; update_interval := update_interval;
          data := None; last_exception := None; refresh_requests := 0 |}.

(** [_async_update_data].  The first handler is [except TimeoutError],
    the second [except Exception]. *)
Definition _async_update_data : M World ref :=
  w ← get;
  let c := coordinator w in
  try_except
    (executor_job (CallUpdate (cube c)) (cube_update (cube c));;
     mret (cube c))
    (fun err =>
       if is_TimeoutError err then
         raise (raise_from UpdateFailed
                  ("Timeout communicating with MAX! Cube " +:+ _host c
                   +:+ ": " +:+ exc_str err) err)
       else
         raise (raise_from UpdateFailed
                  ("Error communicating with MAX! Cube " +:+ _host c
                   +:+ ": " +:+ exc_str err) err)).

Definition set_data (d : option ref) (e : option pyexc) (w : World) : World :=
  let c := coordinator w in
  {| coordinator :=
       {| cube := cube c; _host := _host c;
          update_interval := update_interval c; data := d;
          last_exception := e; refresh_requests := refresh_requests c |};
     heap := heap w; calls := calls w; states := states w |}.

(** One refresh as the [DataUpdateCoordinator] base class of Home
    Assistant drives it: [self.data] is assigned only from a returned
    value of [_async_update_data]; a raised [UpdateFailed] is kept in
    [last_exception] and not propagated. *)
Definition async_refresh : M World unit :=
  fun w =>
    match _async_update_data w with
    | (Ok d, w') => (Ok tt, set_data (Some d) None w')
    | (Raise e, w') => (Ok tt, set_data (data (coordinator w')) (Some e) w')
    end.

End WithLibrary.
End Coordinator.

(** * Scheduling of coroutines and executor jobs *)

(** The event loop interleaves coroutines at their [await] points and
    the executor runs each blocking job on a worker thread.  A coroutine
    is the sequence of its scheduling-relevant operations. *)
Module Scheduling.

Inductive job : Type :=
| Update
| SetTemperatureMode.

Inductive op : Type :=
| Acquire                (* enter [async with self._update_lock] *)
| Release                (* leave it, also when unwinding *)
| JobStart (j : job)     (* the executor starts the blocking call *)
| JobEnd                 (* the call returns and the await resumes *)
| RequestRefresh.        (* [coordinator.async_request_refresh()] *)

(** [_async_update_data], [__init__.py] lines 137-152. *)
Definition refresh_task : list op :=
  [Acquire; JobStart Update; JobEnd; Release].

(** [_async_set_temperature_mode], [climate.py] lines 315-321. *)
Definition command_task : list op :=
  [JobStart SetTemperatureMode; JobEnd; RequestRefresh].

Record sched : Type := {
  locked : bool;
  tasks : list (list op)
}.

Definition is_release (o : op) : bool :=
  match o with Release => true | _ => false end.

(** What is left of a coroutine when its job raises: the exits of the
    context managers it is inside. *)
Definition unwind (rest : list op) : list op := List.filter is_release rest.

(** A task is on the wire while its blocking call is running. *)
Definition on_wire (t : list op) : bool :=
  match t with JobEnd :: _ => true | _ => false end.

Fixpoint count (p : list op -> bool) (ts : list (list op)) : nat :=
  match ts with
  | [] => 0
  | t :: ts' => (if p t then 1 else 0) + count p ts'
  end.

(** Number of session operations outstanding on the wire. *)
Definition wire_users (s : sched) : nat := count on_wire (tasks s).

(** A task is inside [async with self._update_lock] from after its
    [Acquire] until its [Release]. *)
Definition in_lock (t : list op) : bool :=
  match t with
  | JobStart Update :: _ | JobEnd :: _ | Release :: _ => true
  | _ => false
  end.

(** The points a refresh coroutine can be at. *)
Definition refresh_point (t : list op) : Prop :=
  t = refresh_task \/ t = [JobStart Update; JobEnd; Release] \/
  t = [JobEnd; Release] \/ t = [Release] \/ t = [].

(** The lock is held by exactly the one refresh that is inside it. *)
Definition lock_invariant (s : sched) : Prop :=
  Forall refresh_point (tasks s) /\
  count in_lock (tasks s) = (if locked s then 1 else 0)%nat.

(** One scheduling decision: task [i] performs its next operation, or
    its running job raises. *)
Inductive choice : Type :=
| Run (i : nat)
| Fail (i : nat).

Definition step (c : choice) (s : sched) : option sched :=
  match c with
  | Run i =>
      match tasks s !! i with
      | Some (Acquire :: rest) =>
          if locked s then None
          else Some {| locked := true; tasks := <[i := rest]> (tasks s) |}
      | Some (Release :: rest) =>
          Some {| locked := false; tasks := <[i := rest]> (tasks s) |}
      | Some (_ :: rest) =>
          Some {| locked := locked s; tasks := <[i := rest]> (tasks s) |}
      | _ => None
      end
  | Fail i =>
      match tasks s !! i with
      | Some (JobEnd :: rest) =>
          Some {| locked := locked s; tasks := <[i := unwind rest]> (tasks s) |}
      | _ => None
      end
  end.

Fixpoint run (cs : list choice) (s : sched) : option sched :=
  match cs with
  | [] => Some s
  | c :: cs' =>
      match step c s with
      | Some s' => run cs' s'
      | None => None
      end
  end.

Definition start (ts : list (list op)) : sched :=
  {| locked := false; tasks := ts |}.

End Scheduling.

(** * A concrete client library *)

(** A stand-in for the client library, with the queries as plain list
    searches and session operations that succeed without touching the
    heap; used to run the definitions above on concrete inputs. *)
Module Concrete.

Definition find_device (h : Heap) (rf : string) (l : list ref) : option ref :=
  List.find (fun r => bool_decide (rf_address (device_obj h r) = rf)) l.

Definition library : MaxCubeLibrary := {|
  MAX_DEVICE_MODE_AUTOMATIC := 0;
  MAX_DEVICE_MODE_MANUAL := 1;
  MAX_DEVICE_MODE_VACATION := 2;
  MAX_DEVICE_MODE_BOOST := 3;
  is_thermostat d := (type d =? 1) || (type d =? 2);
  is_wallthermostat d := type d =? 3;
  is_windowshutter d := type d =? 4;
  device_by_rf h c rf := find_device h rf (devices (cube_obj h c));
  room_by_id h c i :=
    List.find (fun r => room_ident r =? i) (rooms (cube_obj h c));
  devices_by_room h c r :=
    List.filter (fun o => room_id (device_obj h o) =? room_ident r)
      (devices (cube_obj h c));
  MaxCube_new host port h := (Ok 1%positive, h);
  cube_update c h := (Ok tt, h);
  cube_set_temperature_mode c d t m h := (Ok tt, h)
|}.

(** A radiator thermostat in manual mode at 21.0 with valve at 40%. *)
Definition thermostat : MaxDevice := {|
  type := 1; rf_address := "1234AB"; room_id := 1; name := "Radiator";
  serial := "KEQ0000001";
  battery := Present (Some 0);
  mode := Some 1;
  target_temperature := Some 21%Q;
  actual_temperature := Some (41 # 2)%Q;
  comfort_temperature := Some 21%Q;
  eco_temperature := Some 17%Q;
  min_temperature := Present (Some (9 # 2)%Q);
  max_temperature := Present (Some (61 # 2)%Q);
  valve_position := Present (Some 40);
  is_open := Absent
|}.

Definition with_valve (v : attr (option Z)) (d : MaxDevice) : MaxDevice := {|
  type := type d; rf_address := rf_address d; room_id := room_id d;
  name := name d; serial := serial d; battery := battery d; mode := mode d;
  target_temperature := target_temperature d;
  actual_temperature := actual_temperature d;
  comfort_temperature := comfort_temperature d;
  eco_temperature := eco_temperature d;
  min_temperature := min_temperature d; max_temperature := max_temperature d;
  valve_position := v; is_open := is_open d
|}.

Definition with_presets (comfort eco : option Q) (d : MaxDevice) : MaxDevice := {|
  type := type d; rf_address := rf_address d; room_id := room_id d;
  name := name d; serial := serial d; battery := battery d; mode := mode d;
  target_temperature := target_temperature d;
  actual_temperature := actual_temperature d;
  comfort_temperature := comfort; eco_temperature := eco;
  min_temperature := min_temperature d; max_temperature := max_temperature d;
  valve_position := valve_position d; is_open := is_open d
|}.

(** The same thermostat before the cube has reported its valve: the
    field is there and holds [None]. *)
Definition thermostat_no_valve : MaxDevice :=
  with_valve (Present None) thermostat.

(** The same thermostat before the cube has reported its comfort
    temperature. *)
Definition thermostat_no_comfort : MaxDevice :=
  with_presets None (Some 17%Q) thermostat.

Definition with_limits (lo hi : attr (option Q)) (d : MaxDevice) : MaxDevice := {|
  type := type d; rf_address := rf_address d; room_id := room_id d;
  name := name d; serial := serial d; battery := battery d; mode := mode d;
  target_temperature := target_temperature d;
  actual_temperature := actual_temperature d;
  comfort_temperature := comfort_temperature d;
  eco_temperature := eco_temperature d;
  min_temperature := lo; max_temperature := hi;
  valve_position := valve_position d; is_open := is_open d
|}.

(** The same thermostat reporting a lower limit of 35.0. *)
Definition thermostat_min_35 : MaxDevice :=
  with_limits (Present (Some 35%Q)) (Present (Some (61 # 2)%Q)) thermostat.

(** The same thermostat reporting a lower limit of 30.5. *)
Definition thermostat_min_on : MaxDevice :=
  with_limits (Present (Some (61 # 2)%Q)) (Present (Some (61 # 2)%Q)) thermostat.

Definition with_setpoint (m : option Z) (t : option Q) (d : MaxDevice)
  : MaxDevice := {|
  type := type d; rf_address := rf_address d; room_id := room_id d;
  name := name d; serial := serial d; battery := battery d; mode := m;
  target_temperature := t;
  actual_temperature := actual_temperature d;
  comfort_temperature := comfort_temperature d;
  eco_temperature := eco_temperature d;
  min_temperature := min_temperature d; max_temperature := max_temperature d;
  valve_position := valve_position d; is_open := is_open d
|}.

(** A library whose [set_temperature_mode] also writes the new mode and
    set-point into the device object it was given. *)
Definition writing_library : MaxCubeLibrary := {|
  MAX_DEVICE_MODE_AUTOMATIC := 0;
  MAX_DEVICE_MODE_MANUAL := 1;
  MAX_DEVICE_MODE_VACATION := 2;
  MAX_DEVICE_MODE_BOOST := 3;
  is_thermostat := @is_thermostat library;
  is_wallthermostat := @is_wallthermostat library;
  is_windowshutter := @is_windowshutter library;
  device_by_rf := @device_by_rf library;
  room_by_id := @room_by_id library;
  devices_by_room := @devices_by_room library;
  MaxCube_new := @MaxCube_new library;
  cube_update := @cube_update library;
  cube_set_temperature_mode c d t m h :=
    (Ok tt,
     {| device_obj := <[d := with_setpoint m t (device_obj h d)]> (device_obj h);
        cube_obj := cube_obj h |})
|}.

Definition living_room : MaxRoom := {| room_ident := 1; room_name := "Living Room" |}.

Definition the_cube : MaxCube := {|
  devices := [2%positive]; rooms := [living_room];
  cube_serial := "KEQ0523864"; firmware_version := "0113";
  use_persistent_connection := true
|}.

Definition heap_of (d : MaxDevice) : Heap :=
  {| device_obj := fun _ => d; cube_obj := fun _ => the_cube |}.

Definition the_coordinator : MaxCubeDataUpdateCoordinator := {|
  cube := 1%positive; _host := "192.168.0.20";
  update_interval := timedelta_of_seconds 30;
  data := Some 1%positive; last_exception := None; refresh_requests := 0
|}.

Definition world_of (d : MaxDevice) : World :=
  {| coordinator := the_coordinator; heap := heap_of d;
     calls := []; states := [] |}.

Definition blank_climate : Climate.MaxCubeClimate := {|
  Climate._device := 2%positive; Climate._cube := 1%positive;
  Climate._attr_unique_id := "KEQ0000001";
  Climate._attr_hvac_mode := None; Climate._attr_hvac_action := None;
  Climate._attr_current_temperature := None;
  Climate._attr_target_temperature := None;
  Climate._attr_preset_mode := None;
  Climate._attr_extra_state_attributes := ∅
|}.

Definition climate_env (d : MaxDevice) : Env Climate.MaxCubeClimate :=
  {| self := blank_climate; world := world_of d |}.

Definition battery_sensor : BinarySensor.MaxCubeBinarySensorBase := {|
  BinarySensor._device := 2%positive; BinarySensor._cube := 1%positive;
  BinarySensor._attr_unique_id := "KEQ0000001_battery_low"
|}.

Definition sensor_env (d : MaxDevice) : Env BinarySensor.MaxCubeBinarySensorBase :=
  {| self := battery_sensor; world := world_of d |}.

End Concrete.

(** * const.py *)

Definition DOMAIN : string := "maxcube".
Definition DEFAULT_PORT : Z := 62910.
Definition MANUFACTURER : string := "eQ-3".

(** * Home Assistant around the integration *)

Inductive Platform : Type := CLIMATE | BINARY_SENSOR.

Definition EVENT_HOMEASSISTANT_STOP : string := "homeassistant_stop".

(** The callables the integration hands to Home Assistant: the closure
    [_async_disconnect] of [async_setup_entry], the remover that
    [hass.bus.async_listen_once] returns for a listener, and the bound
    method [coordinator.async_unload]. *)
Inductive Callback : Type :=
| AsyncDisconnect (cube : ref)
| RemoveListener (event : string) (listener : Callback)
| CoordinatorUnload (cube : ref).

(** Keyword arguments of [device_registry.async_get_or_create]. *)
Record GatewayDevice : Type := {
  gw_config_entry_id : string;
  gw_identifiers : string * string;
  gw_name : string;
  gw_manufacturer : string;
  gw_model : string;
  gw_sw_version : string;
  gw_configuration_url : string
}.

(** The services of Home Assistant and the one further library call the
    integration uses.  [HA] is the state Home Assistant keeps for itself
    (registries, listeners, flows); every service is left abstract and
    may raise. *)
Class HomeAssistant : Type := {
  HA : Type;
  (** [cube.disconnect()] *)
  cube_disconnect : ref -> Heap -> result unit * Heap;
  (** [device_registry.async_get_or_create(...)] *)
  async_get_or_create : GatewayDevice -> HA -> result unit * HA;
  (** [hass.config_entries.async_forward_entry_setups(entry, platforms)] *)
  async_forward_entry_setups : string -> list Platform -> HA -> result unit * HA;
  (** [hass.config_entries.async_unload_platforms(entry, platforms)] *)
  async_unload_platforms : string -> list Platform -> HA -> result bool * HA;
  (** [hass.bus.async_listen_once(event, listener)] *)
  async_listen_once : string -> Callback -> HA -> HA;
  (** [entry.async_on_unload(callback)] *)
  async_on_unload : string -> Callback -> HA -> HA;
  (** [self.async_set_unique_id(unique_id)] of a config flow *)
  async_set_unique_id : string -> HA -> result unit * HA;
  (** [self._abort_if_unique_id_configured()] of a config flow *)
  _abort_if_unique_id_configured : HA -> result unit * HA
}.

(** [hass]: the shared [hass.data] dict (per domain, the coordinators by
    entry id), the library's objects, the blocking calls run so far and
    the state of Home Assistant itself.  A coordinator is kept as the
    record it was when stored; the code below reads only its [cube]. *)
Record Hass `{HomeAssistant} : Type := {
  hass_data : gmap string (gmap string MaxCubeDataUpdateCoordinator);
  hass_heap : Heap;
  hass_calls : list LibCall;
  hass_disconnects : list ref;
  hass_ha : HA
}.

(** [config_entry.data] after [STEP_USER_DATA_SCHEMA]: both keys are
    present, the port defaulting to [DEFAULT_PORT]. *)
Record UserInput : Type := {
  CONF_HOST : string;
  CONF_PORT : Z
}.

Record ConfigEntry : Type := {
  entry_id : string;
  entry_data : UserInput
}.

#[global] Instance exc_class_eq_dec : EqDecision exc_class.
Proof. solve_decision. Defined.

(** [KeyError(key)] *)
Definition KeyError (key : string) : pyexc :=
  Exc (ExceptionSubclass "KeyError") ("'" +:+ key +:+ "'").

Section HassOperations.
Context `{MaxCubeLibrary} `{HomeAssistant}.

Definition with_data (f : gmap string (gmap string MaxCubeDataUpdateCoordinator)
                          -> gmap string (gmap string MaxCubeDataUpdateCoordinator))
    (hs : Hass) : Hass :=
  {| hass_data := f (hass_data hs); hass_heap := hass_heap hs;
     hass_calls := hass_calls hs; hass_disconnects := hass_disconnects hs;
     hass_ha := hass_ha hs |}.

(** A service of Home Assistant, run on its own state. *)
Definition in_ha {A} (service : HA -> result A * HA) : M Hass A :=
  fun hs =>
    let '(r, a) := service (hass_ha hs) in
    (r, {| hass_data := hass_data hs; hass_heap := hass_heap hs;
           hass_calls := hass_calls hs; hass_disconnects := hass_disconnects hs;
           hass_ha := a |}).

(** A computation on the library's heap alone. *)
Definition in_heap {A} (c : M Heap A) : M Hass A :=
  fun hs =>
    let '(r, h) := c (hass_heap hs) in
    (r, {| hass_data := hass_data hs; hass_heap := h;
           hass_calls := hass_calls hs; hass_disconnects := hass_disconnects hs;
           hass_ha := hass_ha hs |}).

(** [hass.async_add_executor_job(cube.disconnect)], awaited. *)
Definition executor_disconnect (c : ref) : M Hass unit :=
  fun hs =>
    let '(r, h) := cube_disconnect c (hass_heap hs) in
    (r, {| hass_data := hass_data hs; hass_heap := h;
           hass_calls := hass_calls hs;
           hass_disconnects := hass_disconnects hs ++ [c];
           hass_ha := hass_ha hs |}).

(** A coordinator method, run with [hass]'s heap and call log. *)
Definition as_coordinator {A} (c : MaxCubeDataUpdateCoordinator)
    (method : M World A) : M Hass (A * MaxCubeDataUpdateCoordinator) :=
  fun hs =>
    let '(r, w) :=
      method {| coordinator := c; heap := hass_heap hs;
                calls := hass_calls hs; states := [] |} in
    (match r with
     | Ok a => Ok (a, coordinator w)
     | Raise e => Raise e
     end,
     {| hass_data := hass_data hs; hass_heap := heap w;
        hass_calls := calls w; hass_disconnects := hass_disconnects hs;
        hass_ha := hass_ha hs |}).

(** [hass.data[DOMAIN][entry_id]] *)
Definition lookup_coordinator (entry : string)
  : M Hass MaxCubeDataUpdateCoordinator :=
  hs ← get;
  match hass_data hs !! DOMAIN with
  | None => raise (KeyError DOMAIN)
  | Some domain =>
      match domain !! entry with
      | None => raise (KeyError entry)
      | Some coordinator => mret coordinator
      end
  end.

End HassOperations.

(** * __init__.py: setting up and unloading a config entry *)

Module Integration.
Section WithHost.
Context `{MaxCubeLibrary} `{HomeAssistant}.

Definition PLATFORMS : list Platform := [CLIMATE; BINARY_SENSOR].

(** [coordinator.async_config_entry_first_refresh()] of the base class:
    one refresh, and ("Raises ConfigEntryNotReady on failure", line 44)
    an error made from what the refresh recorded. *)
Definition async_config_entry_first_refresh (c : MaxCubeDataUpdateCoordinator)
  : M Hass MaxCubeDataUpdateCoordinator :=
  r ← as_coordinator c Coordinator.async_refresh;
  match last_exception (snd r) with
  | Some err =>
      raise (raise_from (ExceptionSubclass "ConfigEntryNotReady") "" err)
  | None => mret (snd r)
  end.

(** [hass.data.setdefault(DOMAIN, {})[entry_id] = coordinator] *)
Definition store_coordinator (entry : string) (c : MaxCubeDataUpdateCoordinator)
    (d : gmap string (gmap string MaxCubeDataUpdateCoordinator))
  : gmap string (gmap string MaxCubeDataUpdateCoordinator) :=
  <[DOMAIN := <[entry := c]> (default ∅ (d !! DOMAIN))]> d.

(** The gateway device registered on line 52. *)
Definition gateway_device (entry : ConfigEntry) (c : MaxCube) : GatewayDevice :=
  {| gw_config_entry_id := entry_id entry;
     gw_identifiers := (DOMAIN, cube_serial c);
     gw_name := "MAX! Cube (" +:+ CONF_HOST (entry_data entry) +:+ ")";
     gw_manufacturer := MANUFACTURER;
     gw_model := "MAX! Cube LAN Gateway";
     gw_sw_version := firmware_version c;
     gw_configuration_url := "http://" +:+ CONF_HOST (entry_data entry) |}.

(** [entry.async_on_unload(hass.bus.async_listen_once(event, listener))] *)
Definition listen_until_unload (entry event : string) (listener : Callback)
  : M Hass unit :=
  in_ha (fun a =>
    (Ok tt,
     async_on_unload entry (RemoveListener event listener)
       (async_listen_once event listener a))).

Definition register_callback (entry : string) (cb : Callback) : M Hass unit :=
  in_ha (fun a => (Ok tt, async_on_unload entry cb a)).

(** [async_setup_entry] *)
Definition async_setup_entry (entry : ConfigEntry) : M Hass bool :=
  let host := CONF_HOST (entry_data entry) in
  let port := CONF_PORT (entry_data entry) in
  coordinator ← in_heap (Coordinator.__init__ host port
                           Coordinator.DEFAULT_SCAN_INTERVAL);
  coordinator ← async_config_entry_first_refresh coordinator;
  modify (with_data (store_coordinator (entry_id entry) coordinator));;
  hs ← get;
  in_ha (async_get_or_create
           (gateway_device entry (cube_obj (hass_heap hs) (cube coordinator))));;
  in_ha (async_forward_entry_setups (entry_id entry) PLATFORMS);;
  listen_until_unload (entry_id entry) EVENT_HOMEASSISTANT_STOP
    (AsyncDisconnect (cube coordinator));;
  register_callback (entry_id entry) (CoordinatorUnload (cube coordinator));;
  mret true.

(** [hass.data[DOMAIN].pop(entry_id)] *)
Definition pop_coordinator (entry : string)
  : M Hass MaxCubeDataUpdateCoordinator :=
  hs ← get;
  match hass_data hs !! DOMAIN with
  | None => raise (KeyError DOMAIN)
  | Some domain =>
      match domain !! entry with
      | None => raise (KeyError entry)
      | Some coordinator =>
          modify (with_data (<[DOMAIN := delete entry domain]>));;
          mret coordinator
      end
  end.

(** [if not hass.data[DOMAIN]: hass.data.pop(DOMAIN)] *)
Definition drop_empty_domain : M Hass unit :=
  hs ← get;
  match hass_data hs !! DOMAIN with
  | None => raise (KeyError DOMAIN)
  | Some domain =>
      if bool_decide (domain = ∅) then modify (with_data (delete DOMAIN))
      else mret tt
  end.

(** [async_unload_entry] *)
Definition async_unload_entry (entry : ConfigEntry) : M Hass bool :=
  unload_ok ← in_ha (async_unload_platforms (entry_id entry) PLATFORMS);
  if (unload_ok : bool) then
    coordinator ← pop_coordinator (entry_id entry);
    executor_disconnect (cube coordinator);;
    drop_empty_domain;;
    mret unload_ok
  else mret unload_ok.

(** [MaxCubeDataUpdateCoordinator.async_unload] and the stop listener
    [_async_disconnect]: the disconnect job is started and not awaited,
    so what it raises is not seen by the caller. *)
Definition async_unload (c : MaxCubeDataUpdateCoordinator) : M Hass unit :=
  fun hs => (Ok tt, snd (executor_disconnect (cube c) hs)).

(** [n] refreshes of a coordinator, one after the other. *)
Fixpoint refreshes (n : nat) : M World unit :=
  match n with
  | O => mret tt
  | S n' => Coordinator.async_refresh;; refreshes n'
  end.

End WithHost.
End Integration.

(** * climate.py: the platform set-up *)

Module ClimatePlatform.
Section WithHost.
Context `{MaxCubeLibrary} `{HomeAssistant}.

(** The entity as [__init__] has it on reaching line 118: the
    references and the serial as unique id.  (The device info built on
    line 114 is not part of the entity record.) *)
Definition unset (coordinator : MaxCubeDataUpdateCoordinator) (h : Heap)
    (device : ref) : Climate.MaxCubeClimate :=
  {| Climate._device := device;
     Climate._cube := cube coordinator;
     Climate._attr_unique_id := serial (device_obj h device);
     Climate._attr_hvac_mode := None;
     Climate._attr_hvac_action := None;
     Climate._attr_current_temperature := None;
     Climate._attr_target_temperature := None;
     Climate._attr_preset_mode := None;
     Climate._attr_extra_state_attributes := ∅ |}.

(** [MaxCubeClimate.__init__]: it ends with [_update_attrs], and what
    that raises leaves the constructor, so that no entity is made. *)
Definition __init__ (coordinator : MaxCubeDataUpdateCoordinator) (h : Heap)
    (device : ref) : result Climate.MaxCubeClimate :=
  match Climate._update_attrs h (unset coordinator h device) with
  | (Ok _, e) => Ok e
  | (Raise err, _) => Raise err
  end.

(** The list comprehension of [async_setup_entry]: the entities are
    constructed in order and the first constructor that raises ends it. *)
Fixpoint new_entities (coordinator : MaxCubeDataUpdateCoordinator) (h : Heap)
    (devs : list ref) : result (list Climate.MaxCubeClimate) :=
  match devs with
  | [] => Ok []
  | device :: devs' =>
      match __init__ coordinator h device with
      | Ok e =>
          match new_entities coordinator h devs' with
          | Ok es => Ok (e :: es)
          | Raise err => Raise err
          end
      | Raise err => Raise err
      end
  end.

(** [async_setup_entry].  The result is the list handed to
    [async_add_entities], or [None] when that is not called. *)
Definition async_setup_entry (entry : string)
  : M Hass (option (list Climate.MaxCubeClimate)) :=
  coordinator ← lookup_coordinator entry;
  hs ← get;
  let h := hass_heap hs in
  match new_entities coordinator h
          (List.filter
             (fun device => is_thermostat (device_obj h device)
                            || is_wallthermostat (device_obj h device))
             (devices (cube_obj h (cube coordinator)))) with
  | Ok entities =>
      mret (match entities with [] => None | _ => Some entities end)
  | Raise err => raise err
  end.

End WithHost.
End ClimatePlatform.

(** * binary_sensor.py: the platform set-up *)

Module BinarySensorPlatform.
Section WithHost.
Context `{MaxCubeLibrary} `{HomeAssistant}.

(** The two sensor classes, with the [key] of their entity description. *)
Inductive SensorClass : Type := MaxCubeBattery | MaxCubeShutter.

Definition key (k : SensorClass) : string :=
  match k with
  | MaxCubeBattery => "battery_low"
  | MaxCubeShutter => "window_shutter"
  end.

Definition is_on (k : SensorClass) : MaxDevice -> option bool :=
  match k with
  | MaxCubeBattery => BinarySensor.MaxCubeBattery_is_on
  | MaxCubeShutter => BinarySensor.MaxCubeShutter_is_on
  end.

(** [MaxCubeBinarySensorBase.__init__] for a sensor of class [k]. *)
Definition __init__ (k : SensorClass) (coordinator : MaxCubeDataUpdateCoordinator)
    (h : Heap) (device : ref) : BinarySensor.MaxCubeBinarySensorBase :=
  {| BinarySensor._device := device;
     BinarySensor._cube := cube coordinator;
     BinarySensor._attr_unique_id :=
       serial (device_obj h device) +:+ "_" +:+ key k |}.

(** One turn of the loop of [async_setup_entry]: the entities appended
    for [device]. *)
Definition sensors_of (coordinator : MaxCubeDataUpdateCoordinator) (h : Heap)
    (device : ref)
  : list (SensorClass * BinarySensor.MaxCubeBinarySensorBase) :=
  (match battery (device_obj h device) with
   | Present (Some _) =>
       [(MaxCubeBattery, __init__ MaxCubeBattery coordinator h device)]
   | _ => []
   end)
  ++ (if is_windowshutter (device_obj h device)
      then [(MaxCubeShutter, __init__ MaxCubeShutter coordinator h device)]
      else []).

(** [async_setup_entry].  The result is the list handed to
    [async_add_entities], or [None] when that is not called. *)
Definition async_setup_entry (entry : string)
  : M Hass (option (list (SensorClass * BinarySensor.MaxCubeBinarySensorBase))) :=
  coordinator ← lookup_coordinator entry;
  hs ← get;
  let h := hass_heap hs in
  let entities :=
    flat_map (sensors_of coordinator h) (devices (cube_obj h (cube coordinator))) in
  mret (match entities with [] => None | _ => Some entities end).

End WithHost.
End BinarySensorPlatform.

(** * config_flow.py *)

Module ConfigFlow.
Section WithHost.
Context `{MaxCubeLibrary} `{HomeAssistant}.

(** [class CannotConnect(HomeAssistantError)] *)
Definition CannotConnect : exc_class := ExceptionSubclass "CannotConnect".

(** The dict [validate_input] returns. *)
Record Info : Type := {
  title : string;
  unique_id : string
}.

(** What a flow step returns: [async_show_form] or [async_create_entry]. *)
Inductive ConfigFlowResult : Type :=
| ShowForm (step_id : string) (errors : gmap string string)
| CreateEntry (title : string) (data : UserInput).

(** [hass.async_add_executor_job(MaxCube, host, port, now)] *)
Definition executor_connect (host : string) (port : Z) : M Hass ref :=
  in_heap (MaxCube_new host port).

(** [validate_input].  Both handlers raise [CannotConnect from exc]. *)
Definition validate_input (data : UserInput) : M Hass Info :=
  let host := CONF_HOST data in
  let port := CONF_PORT data in
  cube ← try_except
           (cube ← executor_connect host port;
            executor_disconnect cube;;
            mret cube)
           (fun exc =>
              if is_TimeoutError exc then raise (raise_from CannotConnect "" exc)
              else raise (raise_from CannotConnect "" exc));
  hs ← get;
  mret {| title := "MAX! Cube (" +:+ host +:+ ")";
          unique_id := cube_serial (cube_obj (hass_heap hs) cube) |}.

(** [MaxCubeConfigFlow.async_step_user] *)
Definition async_step_user (user_input : option UserInput)
  : M Hass ConfigFlowResult :=
  match user_input with
  | Some input =>
      outcome ← try_except
                  (info ← validate_input input;
                   in_ha (async_set_unique_id (unique_id info));;
                   in_ha _abort_if_unique_id_configured;;
                   mret (inl (CreateEntry (title info) input)))
                  (fun exc =>
                     if bool_decide (exc_cls exc = CannotConnect)
                     then mret (inr ({[ "base" := "cannot_connect" ]}
                                       : gmap string string))
                     else mret (inr ({[ "base" := "unknown" ]}
                                       : gmap string string)));
      match outcome with
      | inl created => mret created
      | inr errors => mret (ShowForm "user" errors)
      end
  | None => mret (ShowForm "user" ∅)
  end.

End WithHost.
End ConfigFlow.

(** The device shows what a [set_temperature_mode] call asked for: the
    mode, and the temperature when one was given. *)
Definition reflects (c : LibCall) (d : MaxDevice) : Prop :=
  match c with
  | CallSetTemperatureMode _ _ temperature m =>
      mode d = m /\
      (forall t, temperature = Some t -> target_temperature d = Some t)
  | CallUpdate _ => False
  end.

(** Whether [async_setup_entry] builds a sensor of class [k] for [d]. *)
Definition sensor_wanted `{MaxCubeLibrary} `{HomeAssistant}
    (k : BinarySensorPlatform.SensorClass) (d : MaxDevice) : Prop :=
  match k with
  | BinarySensorPlatform.MaxCubeBattery => exists b, battery d = Present (Some b)
  | BinarySensorPlatform.MaxCubeShutter => is_windowshutter d = true
  end.

(** The coordinator [async_setup_entry] builds around a cube. *)
Definition fresh_coordinator (entry : ConfigEntry) (c : ref)
    (d : option ref) : MaxCubeDataUpdateCoordinator :=
  {| cube := c; _host := CONF_HOST (entry_data entry);
     update_interval := Coordinator.DEFAULT_SCAN_INTERVAL;
     data := d; last_exception := None; refresh_requests := 0 |}.

(** The error key a failed user step shows. *)
Definition error_key (e : pyexc) : string :=
  if bool_decide (exc_cls e = ConfigFlow.CannotConnect)
  then "cannot_connect" else "unknown".

(** * A concrete Home Assistant *)

(** A stand-in for Home Assistant whose own state is the unique id of
    the running flow and the ids already configured: every service
    succeeds, except that the duplicate check aborts a flow whose id is
    configured.  Used to run the definitions on concrete inputs. *)
Module ConcreteHost.
Import Concrete.

Definition AbortFlow : pyexc :=
  Exc (ExceptionSubclass "AbortFlow") "already_configured".

Definition host : HomeAssistant := {|
  HA := option string * list string;
  cube_disconnect c h := (Ok tt, h);
  async_get_or_create g a := (Ok tt, a);
  async_forward_entry_setups e p a := (Ok tt, a);
  async_unload_platforms e p a := (Ok true, a);
  async_listen_once ev cb a := a;
  async_on_unload e cb a := a;
  async_set_unique_id u a := (Ok tt, (Some u, snd a));
  _abort_if_unique_id_configured a :=
    match fst a with
    | Some u => if bool_decide (u ∈ snd a) then (Raise AbortFlow, a)
                else (Ok tt, a)
    | None => (Ok tt, a)
    end
|}.

(** No flow running, nothing configured. *)
Definition idle : @HA host := (None, []).

Definition living_room_entry : ConfigEntry :=
  {| entry_id := "entry-1";
     entry_data := {| CONF_HOST := "192.168.0.20"; CONF_PORT := DEFAULT_PORT |} |}.

(** [hass] before the integration is set up. *)
Definition hass_empty : @Hass host :=
  {| hass_data := ∅; hass_heap := heap_of thermostat; hass_calls := [];
     hass_disconnects := []; hass_ha := idle |}.

(** [hass] with the living-room entry set up. *)
Definition hass_ready : @Hass host :=
  {| hass_data := {[ DOMAIN := {[ "entry-1" := the_coordinator ]} ]};
     hass_heap := heap_of thermostat; hass_calls := [];
     hass_disconnects := []; hass_ha := idle |}.

(** [hass] with the living-room entry set up, the thermostat not yet
    knowing its valve position. *)
Definition hass_no_valve : @Hass host :=
  {| hass_data := {[ DOMAIN := {[ "entry-1" := the_coordinator ]} ]};
     hass_heap := heap_of thermostat_no_valve; hass_calls := [];
     hass_disconnects := []; hass_ha := idle |}.

(** [hass] with the cube of the living room already configured. *)
Definition hass_configured : @Hass host :=
  {| hass_data := ∅; hass_heap := heap_of thermostat; hass_calls := [];
     hass_disconnects := [];
     hass_ha := ((None, ["KEQ0523864"]) : @HA host) |}.

End ConcreteHost.

(** * Properties *)

(** Unfolding of the monad operations. *)
Ltac run_monad :=
  unfold mbind, mret, M_bind, M_ret, get, modify, raise, try_except,
    in_world, executor_job, async_request_refresh, publish, set_self,
    set_world in *; simpl in *.

(** ** Comparisons, [max] and [min] *)

Lemma py_le_spec (a b : Q) : py_le a b = true <-> (a <= b)%Q.
Proof. unfold py_le. apply Qle_bool_iff. Qed.

Lemma py_lt_spec (a b : Q) : py_lt a b = true <-> (a < b)%Q.
Proof.
  unfold py_lt. rewrite negb_true_iff. split.
  - intros E. apply Qnot_le_lt. intros Hle.
    apply Qle_bool_iff in Hle. congruence.
  - intros Hlt. destruct (Qle_bool b a) eqn:E; [|reflexivity].
    apply Qle_bool_iff in E. exfalso. apply (Qlt_not_le _ _ Hlt E).
Qed.

Lemma py_lt_false (a b : Q) : py_lt a b = false <-> (b <= a)%Q.
Proof.
  unfold py_lt. rewrite negb_false_iff. apply Qle_bool_iff.
Qed.

Lemma py_max_l (a b : Q) : (a <= py_max a b)%Q.
Proof.
  unfold py_max. destruct (py_lt a b) eqn:E.
  - apply py_lt_spec in E. apply Qlt_le_weak, E.
  - apply Qle_refl.
Qed.

Lemma py_max_r (a b : Q) : (b <= py_max a b)%Q.
Proof.
  unfold py_max. destruct (py_lt a b) eqn:E.
  - apply Qle_refl.
  - apply py_lt_false in E. exact E.
Qed.

Lemma py_max_lub (a b c : Q) : (a <= c)%Q -> (b <= c)%Q -> (py_max a b <= c)%Q.
Proof. unfold py_max. destruct (py_lt a b); auto. Qed.

Lemma py_min_l (a b : Q) : (py_min a b <= a)%Q.
Proof.
  unfold py_min. destruct (py_lt b a) eqn:E.
  - apply py_lt_spec in E. apply Qlt_le_weak, E.
  - apply Qle_refl.
Qed.

Lemma py_min_r (a b : Q) : (py_min a b <= b)%Q.
Proof.
  unfold py_min. destruct (py_lt b a) eqn:E.
  - apply Qle_refl.
  - apply py_lt_false in E. exact E.
Qed.

Lemma py_min_glb (a b c : Q) : (c <= a)%Q -> (c <= b)%Q -> (c <= py_min a b)%Q.
Proof. unfold py_min. destruct (py_lt b a); auto. Qed.

(** ** The temperature limits *)

Lemma min_temp_lower (d : MaxDevice) :
  (Climate.MIN_TEMPERATURE <= Climate.min_temp d)%Q.
Proof. unfold Climate.min_temp. apply py_max_r. Qed.

Lemma max_temp_upper (d : MaxDevice) :
  (Climate.max_temp d <= Climate.MAX_TEMPERATURE)%Q.
Proof. unfold Climate.max_temp. apply py_min_r. Qed.

Lemma clamped_lower (d : MaxDevice) (t : Q) : (Climate.min_temp d <= clamped d t)%Q.
Proof. apply py_max_l. Qed.

Lemma clamped_upper (d : MaxDevice) (t : Q) :
  (Climate.min_temp d <= Climate.max_temp d)%Q ->
  (clamped d t <= Climate.max_temp d)%Q.
Proof. intros Hr. apply py_max_lub; [exact Hr | apply py_min_l]. Qed.

Lemma clamped_inside (d : MaxDevice) (t : Q) :
  (Climate.min_temp d <= t)%Q -> (t <= Climate.max_temp d)%Q ->
  (clamped d t == t)%Q.
Proof.
  intros Hlo Hhi. unfold clamped, py_max, py_min.
  destruct (py_lt t (Climate.max_temp d)) eqn:E1.
  - destruct (py_lt (Climate.min_temp d) t) eqn:E2; [reflexivity|].
    apply py_lt_false in E2. apply Qle_antisym; assumption.
  - apply py_lt_false in E1.
    assert (Climate.max_temp d == t)%Q as Heq by (apply Qle_antisym; assumption).
    destruct (py_lt _ _) eqn:E2; [exact Heq|].
    apply py_lt_false in E2. lra.
Qed.

Lemma clamped_below (d : MaxDevice) (t : Q) :
  (t <= Climate.min_temp d)%Q -> (Climate.min_temp d <= Climate.max_temp d)%Q ->
  (clamped d t == Climate.min_temp d)%Q.
Proof.
  intros Hlo Hr. apply Qle_antisym; [|apply clamped_lower].
  apply py_max_lub; [apply Qle_refl|].
  eapply Qle_trans; [apply py_min_r | exact Hlo].
Qed.

Lemma clamped_above (d : MaxDevice) (t : Q) :
  (Climate.max_temp d <= t)%Q -> (Climate.min_temp d <= Climate.max_temp d)%Q ->
  (clamped d t == Climate.max_temp d)%Q.
Proof.
  intros Hhi Hr. apply Qle_antisym; [apply clamped_upper, Hr|].
  eapply Qle_trans; [|apply py_max_r].
  apply py_min_glb; [apply Qle_refl | exact Hhi].
Qed.

(** ** The command path *)

Section CommandPath.
Context `{MaxCubeLibrary}.

(** What one call of [_async_set_temperature_mode] does to the entity
    and to its world. *)
Lemma set_temperature_mode_effect
    (s : Env Climate.MaxCubeClimate) (t : option Q) (m : option Z) :
  let c := cube (coordinator (world s)) in
  let dev := Climate._device (self s) in
  let out := cube_set_temperature_mode c dev t m (heap (world s)) in
  let s' := snd (Climate._async_set_temperature_mode t m s) in
  self s' = self s /\
  calls (world s') = calls (world s) ++ [CallSetTemperatureMode c dev t m] /\
  states (world s') = states (world s) /\
  heap (world s') = snd out /\
  data (coordinator (world s')) = data (coordinator (world s)) /\
  cube (coordinator (world s')) = c /\
  match fst out with
  | Ok _ =>
      fst (Climate._async_set_temperature_mode t m s) = Ok tt /\
      refresh_requests (coordinator (world s'))
      = S (refresh_requests (coordinator (world s)))
  | Raise e =>
      (exists msg,
         fst (Climate._async_set_temperature_mode t m s)
         = Raise (ExcFrom HomeAssistantError msg e)) /\
      refresh_requests (coordinator (world s'))
      = refresh_requests (coordinator (world s))
  end.
Proof.
  unfold Climate._async_set_temperature_mode. run_monad.
  destruct (cube_set_temperature_mode _ _ t m (heap (world s))) as [[u|e] h'];
    simpl.
  - repeat split; reflexivity.
  - destruct (is_TimeoutError e || is_OSError e); simpl;
      repeat split; try reflexivity; eexists; reflexivity.
Qed.

(** C2.  A call of [_async_set_temperature_mode] leaves the entity as it
    was: the [_device] reference and every cached [_attr_*] attribute
    are unchanged, nothing is published and the coordinator's [data] is
    not replaced.  All it does is hand one [set_temperature_mode] call
    to the library and, when that call succeeds, request one refresh;
    when it raises, the error is re-raised as a [HomeAssistantError]. *)
Theorem command_leaves_entity_unchanged
    (s : Env Climate.MaxCubeClimate) (t : option Q) (m : option Z) :
  let c := cube (coordinator (world s)) in
  let dev := Climate._device (self s) in
  let out := cube_set_temperature_mode c dev t m (heap (world s)) in
  let r := fst (Climate._async_set_temperature_mode t m s) in
  let s' := snd (Climate._async_set_temperature_mode t m s) in
  self s' = self s /\
  states (world s') = states (world s) /\
  data (coordinator (world s')) = data (coordinator (world s)) /\
  calls (world s') = calls (world s) ++ [CallSetTemperatureMode c dev t m] /\
  heap (world s') = snd out /\
  match fst out with
  | Ok _ =>
      r = Ok tt /\
      refresh_requests (coordinator (world s'))
      = S (refresh_requests (coordinator (world s)))
  | Raise e =>
      (exists failure,
         r = Raise failure /\
         exc_cls failure = HomeAssistantError /\ exc_cause failure = Some e) /\
      refresh_requests (coordinator (world s'))
      = refresh_requests (coordinator (world s))
  end.
Proof.
  intros c dev out r s'.
  destruct (set_temperature_mode_effect s t m)
    as (Hself & Hcalls & Hstates & Hheap & Hdata & _ & Hout).
  repeat split; try assumption.
  fold c dev out in Hout. subst r.
  destruct (fst out).
  - exact Hout.
  - destruct Hout as [[msg Hr] Hreq]. split; [|exact Hreq].
    eexists. split; [exact Hr|]. split; reflexivity.
Qed.

(** The HEAT branch of [async_set_hvac_mode], by the value line 255
    picks: the cached target when it is above 4.5, otherwise the
    device's comfort temperature. *)
Lemma set_hvac_mode_heat_cached (s : Env Climate.MaxCubeClimate) (t : Q) :
  Climate._attr_target_temperature (self s) = Some t ->
  (Climate.OFF_TEMPERATURE < t)%Q ->
  Climate.async_set_hvac_mode HVACMode.HEAT s
  = Climate._async_set_temperature_mode
      (Some (py_max t (Climate.min_temp (Climate.self_device s))))
      (Some MAX_DEVICE_MODE_MANUAL) s.
Proof.
  intros Ht Hlt. apply py_lt_spec in Hlt.
  unfold Climate.async_set_hvac_mode, mbind, M_bind, get.
  rewrite Ht, Hlt. reflexivity.
Qed.

Lemma set_hvac_mode_heat_fallback (s : Env Climate.MaxCubeClimate) :
  (Climate._attr_target_temperature (self s) = None \/
   exists t, Climate._attr_target_temperature (self s) = Some t /\
             (t <= Climate.OFF_TEMPERATURE)%Q) ->
  Climate.async_set_hvac_mode HVACMode.HEAT s
  = match comfort_temperature (Climate.self_device s) with
    | Some t0 =>
        Climate._async_set_temperature_mode
          (Some (py_max t0 (Climate.min_temp (Climate.self_device s))))
          (Some MAX_DEVICE_MODE_MANUAL) s
    | None => (Raise Climate.float_gt_none, s)
    end.
Proof.
  intros Hcached.
  unfold Climate.async_set_hvac_mode, mbind, M_bind, get.
  destruct Hcached as [-> | (t & -> & Hle)].
  - destruct (comfort_temperature _); reflexivity.
  - apply py_lt_false in Hle. rewrite Hle.
    destruct (comfort_temperature _); reflexivity.
Qed.

(** [max(temp, self.min_temp)] is above the off sentinel. *)
Lemma heat_temperature_bounds (d : MaxDevice) (t : Q) :
  (Climate.OFF_TEMPERATURE < py_max t (Climate.min_temp d))%Q /\
  (Climate.min_temp d <= py_max t (Climate.min_temp d))%Q.
Proof.
  split.
  - eapply Qlt_le_trans; [|apply py_max_r].
    eapply Qlt_le_trans; [|apply min_temp_lower]. reflexivity.
  - apply py_max_r.
Qed.

(** C5.  [async_set_hvac_mode(HVACMode.HEAT)] sends nothing when it has
    no number to send: with a cached target that is [None] or not above
    4.5 and a device whose comfort temperature is [None], line 256
    raises [TypeError]; no call reaches the library, no refresh is
    requested and the entity is as it was. *)
Theorem set_hvac_mode_heat_type_error (s : Env Climate.MaxCubeClimate) :
  (Climate._attr_target_temperature (self s) = None \/
   exists t, Climate._attr_target_temperature (self s) = Some t /\
             (t <= Climate.OFF_TEMPERATURE)%Q) ->
  comfort_temperature (Climate.self_device s) = None ->
  exists err,
    fst (Climate.async_set_hvac_mode HVACMode.HEAT s) = Raise err /\
    exc_cls err = ExceptionSubclass "TypeError" /\
    snd (Climate.async_set_hvac_mode HVACMode.HEAT s) = s /\
    calls (world (snd (Climate.async_set_hvac_mode HVACMode.HEAT s)))
    = calls (world s).
Proof.
  intros Hcached Hcomfort.
  rewrite (set_hvac_mode_heat_fallback s Hcached), Hcomfort.
  exists Climate.float_gt_none. repeat split; reflexivity.
Qed.

(** [async_set_hvac_mode] sends, for AUTO, automatic mode with no
    temperature; for OFF, manual mode with the off sentinel 4.5; for
    HEAT, manual mode with [max(temp, min_temp)], where [temp] is the
    cached target when that is above 4.5 and the device's comfort
    temperature otherwise, provided that one is a number.  The
    temperature sent for HEAT is above 4.5 and at least [min_temp]. *)
Theorem set_hvac_mode_commands (s : Env Climate.MaxCubeClimate) :
  let c := cube (coordinator (world s)) in
  let dev := Climate._device (self s) in
  let d := Climate.self_device s in
  let cached := Climate._attr_target_temperature (self s) in
  let sent mode := calls (world (snd (Climate.async_set_hvac_mode mode s))) in
  sent HVACMode.AUTO
  = calls (world s)
    ++ [CallSetTemperatureMode c dev None (Some MAX_DEVICE_MODE_AUTOMATIC)] /\
  sent HVACMode.OFF
  = calls (world s)
    ++ [CallSetTemperatureMode c dev (Some Climate.OFF_TEMPERATURE)
          (Some MAX_DEVICE_MODE_MANUAL)] /\
  (forall temp,
     (cached = Some temp /\ (Climate.OFF_TEMPERATURE < temp)%Q) \/
     ((cached = None \/
       exists t, cached = Some t /\ (t <= Climate.OFF_TEMPERATURE)%Q) /\
      comfort_temperature d = Some temp) ->
     let t := py_max temp (Climate.min_temp d) in
     sent HVACMode.HEAT
     = calls (world s)
       ++ [CallSetTemperatureMode c dev (Some t) (Some MAX_DEVICE_MODE_MANUAL)] /\
     (Climate.OFF_TEMPERATURE < t)%Q /\
     (Climate.min_temp d <= t)%Q).
Proof.
  intros c dev d cached sent. subst sent. cbv beta. split; [|split].
  - apply (set_temperature_mode_effect s None).
  - apply (set_temperature_mode_effect s (Some Climate.OFF_TEMPERATURE)).
  - intros temp Htemp t. split; [|apply heat_temperature_bounds].
    destruct Htemp as [[Hc Hlt] | [Hc Hcomfort]].
    + rewrite (set_hvac_mode_heat_cached s temp Hc Hlt).
      apply (set_temperature_mode_effect s).
    + rewrite (set_hvac_mode_heat_fallback s Hc). fold d. rewrite Hcomfort.
      apply (set_temperature_mode_effect s).
Qed.

(** The call [async_set_temperature] makes. *)
Lemma set_temperature_call (s : Env Climate.MaxCubeClimate) (t : Q) :
  calls (world (snd (Climate.async_set_temperature (Some t) s)))
  = calls (world s)
    ++ [CallSetTemperatureMode (cube (coordinator (world s)))
          (Climate._device (self s))
          (Some (clamped (Climate.self_device s) t))
          (Some MAX_DEVICE_MODE_MANUAL)].
Proof.
  apply (set_temperature_mode_effect s
           (Some (clamped (Climate.self_device s) t))).
Qed.

(** C7, amended.  For every temperature [t] given to
    [async_set_temperature], the value sent is
    [max(min_temp, min(max_temp, t))], always with manual mode.  It is
    never below [min_temp]; whenever [min_temp <= max_temp] it is [t]
    clamped into [[min_temp, max_temp]], so never above [max_temp]. *)
Theorem set_temperature_clamps (s : Env Climate.MaxCubeClimate) (t : Q) :
  let d := Climate.self_device s in
  let lo := Climate.min_temp d in
  let hi := Climate.max_temp d in
  exists v,
    calls (world (snd (Climate.async_set_temperature (Some t) s)))
    = calls (world s)
      ++ [CallSetTemperatureMode (cube (coordinator (world s)))
            (Climate._device (self s)) (Some v) (Some MAX_DEVICE_MODE_MANUAL)] /\
    v = py_max lo (py_min hi t) /\
    (lo <= v)%Q /\
    ((lo <= hi)%Q ->
     (v <= hi)%Q /\
     ((t <= lo)%Q -> (v == lo)%Q) /\
     ((hi <= t)%Q -> (v == hi)%Q) /\
     ((lo <= t)%Q -> (t <= hi)%Q -> (v == t)%Q)).
Proof.
  intros d lo hi. exists (clamped d t).
  split; [apply set_temperature_call|].
  split; [reflexivity|].
  split; [apply clamped_lower|].
  intros Hr. split; [apply clamped_upper, Hr|]. split; [|split].
  - intros Hlo. apply clamped_below; assumption.
  - intros Hhi. apply clamped_above; assumption.
  - apply clamped_inside.
Qed.

(** The clamped value is the upper sentinel only when [min_temp] is. *)
Lemma clamped_on_sentinel (d : MaxDevice) (t : Q) :
  (clamped d t == Climate.ON_TEMPERATURE)%Q
  <-> (Climate.min_temp d == Climate.ON_TEMPERATURE)%Q.
Proof.
  pose proof (max_temp_upper d) as Hhi.
  pose proof (py_min_l (Climate.max_temp d) t) as Hmin.
  unfold Climate.MAX_TEMPERATURE in Hhi.
  unfold clamped, py_max, Climate.ON_TEMPERATURE.
  destruct (py_lt _ _) eqn:E.
  - apply py_lt_spec in E. split; intros Heq; lra.
  - reflexivity.
Qed.

(** [min_temp] is above 5.0 only when the device reports that value. *)
Lemma min_temp_reported (d : MaxDevice) :
  (Climate.MIN_TEMPERATURE < Climate.min_temp d)%Q ->
  min_temperature d = Present (Some (Climate.min_temp d)).
Proof.
  unfold Climate.min_temp, py_max, py_or, getattr, truthy.
  destruct (min_temperature d) as [|[q|]]; simpl.
  - intros Hlt. exfalso. revert Hlt. unfold Climate.MIN_TEMPERATURE.
    vm_compute. discriminate.
  - destruct (Qeq_bool q 0) eqn:E0; simpl.
    + intros Hlt. exfalso. revert Hlt. vm_compute. discriminate.
    + destruct (py_lt q Climate.MIN_TEMPERATURE) eqn:E.
      * intros Hlt. exfalso. apply (Qlt_irrefl _ Hlt).
      * reflexivity.
  - intros Hlt. exfalso. revert Hlt. vm_compute. discriminate.
Qed.

(** C8, amended.  For every device state [min_temp] is at least 5.0 and
    [max_temp] at most 30.0, whether the device has no limit attribute,
    reports [None] or reports an out-of-range value.  Consequently the
    set-point sent by [async_set_temperature] is never the off sentinel
    4.5, and it is the on sentinel 30.5 only when the device itself
    reports a [min_temperature] of 30.5. *)
Theorem temperature_limits_exclude_sentinels
    (s : Env Climate.MaxCubeClimate) (t : Q) :
  let d := Climate.self_device s in
  (Climate.MIN_TEMPERATURE <= Climate.min_temp d)%Q /\
  (Climate.max_temp d <= Climate.MAX_TEMPERATURE)%Q /\
  exists v,
    calls (world (snd (Climate.async_set_temperature (Some t) s)))
    = calls (world s)
      ++ [CallSetTemperatureMode (cube (coordinator (world s)))
            (Climate._device (self s)) (Some v) (Some MAX_DEVICE_MODE_MANUAL)] /\
    ~ (v == Climate.OFF_TEMPERATURE)%Q /\
    ((v == Climate.ON_TEMPERATURE)%Q ->
     exists q, min_temperature d = Present (Some q) /\
               (q == Climate.ON_TEMPERATURE)%Q) /\
    ((Climate.min_temp d <= Climate.max_temp d)%Q ->
     ~ (v == Climate.ON_TEMPERATURE)%Q).
Proof.
  intros d. pose proof (min_temp_lower d) as Hlo.
  pose proof (max_temp_upper d) as Hhi.
  split; [exact Hlo|]. split; [exact Hhi|].
  exists (clamped d t). split; [apply set_temperature_call|].
  pose proof (clamped_lower d t) as Hv.
  unfold Climate.MIN_TEMPERATURE, Climate.MAX_TEMPERATURE,
    Climate.OFF_TEMPERATURE in *.
  split; [intros Heq; lra|]. split.
  - intros Heq. apply clamped_on_sentinel in Heq.
    exists (Climate.min_temp d). split; [|exact Heq].
    apply min_temp_reported. unfold Climate.MIN_TEMPERATURE.
    unfold Climate.ON_TEMPERATURE in Heq. lra.
  - intros Hr Heq. apply clamped_on_sentinel in Heq.
    unfold Climate.ON_TEMPERATURE in Heq. lra.
Qed.

End CommandPath.

(** ** Presets *)

Lemma py_eq_spec (a b : option Q) : py_eq a b = true <-> same_number a b.
Proof.
  destruct a as [x|], b as [y|]; simpl; try (split; [discriminate | tauto]).
  - apply Qeq_bool_iff.
  - tauto.
Qed.

Lemma py_eq_some (x y : Q) : py_eq (Some x) (Some y) = false <-> ~ (x == y)%Q.
Proof.
  simpl. split.
  - intros E Heq. apply Qeq_bool_iff in Heq. congruence.
  - intros Hne. destruct (Qeq_bool x y) eqn:E; [|reflexivity].
    apply Qeq_bool_iff in E. contradiction.
Qed.

Lemma py_eq_not (a b : option Q) : ~ same_number a b -> py_eq a b = false.
Proof.
  intros Hne. destruct (py_eq a b) eqn:E; [|reflexivity].
  apply py_eq_spec in E. contradiction.
Qed.

Lemma py_eq_proper (a a' b b' : option Q) :
  same_number a a' -> same_number b b' -> py_eq a b = py_eq a' b'.
Proof.
  intros Ha Hb.
  destruct (py_eq a' b') eqn:E.
  - apply py_eq_spec in E. apply py_eq_spec.
    destruct a, a', b, b'; simpl in *; try tauto.
    rewrite Ha, Hb. exact E.
  - destruct (py_eq a b) eqn:E'; [|reflexivity].
    apply py_eq_spec in E'.
    assert (same_number a' b') as Hs.
    { destruct a, a', b, b'; simpl in *; try tauto.
      rewrite <- Ha, <- Hb. exact E'. }
    apply py_eq_spec in Hs. congruence.
Qed.

Lemma modes_distinct (a m v b : Z) :
  NoDup [a; m; v; b] ->
  a <> m /\ a <> v /\ a <> b /\ m <> v /\ m <> b /\ v <> b.
Proof.
  intros Hnd.
  apply NoDup_cons in Hnd as [Ha Hnd].
  apply NoDup_cons in Hnd as [Hm Hnd].
  apply NoDup_cons in Hnd as [Hv _].
  set_solver.
Qed.

Section Presets.
Context `{MaxCubeLibrary}.

(** C9.  [_get_current_preset] depends only on the device's mode,
    target, comfort and eco temperatures, and decides in a fixed order:
    boost mode gives the boost preset, vacation mode the away preset; in
    manual mode a target equal to the comfort temperature gives comfort,
    otherwise one equal to the eco temperature gives eco, otherwise one
    equal to 30.5 gives "on"; everything else, automatic mode included,
    gives [None].  A target of [None] equals only a preset temperature
    that is [None] too. *)
Theorem current_preset_priority (d : MaxDevice)
    (Hmodes : NoDup [MAX_DEVICE_MODE_AUTOMATIC; MAX_DEVICE_MODE_MANUAL;
                     MAX_DEVICE_MODE_VACATION; MAX_DEVICE_MODE_BOOST]) :
  let preset := Climate._get_current_preset d in
  (mode d = Some MAX_DEVICE_MODE_BOOST -> preset = Some PRESET_BOOST) /\
  (mode d = Some MAX_DEVICE_MODE_VACATION -> preset = Some PRESET_AWAY) /\
  (mode d = Some MAX_DEVICE_MODE_MANUAL ->
   forall t, target_temperature d = Some t ->
     let comfort := same_number (Some t) (comfort_temperature d) in
     let eco := same_number (Some t) (eco_temperature d) in
     let on := (t == Climate.ON_TEMPERATURE)%Q in
     (comfort -> preset = Some PRESET_COMFORT) /\
     (~ comfort -> eco -> preset = Some PRESET_ECO) /\
     (~ comfort -> ~ eco -> on -> preset = Some Climate.PRESET_ON) /\
     (~ comfort -> ~ eco -> ~ on -> preset = None)) /\
  (mode d = Some MAX_DEVICE_MODE_MANUAL ->
   target_temperature d = None ->
   (comfort_temperature d = None -> preset = Some PRESET_COMFORT) /\
   (comfort_temperature d <> None -> eco_temperature d = None ->
    preset = Some PRESET_ECO) /\
   (comfort_temperature d <> None -> eco_temperature d <> None ->
    preset = None)) /\
  (mode d = Some MAX_DEVICE_MODE_AUTOMATIC -> preset = None) /\
  (mode d <> Some MAX_DEVICE_MODE_BOOST ->
   mode d <> Some MAX_DEVICE_MODE_VACATION ->
   mode d <> Some MAX_DEVICE_MODE_MANUAL -> preset = None) /\
  (forall d',
     mode d' = mode d ->
     same_number (target_temperature d') (target_temperature d) ->
     same_number (comfort_temperature d') (comfort_temperature d) ->
     same_number (eco_temperature d') (eco_temperature d) ->
     Climate._get_current_preset d' = preset).
Proof.
  intros preset. subst preset.
  apply modes_distinct in Hmodes as (Ham & Hav & Hab & Hmv & Hmb & Hvb).
  unfold Climate._get_current_preset.
  split; [|split; [|split; [|split; [|split; [|split]]]]].
  - intros ->. rewrite bool_decide_eq_true_2; reflexivity.
  - intros ->. rewrite bool_decide_eq_false_2 by congruence.
    rewrite bool_decide_eq_true_2; reflexivity.
  - intros -> t ->.
    rewrite !bool_decide_eq_false_2 by congruence.
    rewrite bool_decide_eq_true_2 by reflexivity.
    cbv zeta. split; [|split; [|split]].
    + intros Hc. apply py_eq_spec in Hc. rewrite Hc. reflexivity.
    + intros Hc He. apply py_eq_not in Hc. apply py_eq_spec in He.
      rewrite Hc, He. reflexivity.
    + intros Hc He Ho. apply py_eq_not in Hc, He.
      apply (proj2 (py_eq_spec (Some t) (Some _))) in Ho.
      rewrite Hc, He, Ho. reflexivity.
    + intros Hc He Ho. apply py_eq_not in Hc, He. apply py_eq_some in Ho.
      rewrite Hc, He, Ho. reflexivity.
  - intros -> ->.
    rewrite !bool_decide_eq_false_2 by congruence.
    rewrite bool_decide_eq_true_2 by reflexivity.
    split; [|split].
    + intros ->. reflexivity.
    + intros Hc ->. destruct (comfort_temperature d); [reflexivity|congruence].
    + intros Hc He.
      destruct (comfort_temperature d); [|congruence].
      destruct (eco_temperature d); [reflexivity|congruence].
  - intros ->. rewrite !bool_decide_eq_false_2 by congruence. reflexivity.
  - intros Hb Hv Hm. rewrite !bool_decide_eq_false_2 by assumption.
    reflexivity.
  - intros d' -> Ht Hc He.
    rewrite (py_eq_proper _ (target_temperature d) (comfort_temperature d')
               (comfort_temperature d)) by assumption.
    rewrite (py_eq_proper _ (target_temperature d) (eco_temperature d')
               (eco_temperature d)) by assumption.
    rewrite (py_eq_proper _ (target_temperature d) (Some Climate.ON_TEMPERATURE)
               (Some Climate.ON_TEMPERATURE)) by (try assumption; reflexivity).
    reflexivity.
Qed.

End Presets.

(** ** Binary sensors *)

(** C10.  A binary sensor is unknown ([None]) when its device has no
    backing attribute.  Otherwise the battery sensor is on exactly when
    [battery] equals 1, and off for every other value, 0 and [None]
    included; the shutter sensor reports the device's [is_open] as it
    is. *)
Theorem binary_sensor_is_on (d : MaxDevice) :
  (battery d = Absent -> BinarySensor.MaxCubeBattery_is_on d = None) /\
  (forall b, battery d = Present b ->
     (b = Some 1 -> BinarySensor.MaxCubeBattery_is_on d = Some true) /\
     (b <> Some 1 -> BinarySensor.MaxCubeBattery_is_on d = Some false)) /\
  (is_open d = Absent -> BinarySensor.MaxCubeShutter_is_on d = None) /\
  (forall v, is_open d = Present v -> BinarySensor.MaxCubeShutter_is_on d = v).
Proof.
  unfold BinarySensor.MaxCubeBattery_is_on, BinarySensor.MaxCubeShutter_is_on.
  split; [|split; [|split]].
  - intros ->. reflexivity.
  - intros b ->. split; intros Hb.
    + rewrite bool_decide_eq_true_2; [reflexivity | exact Hb].
    + rewrite bool_decide_eq_false_2; [reflexivity | exact Hb].
  - intros ->. reflexivity.
  - intros v ->. reflexivity.
Qed.

(** ** Coordinator updates *)

Section CoordinatorUpdate.
Context `{MaxCubeLibrary}.

(** What [_update_attrs] raises is the [TypeError] of a valve
    comparison. *)
Lemma room_valve_error (h : Heap) (devs : list ref) (valve : Z) (err : pyexc) :
  Climate.room_valve h devs valve = Raise err -> err = Climate.none_gt_int.
Proof.
  revert valve. induction devs as [|r devs IH]; intros valve; simpl.
  - discriminate.
  - destruct (is_thermostat _); [|apply IH].
    destruct (valve_position _) as [|[v|]]; [apply IH | apply IH |].
    intros [= <-]. reflexivity.
Qed.

Lemma valve_for_error (h : Heap) (c : ref) (d : MaxDevice) (err : pyexc) :
  Climate.valve_for h c d = Raise err -> err = Climate.none_gt_int.
Proof.
  unfold Climate.valve_for.
  assert (forall r : result (option Z),
            (if is_wallthermostat d then
               match room_by_id h c (room_id d) with
               | Some room =>
                   match Climate.room_valve h (devices_by_room h c room) 0 with
                   | Ok v => Ok (Some v)
                   | Raise err => Raise err
                   end
               | None => Ok (Some 0)
               end
             else Ok (Some 0)) = Raise err -> err = Climate.none_gt_int) as Hroom.
  { intros _. destruct (is_wallthermostat d); [|discriminate].
    destruct (room_by_id _ _ _) as [room|]; [|discriminate].
    destruct (Climate.room_valve _ _ _) eqn:E; [discriminate|].
    intros [= <-]. eapply room_valve_error, E. }
  destruct (is_thermostat d); [|apply Hroom; exact (Ok None)].
  destruct (valve_position d); [apply Hroom; exact (Ok None) | discriminate].
Qed.

Lemma hvac_action_for_error (m : option HVACMode.t) (valve : option Z)
    (err : pyexc) :
  Climate.hvac_action_for m valve = Raise err -> err = Climate.none_gt_int.
Proof.
  unfold Climate.hvac_action_for.
  destruct (bool_decide _); [discriminate|].
  destruct valve; [discriminate|]. intros [= <-]. reflexivity.
Qed.

(** The two ways [_update_attrs] ends.  When it returns, every state
    attribute has been assigned from the device the entity refers to;
    when it raises, only the HVAC mode has. *)
Lemma update_attrs_cases (h : Heap) (e : Climate.MaxCubeClimate) :
  let d := device_obj h (Climate._device e) in
  (exists valve action,
     Climate.valve_for h (Climate._cube e) d = Ok valve /\
     Climate.hvac_action_for (Climate.hvac_mode_for d) valve = Ok action /\
     Climate._update_attrs h e
     = (Ok tt,
        {| Climate._device := Climate._device e;
           Climate._cube := Climate._cube e;
           Climate._attr_unique_id := Climate._attr_unique_id e;
           Climate._attr_hvac_mode := Climate.hvac_mode_for d;
           Climate._attr_hvac_action := Some action;
           Climate._attr_current_temperature := actual_temperature d;
           Climate._attr_target_temperature :=
             Climate.target_for (Climate.hvac_mode_for d) d;
           Climate._attr_preset_mode := Climate._get_current_preset d;
           Climate._attr_extra_state_attributes := Climate.extra_attrs_for d |}))
  \/
  (Climate._update_attrs h e
   = (Raise Climate.none_gt_int,
      Climate.with_hvac_mode (Climate.hvac_mode_for d) e) /\
   (Climate.valve_for h (Climate._cube e) d = Raise Climate.none_gt_int \/
    exists valve,
      Climate.valve_for h (Climate._cube e) d = Ok valve /\
      Climate.hvac_action_for (Climate.hvac_mode_for d) valve
      = Raise Climate.none_gt_int)).
Proof.
  intros d. unfold Climate._update_attrs. fold d.
  destruct (Climate.valve_for h (Climate._cube e) d) as [valve|err] eqn:Ev.
  - destruct (Climate.hvac_action_for _ valve) as [action|err] eqn:Ea.
    + left. exists valve, action. repeat split. exact Ea.
    + right. apply hvac_action_for_error in Ea as Herr. subst err.
      split; [reflexivity|]. right. exists valve. split; [reflexivity|exact Ea].
  - right. apply valve_for_error in Ev as Herr. subst err.
    split; [reflexivity|]. left. reflexivity.
Qed.

(** A radiator thermostat whose valve position is [None] and whose mode
    is not shown as OFF: line 168 raises. *)
Lemma update_attrs_valve_none (h : Heap) (e : Climate.MaxCubeClimate) :
  let d := device_obj h (Climate._device e) in
  is_thermostat d = true ->
  valve_position d = Present None ->
  Climate.hvac_mode_for d <> Some HVACMode.OFF ->
  Climate._update_attrs h e
  = (Raise Climate.none_gt_int,
     Climate.with_hvac_mode (Climate.hvac_mode_for d) e).
Proof.
  intros d Ht Hv Hm.
  unfold Climate._update_attrs, Climate.valve_for, Climate.hvac_action_for.
  fold d. rewrite Ht, Hv.
  rewrite bool_decide_eq_false_2 by exact Hm. reflexivity.
Qed.

(** A device whose target is not the off sentinel is shown in the mode
    [MODE_TO_HVAC_MODE] gives, or in none. *)
Lemma hvac_mode_for_not_off (d : MaxDevice) :
  ~ same_number (target_temperature d) (Some Climate.OFF_TEMPERATURE) ->
  Climate.hvac_mode_for d = mode d ≫= (Climate.MODE_TO_HVAC_MODE !!.).
Proof.
  intros Hne. apply py_eq_not in Hne.
  unfold Climate.hvac_mode_for. rewrite Hne, andb_false_r.
  destruct (mode d ≫= _); [rewrite andb_false_r|]; reflexivity.
Qed.

(** The handler on a snapshot that has the entity's device. *)
Lemma climate_update_found (s : Env Climate.MaxCubeClimate) (snapshot found : ref) :
  data (coordinator (world s)) = Some snapshot ->
  device_by_rf (heap (world s)) snapshot
    (rf_address (device_obj (heap (world s)) (Climate._device (self s))))
  = Some found ->
  Climate._handle_coordinator_update s
  = match Climate._update_attrs (heap (world s))
            (Climate.with_device found (self s)) with
    | (Ok _, e) =>
        (Ok tt,
         {| self := e;
            world := {| coordinator := coordinator (world s);
                        heap := heap (world s);
                        calls := calls (world s);
                        states := states (world s)
                                  ++ [Climate.climate_state (heap (world s)) e] |} |})
    | (Raise err, e) => (Raise err, {| self := e; world := world s |})
    end.
Proof.
  intros Hs Hfound.
  unfold Climate._handle_coordinator_update, coordinator_data,
    Climate.async_write_ha_state, Climate.update_attrs.
  run_monad. rewrite Hs. simpl. rewrite Hfound. simpl.
  destruct (Climate._update_attrs _ _) as [[[]|err] e]; reflexivity.
Qed.

(** The handler on a snapshot that lacks the entity's device. *)
Lemma climate_update_missing (s : Env Climate.MaxCubeClimate) (snapshot : ref) :
  data (coordinator (world s)) = Some snapshot ->
  device_by_rf (heap (world s)) snapshot
    (rf_address (device_obj (heap (world s)) (Climate._device (self s))))
  = None ->
  Climate._handle_coordinator_update s = (Ok tt, s).
Proof.
  intros Hs Hmissing.
  unfold Climate._handle_coordinator_update, coordinator_data.
  run_monad. rewrite Hs. simpl. rewrite Hmissing. simpl.
  destruct s; reflexivity.
Qed.

(** C1.  A coordinator update can leave the entity between two
    snapshots.  When the device found under the entity's rf_address is a
    radiator thermostat whose valve position is [None] and whose target
    is not the off sentinel, [_update_attrs] raises [TypeError] on line
    168: the entity has taken the found device as its [_device] and its
    HVAC mode, every other state attribute is the one cached before, and
    no state is published. *)
Theorem coordinator_update_type_error
    (s : Env Climate.MaxCubeClimate) (snapshot found : ref)
    (Hs : data (coordinator (world s)) = Some snapshot)
    (Hfound : device_by_rf (heap (world s)) snapshot
                (rf_address (device_obj (heap (world s))
                               (Climate._device (self s))))
              = Some found)
    (Hthermostat : is_thermostat (device_obj (heap (world s)) found) = true)
    (Hvalve : valve_position (device_obj (heap (world s)) found) = Present None)
    (Htarget : ~ same_number
                 (target_temperature (device_obj (heap (world s)) found))
                 (Some Climate.OFF_TEMPERATURE)) :
  let d := device_obj (heap (world s)) found in
  let s' := snd (Climate._handle_coordinator_update s) in
  exists err,
    fst (Climate._handle_coordinator_update s) = Raise err /\
    exc_cls err = ExceptionSubclass "TypeError" /\
    Climate._device (self s') = found /\
    Climate._attr_hvac_mode (self s')
    = mode d ≫= (Climate.MODE_TO_HVAC_MODE !!.) /\
    Climate._attr_hvac_action (self s') = Climate._attr_hvac_action (self s) /\
    Climate._attr_current_temperature (self s')
    = Climate._attr_current_temperature (self s) /\
    Climate._attr_target_temperature (self s')
    = Climate._attr_target_temperature (self s) /\
    Climate._attr_preset_mode (self s') = Climate._attr_preset_mode (self s) /\
    Climate._attr_extra_state_attributes (self s')
    = Climate._attr_extra_state_attributes (self s) /\
    world s' = world s.
Proof.
  intros d s'. subst s'.
  rewrite (climate_update_found s snapshot found Hs Hfound).
  assert (Climate.hvac_mode_for d <> Some HVACMode.OFF) as Hm.
  { rewrite (hvac_mode_for_not_off d Htarget).
    intros Hoff. apply Htarget.
    destruct (mode d) as [m|]; [|discriminate]. simpl in Hoff.
    unfold Climate.MODE_TO_HVAC_MODE in Hoff.
    repeat (rewrite lookup_insert_Some in Hoff;
            destruct Hoff as [[_ Hoff] | [_ Hoff]]; [discriminate|]).
    rewrite lookup_empty in Hoff. discriminate. }
  rewrite (update_attrs_valve_none (heap (world s))
             (Climate.with_device found (self s)) Hthermostat Hvalve Hm).
  exists Climate.none_gt_int. simpl.
  repeat split. apply (hvac_mode_for_not_off d Htarget).
Qed.

(** On a coordinator update whose snapshot has a device with the
    entity's rf_address, the entity takes that device as its [_device]
    and its HVAC mode from it.  When [_update_attrs] returns, every
    other state attribute is that of the found device too (the current
    temperature its [actual_temperature], the preset what
    [_get_current_preset] gives for it, the extra attributes its valve
    position) and the state published is made of these and of the found
    device's limits; when it raises, it raises [TypeError], the other
    attributes are those cached before and nothing is published.  The
    binary sensor takes the found device and publishes its [is_on].
    When [device_by_rf] finds nothing the entity is left as it was. *)
Theorem coordinator_update_rebinds_device
    (s : Env Climate.MaxCubeClimate)
    (b : Env BinarySensor.MaxCubeBinarySensorBase)
    (is_on : MaxDevice -> option bool) (snapshot : ref)
    (Hs : data (coordinator (world s)) = Some snapshot)
    (Hb : data (coordinator (world b)) = Some snapshot) :
  (let h := heap (world s) in
   let s' := snd (Climate._handle_coordinator_update s) in
   match device_by_rf h snapshot
           (rf_address (device_obj h (Climate._device (self s)))) with
   | Some found =>
       let d := device_obj h found in
       Climate._device (self s') = found /\
       Climate._cube (self s') = Climate._cube (self s) /\
       Climate._attr_unique_id (self s') = Climate._attr_unique_id (self s) /\
       Climate._attr_hvac_mode (self s') = Climate.hvac_mode_for d /\
       heap (world s') = h /\
       match fst (Climate._handle_coordinator_update s) with
       | Ok _ =>
           exists valve action,
           Climate.valve_for h (Climate._cube (self s)) d = Ok valve /\
           Climate.hvac_action_for (Climate.hvac_mode_for d) valve = Ok action /\
           Climate._attr_hvac_action (self s') = Some action /\
           Climate._attr_current_temperature (self s') = actual_temperature d /\
           Climate._attr_target_temperature (self s')
           = Climate.target_for (Climate.hvac_mode_for d) d /\
           Climate._attr_preset_mode (self s') = Climate._get_current_preset d /\
           Climate._attr_extra_state_attributes (self s')
           = (if is_thermostat d then
                match valve_position d with
                | Present v => <[Climate.ATTR_VALVE_POSITION := v]> ∅
                | Absent => ∅
                end
              else ∅) /\
           states (world s')
           = states (world s)
             ++ [ClimateState (Climate._attr_unique_id (self s))
                   (Climate.hvac_mode_for d) (Some action)
                   (actual_temperature d)
                   (Climate.target_for (Climate.hvac_mode_for d) d)
                   (Climate._get_current_preset d)
                   (Climate._attr_extra_state_attributes (self s'))
                   (Climate.min_temp d) (Climate.max_temp d)]
       | Raise err =>
           exc_cls err = ExceptionSubclass "TypeError" /\
           Climate.state_attrs (self s')
           = Climate.state_attrs
               (Climate.with_hvac_mode (Climate.hvac_mode_for d) (self s)) /\
           states (world s') = states (world s)
       end
   | None => fst (Climate._handle_coordinator_update s) = Ok tt /\ s' = s
   end) /\
  (let h := heap (world b) in
   let b' := snd (BinarySensor._handle_coordinator_update is_on b) in
   fst (BinarySensor._handle_coordinator_update is_on b) = Ok tt /\
   match device_by_rf h snapshot
           (rf_address (device_obj h (BinarySensor._device (self b)))) with
   | Some found =>
       BinarySensor._device (self b') = found /\
       self b' = BinarySensor.with_device found (self b) /\
       states (world b')
       = states (world b)
         ++ [BinarySensorState (BinarySensor._attr_unique_id (self b))
               (is_on (device_obj h found))] /\
       heap (world b') = h
   | None => b' = b
   end).
Proof.
  split.
  - cbv zeta.
    destruct (device_by_rf _ _ _) as [found|] eqn:Hfound.
    + rewrite (climate_update_found s snapshot found Hs Hfound).
      destruct (update_attrs_cases (heap (world s))
                  (Climate.with_device found (self s)))
        as [(valve & action & Hv & Ha & ->) | [-> _]]; simpl in *.
      * repeat split. exists valve, action.
        split; [exact Hv|]. split; [exact Ha|].
        assert (Climate.extra_attrs_for (device_obj (heap (world s)) found)
                = if is_thermostat (device_obj (heap (world s)) found) then
                    match valve_position (device_obj (heap (world s)) found) with
                    | Present v => <[Climate.ATTR_VALVE_POSITION := v]> ∅
                    | Absent => ∅
                    end
                  else ∅) as <-.
        { unfold Climate.extra_attrs_for.
          destruct (is_thermostat _); [|reflexivity].
          destruct (valve_position _); reflexivity. }
        repeat split.
      * repeat split.
    + rewrite (climate_update_missing s snapshot Hs Hfound). split; reflexivity.
  - unfold BinarySensor._handle_coordinator_update, coordinator_data,
      BinarySensor.async_write_ha_state.
    run_monad. rewrite Hb. simpl.
    destruct (device_by_rf _ _ _) as [found|]; simpl.
    + repeat split.
    + split; [reflexivity|]. destruct b; reflexivity.
Qed.

End CoordinatorUpdate.

(** ** The coordinator *)

Lemma timedelta_of_seconds_wf (n : Z) : timedelta_wf (timedelta_of_seconds n).
Proof.
  unfold timedelta_wf, timedelta_of_seconds. simpl.
  pose proof (Z.mod_pos_bound n 86400). lia.
Qed.

Lemma total_microseconds_of_seconds (n : Z) :
  total_microseconds (timedelta_of_seconds n) = n * 1000000.
Proof.
  unfold total_microseconds, timedelta_of_seconds. simpl.
  pose proof (Z.div_mod n 86400). lia.
Qed.

(** On normalised values the tuple comparison is the comparison of the
    durations. *)
Lemma timedelta_le_total (a b : timedelta) :
  timedelta_wf a -> timedelta_wf b ->
  (timedelta_le a b = true <-> total_microseconds a <= total_microseconds b).
Proof.
  unfold timedelta_wf, timedelta_le, total_microseconds.
  intros [Has Hau] [Hbs Hbu].
  destruct (Z.ltb_spec (days a) (days b)); [split; [lia | reflexivity]|].
  destruct (Z.ltb_spec (days b) (days a)); [split; [discriminate | lia]|].
  destruct (Z.ltb_spec (seconds a) (seconds b)); [split; [lia | reflexivity]|].
  destruct (Z.ltb_spec (seconds b) (seconds a)); [split; [discriminate | lia]|].
  rewrite Z.leb_le. lia.
Qed.

Section CoordinatorProperties.
Context `{MaxCubeLibrary}.

(** C6.  The coordinator turns the persistent connection on exactly
    when the poll interval is at most 300 seconds, and so it does for
    the default interval of 30 seconds. *)
Theorem persistent_connection_policy
    (host : string) (port : Z) (td : timedelta) (h : Heap)
    (Hwf : timedelta_wf td) :
  match MaxCube_new host port h with
  | (Ok c, _) =>
      (exists coord h',
         Coordinator.__init__ host port td h = (Ok coord, h') /\
         cube coord = c /\ update_interval coord = td /\
         (use_persistent_connection (cube_obj h' c) = true
          <-> total_microseconds td <= 300 * 1000000)) /\
      (exists coord h',
         Coordinator.__init__ host port Coordinator.DEFAULT_SCAN_INTERVAL h
         = (Ok coord, h') /\
         cube coord = c /\
         use_persistent_connection (cube_obj h' c) = true)
  | (Raise e, h1) => Coordinator.__init__ host port td h = (Raise e, h1)
  end.
Proof.
  unfold Coordinator.__init__. run_monad.
  destruct (MaxCube_new host port h) as [[c|e] h1]; [|reflexivity].
  split.
  - eexists _, _. split; [reflexivity|]. simpl.
    split; [reflexivity|]. split; [reflexivity|].
    unfold Coordinator.set_use_persistent_connection. simpl.
    rewrite fn_lookup_insert. simpl.
    rewrite timedelta_le_total by (assumption || apply timedelta_of_seconds_wf).
    rewrite total_microseconds_of_seconds. reflexivity.
  - eexists _, _. split; [reflexivity|]. simpl.
    split; [reflexivity|].
    unfold Coordinator.set_use_persistent_connection. simpl.
    rewrite fn_lookup_insert. reflexivity.
Qed.

(** C3.  [_async_update_data] hands one [update] call to the library.
    When the call returns it returns the coordinator's cube, updated;
    when the call raises it raises an [UpdateFailed] whose cause is the
    library's exception, and nothing else.  A refresh that fails this
    way leaves the coordinator's [data] as the last one returned. *)
Theorem update_data_returns_or_fails (w : World) :
  let c := coordinator w in
  let out := cube_update (cube c) (heap w) in
  let r := fst (Coordinator._async_update_data w) in
  let w' := snd (Coordinator._async_update_data w) in
  let w2 := snd (Coordinator.async_refresh w) in
  coordinator w' = c /\
  heap w' = snd out /\
  calls w' = calls w ++ [CallUpdate (cube c)] /\
  match fst out with
  | Ok _ =>
      r = Ok (cube c) /\
      data (coordinator w2) = Some (cube c) /\ heap w2 = snd out
  | Raise e =>
      (exists failure,
         r = Raise failure /\
         exc_cls failure = UpdateFailed /\ exc_cause failure = Some e /\
         last_exception (coordinator w2) = Some failure) /\
      data (coordinator w2) = data c
  end.
Proof.
  unfold Coordinator.async_refresh, Coordinator._async_update_data.
  run_monad.
  destruct (cube_update (cube (coordinator w)) (heap w)) as [[u|e] h']; simpl.
  - repeat split.
  - destruct (is_TimeoutError e); simpl; repeat split;
      eexists; repeat split.
Qed.

End CoordinatorProperties.

(** ** Serialisation of session operations *)

Module SchedulingFacts.
Import Scheduling.

Lemma count_insert (p : list op -> bool) (ts : list (list op))
    (i : nat) (t t' : list op) :
  ts !! i = Some t ->
  (count p (<[i := t']> ts) + (if p t then 1 else 0)
   = count p ts + (if p t' then 1 else 0))%nat.
Proof.
  revert i. induction ts as [|a ts IH]; intros [|i] Hi; simpl in *;
    try discriminate.
  - injection Hi as ->. lia.
  - specialize (IH i Hi). lia.
Qed.

Lemma count_mono (p q : list op -> bool) (ts : list (list op)) :
  (forall t, p t = true -> q t = true) -> (count p ts <= count q ts)%nat.
Proof.
  intros Hpq. induction ts as [|a ts IH]; simpl; [lia|].
  destruct (p a) eqn:E; [rewrite (Hpq a E)|destruct (q a)]; lia.
Qed.

Lemma count_replicate_refresh (n : nat) :
  count in_lock (replicate n refresh_task) = 0%nat.
Proof. induction n as [|n IH]; simpl; [reflexivity | exact IH]. Qed.

Lemma start_invariant (n : nat) :
  lock_invariant (start (replicate n refresh_task)).
Proof.
  split; simpl.
  - apply Forall_replicate. left. reflexivity.
  - apply count_replicate_refresh.
Qed.

Lemma step_invariant (c : choice) (s s' : sched) :
  lock_invariant s -> step c s = Some s' -> lock_invariant s'.
Proof.
  intros [Hall Hcnt] Hstep.
  destruct c as [i|i]; simpl in Hstep;
    destruct (tasks s !! i) as [t|] eqn:Ei; try discriminate;
    pose proof (Forall_lookup_1 _ _ _ _ Hall Ei) as Ht;
    destruct Ht as [-> | [-> | [-> | [-> | ->]]]]; simpl in Hstep;
    try discriminate;
    try (destruct (locked s) eqn:El; try discriminate);
    injection Hstep as <-; (split; simpl;
      [ apply Forall_insert; [exact Hall | unfold refresh_point; tauto]
      | match goal with
        | |- count _ (<[_ := ?t']> _) = _ =>
            pose proof (count_insert in_lock _ _ _ t' Ei) as Hc
        end;
        simpl in Hc; lia ]).
Qed.

Lemma run_invariant (cs : list choice) (s s' : sched) :
  lock_invariant s -> run cs s = Some s' -> lock_invariant s'.
Proof.
  revert s. induction cs as [|c cs IH]; intros s Hinv Hrun; simpl in Hrun.
  - injection Hrun as <-. exact Hinv.
  - destruct (step c s) as [s1|] eqn:E; [|discriminate].
    apply (IH s1); [apply (step_invariant c s) | ]; assumption.
Qed.

(** Refreshes alone are serialised by the lock: however the event loop
    schedules them, and whichever of them fail, at most one [update] is
    on the wire at a time. *)
Lemma refreshes_are_serialised (n : nat) (cs : list choice) (s : sched) :
  run cs (start (replicate n refresh_task)) = Some s ->
  (wire_users s <= 1)%nat.
Proof.
  intros Hrun.
  destruct (run_invariant cs _ s (start_invariant n) Hrun) as [_ Hcnt].
  unfold wire_users.
  assert (count on_wire (tasks s) <= count in_lock (tasks s))%nat as Hle.
  { apply count_mono. intros t E.
    destruct t as [|o t]; [discriminate|].
    destruct o; simpl in *; congruence. }
  destruct (locked s); lia.
Qed.

(** C4 fails on the code: the command path never takes the lock, so a
    command can start its blocking call while a refresh holds the lock
    and is on the wire.  After the refresh has acquired the lock and
    started [update], the command starts [set_temperature_mode]: two
    session operations are outstanding at once. *)
Theorem command_overlaps_refresh :
  exists s,
    run [Run 0; Run 0; Run 1] (start [refresh_task; command_task]) = Some s /\
    locked s = true /\
    tasks s = [[JobEnd; Release]; [JobEnd; RequestRefresh]] /\
    wire_users s = 2%nat.
Proof. eexists. repeat split. Qed.

End SchedulingFacts.

(** ** The properties at concrete inputs *)

Module Instances.
Import Concrete.

Lemma coordinator_update_rebinds_device_witness :
  data (coordinator (world (climate_env thermostat))) = Some 1%positive /\
  data (coordinator (world (sensor_env thermostat))) = Some 1%positive /\
  Climate._device
    (self (snd (@Climate._handle_coordinator_update library
                  (climate_env thermostat)))) = 2%positive /\
  states
    (world (snd (@BinarySensor._handle_coordinator_update library
                   BinarySensor.MaxCubeBattery_is_on (sensor_env thermostat))))
  = [BinarySensorState "KEQ0000001_battery_low" (Some false)].
Proof.
  split; [reflexivity|]. split; [reflexivity|].
  destruct (@coordinator_update_rebinds_device library
              (climate_env thermostat) (sensor_env thermostat)
              BinarySensor.MaxCubeBattery_is_on 1%positive eq_refl eq_refl)
    as [Hc [_ Hb]].
  split; [exact (proj1 Hc) | exact (proj1 (proj2 (proj2 Hb)))].
Defined.

Lemma coordinator_update_type_error_witness :
  data (coordinator (world (climate_env thermostat_no_valve))) = Some 1%positive /\
  @device_by_rf library (heap_of thermostat_no_valve) 1%positive "1234AB"
  = Some 2%positive /\
  @is_thermostat library thermostat_no_valve = true /\
  valve_position thermostat_no_valve = Present None /\
  target_temperature thermostat_no_valve = Some 21%Q /\
  exists err,
    fst (@Climate._handle_coordinator_update library
           (climate_env thermostat_no_valve)) = Raise err /\
    exc_cls err = ExceptionSubclass "TypeError" /\
    Climate.state_attrs
      (self (snd (@Climate._handle_coordinator_update library
                    (climate_env thermostat_no_valve))))
    = (Some HVACMode.HEAT, None, None, None, None, ∅) /\
    states (world (snd (@Climate._handle_coordinator_update library
                          (climate_env thermostat_no_valve)))) = [].
Proof.
  repeat (split; [reflexivity|]).
  assert (~ same_number (target_temperature thermostat_no_valve)
              (Some Climate.OFF_TEMPERATURE)) as Htarget.
  { vm_compute. discriminate. }
  destruct (@coordinator_update_type_error library
              (climate_env thermostat_no_valve) 1%positive 2%positive
              eq_refl eq_refl eq_refl eq_refl Htarget)
    as (err & Hr & Hcls & _ & Hmode & Haction & Hcur & Htgt & Hpre & Hext & Hw).
  exists err. split; [exact Hr|]. split; [exact Hcls|]. split.
  - unfold Climate.state_attrs.
    rewrite Hmode, Haction, Hcur, Htgt, Hpre, Hext. reflexivity.
  - rewrite Hw. reflexivity.
Defined.

Lemma set_hvac_mode_heat_type_error_witness :
  Climate._attr_target_temperature (self (climate_env thermostat_no_comfort))
  = None /\
  comfort_temperature thermostat_no_comfort = None /\
  exists err,
    fst (@Climate.async_set_hvac_mode library HVACMode.HEAT
           (climate_env thermostat_no_comfort)) = Raise err /\
    exc_cls err = ExceptionSubclass "TypeError" /\
    calls (world (snd (@Climate.async_set_hvac_mode library HVACMode.HEAT
                         (climate_env thermostat_no_comfort)))) = [].
Proof.
  split; [reflexivity|]. split; [reflexivity|].
  destruct (@set_hvac_mode_heat_type_error library
              (climate_env thermostat_no_comfort) (or_introl eq_refl) eq_refl)
    as (err & Hr & Hcls & _ & Hcalls).
  exists err. split; [exact Hr|]. split; [exact Hcls | exact Hcalls].
Defined.

Lemma set_hvac_mode_commands_witness :
  Climate._attr_target_temperature (self (climate_env thermostat)) = None /\
  comfort_temperature thermostat = Some 21%Q /\
  calls (world (snd (@Climate.async_set_hvac_mode library HVACMode.HEAT
                       (climate_env thermostat))))
  = [CallSetTemperatureMode 1%positive 2%positive (Some 21%Q) (Some 1)].
Proof.
  split; [reflexivity|]. split; [reflexivity|].
  destruct (@set_hvac_mode_commands library (climate_env thermostat))
    as (_ & _ & Hheat).
  exact (proj1 (Hheat 21%Q (or_intror (conj (or_introl eq_refl) eq_refl)))).
Defined.

Lemma persistent_connection_policy_witness :
  timedelta_wf (timedelta_of_seconds 600) /\
  exists coord h',
    @Coordinator.__init__ library "192.168.0.20" 62910
      (timedelta_of_seconds 600) (heap_of thermostat) = (Ok coord, h') /\
    use_persistent_connection (cube_obj h' 1%positive) = false.
Proof.
  assert (timedelta_wf (timedelta_of_seconds 600)) as Hwf.
  { repeat split; vm_compute; (reflexivity || discriminate). }
  split; [exact Hwf|].
  destruct (proj1 (@persistent_connection_policy library "192.168.0.20" 62910
                     (timedelta_of_seconds 600) (heap_of thermostat) Hwf))
    as (coord & h' & Hinit & Hcube & _ & Hiff).
  exists coord, h'. split; [exact Hinit|].
  destruct (use_persistent_connection (cube_obj h' 1%positive));
    [|reflexivity].
  exfalso. pose proof (proj1 Hiff eq_refl) as Hle.
  vm_compute in Hle. apply Hle. reflexivity.
Defined.

Lemma current_preset_priority_witness :
  NoDup [0; 1; 2; 3] /\
  @Climate._get_current_preset library thermostat = Some PRESET_COMFORT.
Proof.
  assert (NoDup [0; 1; 2; 3]) as Hnd.
  { apply (bool_decide_unpack _). vm_compute. exact I. }
  split; [exact Hnd|].
  destruct (@current_preset_priority library thermostat Hnd)
    as (_ & _ & Hmanual & _).
  apply (Hmanual eq_refl 21%Q eq_refl). reflexivity.
Defined.

Lemma set_temperature_clamps_witness :
  (Climate.min_temp thermostat <= Climate.max_temp thermostat)%Q /\
  exists v,
    calls (world (snd (@Climate.async_set_temperature library (Some 35%Q)
                         (climate_env thermostat))))
    = [CallSetTemperatureMode 1%positive 2%positive (Some v) (Some 1)] /\
    (v == 30)%Q.
Proof.
  assert (Climate.min_temp thermostat <= Climate.max_temp thermostat)%Q as Hr.
  { vm_compute. discriminate. }
  split; [exact Hr|].
  destruct (@set_temperature_clamps library (climate_env thermostat) 35%Q)
    as (v & Hcalls & _ & _ & Hrange).
  exists v. split; [exact Hcalls|].
  destruct (Hrange Hr) as (_ & _ & Habove & _).
  apply Habove. vm_compute. discriminate.
Defined.

Lemma temperature_limits_exclude_sentinels_witness :
  (Climate.min_temp thermostat <= Climate.max_temp thermostat)%Q /\
  exists v,
    calls (world (snd (@Climate.async_set_temperature library (Some (61 # 2)%Q)
                         (climate_env thermostat))))
    = [CallSetTemperatureMode 1%positive 2%positive (Some v) (Some 1)] /\
    ~ (v == Climate.ON_TEMPERATURE)%Q.
Proof.
  assert (Climate.min_temp thermostat <= Climate.max_temp thermostat)%Q as Hr.
  { vm_compute. discriminate. }
  split; [exact Hr|].
  destruct (@temperature_limits_exclude_sentinels library
              (climate_env thermostat) (61 # 2)%Q)
    as (_ & _ & v & Hcalls & _ & _ & Hon).
  exists v. split; [exact Hcalls | exact (Hon Hr)].
Defined.

Lemma binary_sensor_is_on_witness :
  battery thermostat = Present (Some 0) /\
  BinarySensor.MaxCubeBattery_is_on thermostat = Some false.
Proof.
  split; [reflexivity|].
  destruct (binary_sensor_is_on thermostat) as (_ & Hbattery & _).
  apply (Hbattery (Some 0) eq_refl). discriminate.
Defined.

(** The thermostat of the living room after a first coordinator update:
    manual mode at its comfort temperature, valve open. *)
Example thermostat_after_update :
  Climate.state_attrs
    (self (snd (@Climate._handle_coordinator_update library
                  (climate_env thermostat))))
  = (Some HVACMode.HEAT, Some HVACAction.HEATING, Some (41 # 2)%Q,
     Some 21%Q, Some PRESET_COMFORT, {[ "valve_position" := Some 40 ]}).
Proof. reflexivity. Qed.

(** With a library that writes the set-point into the device object,
    a command changes the object behind [_device] at once, while what
    the entity caches changes only with the next coordinator update. *)
Example command_then_update :
  let s0 := snd (@Climate._handle_coordinator_update writing_library
                   (climate_env thermostat)) in
  let s1 := snd (@Climate._async_set_temperature_mode writing_library
                   (Some 18%Q) (Some 1) s0) in
  let s2 := snd (@Climate._handle_coordinator_update writing_library s1) in
  Climate._attr_target_temperature (self s0) = Some 21%Q /\
  self s1 = self s0 /\
  target_temperature (Climate.self_device s1) = Some 18%Q /\
  Climate._attr_target_temperature (self s2) = Some 18%Q /\
  Climate._attr_preset_mode (self s2) = None.
Proof. repeat split. Qed.

(** C7 as stated fails: a thermostat that reports a lower limit of 35.0
    has [min_temp] 35.0 above [max_temp] 30.0, and a request for 20.0
    is sent as 35.0, above [max_temp]. *)
Lemma set_temperature_exceeds_max_temp :
  calls (world (snd (@Climate.async_set_temperature library (Some 20%Q)
                       (climate_env thermostat_min_35))))
  = [CallSetTemperatureMode 1%positive 2%positive (Some 35%Q) (Some 1)] /\
  ~ (35 <= Climate.max_temp thermostat_min_35)%Q.
Proof.
  split; [reflexivity|]. vm_compute. intros Hle. apply Hle. reflexivity.
Qed.

(** C8 as stated fails: a thermostat that reports a lower limit of 30.5
    has [min_temp] 30.5, and a request for 20.0 is sent as 30.5, the on
    sentinel. *)
Lemma set_temperature_sends_on_sentinel :
  (Climate.MIN_TEMPERATURE <= Climate.min_temp thermostat_min_on)%Q /\
  (Climate.max_temp thermostat_min_on <= Climate.MAX_TEMPERATURE)%Q /\
  calls (world (snd (@Climate.async_set_temperature library (Some 20%Q)
                       (climate_env thermostat_min_on))))
  = [CallSetTemperatureMode 1%positive 2%positive
       (Some Climate.ON_TEMPERATURE) (Some 1)].
Proof.
  split; [vm_compute; discriminate|].
  split; [vm_compute; discriminate|]. reflexivity.
Qed.

End Instances.

(** * Further properties of the integration *)

(** ** [_update_attrs] *)

Section UpdateAttrs.
Context `{MaxCubeLibrary}.

Lemma mode_to_hvac_mode_lookup :
  NoDup [MAX_DEVICE_MODE_AUTOMATIC; MAX_DEVICE_MODE_MANUAL;
         MAX_DEVICE_MODE_VACATION; MAX_DEVICE_MODE_BOOST] ->
  Climate.MODE_TO_HVAC_MODE !! MAX_DEVICE_MODE_AUTOMATIC = Some HVACMode.AUTO /\
  Climate.MODE_TO_HVAC_MODE !! MAX_DEVICE_MODE_MANUAL = Some HVACMode.HEAT /\
  Climate.MODE_TO_HVAC_MODE !! MAX_DEVICE_MODE_VACATION = Some HVACMode.AUTO /\
  Climate.MODE_TO_HVAC_MODE !! MAX_DEVICE_MODE_BOOST = Some HVACMode.AUTO /\
  (forall m,
     m <> MAX_DEVICE_MODE_AUTOMATIC -> m <> MAX_DEVICE_MODE_MANUAL ->
     m <> MAX_DEVICE_MODE_VACATION -> m <> MAX_DEVICE_MODE_BOOST ->
     Climate.MODE_TO_HVAC_MODE !! m = None).
Proof.
  intros Hnd.
  apply modes_distinct in Hnd as (Ham & Hav & Hab & Hmv & Hmb & Hvb).
  unfold Climate.MODE_TO_HVAC_MODE.
  split; [|split; [|split; [|split]]].
  - rewrite !lookup_insert_ne by congruence. apply lookup_insert_eq.
  - rewrite !lookup_insert_ne by congruence. apply lookup_insert_eq.
  - rewrite lookup_insert_ne by congruence. apply lookup_insert_eq.
  - apply lookup_insert_eq.
  - intros m Ha Hm Hv Hb.
    rewrite !lookup_insert_ne by congruence. apply lookup_empty.
Qed.

Lemma hvac_mode_manual_off (d : MaxDevice) :
  mode d = Some MAX_DEVICE_MODE_MANUAL ->
  same_number (target_temperature d) (Some Climate.OFF_TEMPERATURE) ->
  Climate.hvac_mode_for d = Some HVACMode.OFF.
Proof.
  intros Hmode Hoff. unfold Climate.hvac_mode_for.
  apply py_eq_spec in Hoff.
  rewrite Hmode, Hoff. rewrite bool_decide_eq_true_2 by reflexivity.
  reflexivity.
Qed.

Lemma hvac_mode_manual_heat (d : MaxDevice) :
  NoDup [MAX_DEVICE_MODE_AUTOMATIC; MAX_DEVICE_MODE_MANUAL;
         MAX_DEVICE_MODE_VACATION; MAX_DEVICE_MODE_BOOST] ->
  mode d = Some MAX_DEVICE_MODE_MANUAL ->
  ~ same_number (target_temperature d) (Some Climate.OFF_TEMPERATURE) ->
  Climate.hvac_mode_for d = Some HVACMode.HEAT.
Proof.
  intros Hmodes Hmode Hoff.
  destruct (mode_to_hvac_mode_lookup Hmodes) as (_ & Lm & _).
  rewrite (hvac_mode_for_not_off d Hoff), Hmode. exact Lm.
Qed.

Lemma hvac_mode_automatic (d : MaxDevice) :
  NoDup [MAX_DEVICE_MODE_AUTOMATIC; MAX_DEVICE_MODE_MANUAL;
         MAX_DEVICE_MODE_VACATION; MAX_DEVICE_MODE_BOOST] ->
  mode d = Some MAX_DEVICE_MODE_AUTOMATIC ->
  Climate.hvac_mode_for d = Some HVACMode.AUTO.
Proof.
  intros Hmodes Hmode.
  destruct (mode_to_hvac_mode_lookup Hmodes) as (La & _).
  apply modes_distinct in Hmodes as (Ham & _).
  unfold Climate.hvac_mode_for.
  rewrite Hmode. rewrite bool_decide_eq_false_2 by congruence. simpl.
  rewrite La. reflexivity.
Qed.

(** The HVAC mode is assigned before anything in [_update_attrs] can
    raise. *)
Lemma update_attrs_sets_hvac_mode (h : Heap) (e : Climate.MaxCubeClimate) :
  Climate._attr_hvac_mode (snd (Climate._update_attrs h e))
  = Climate.hvac_mode_for (device_obj h (Climate._device e)).
Proof.
  unfold Climate._update_attrs.
  destruct (Climate.valve_for _ _ _); [|reflexivity].
  destruct (Climate.hvac_action_for _ _); reflexivity.
Qed.

(** The HVAC mode an entity shows: manual at the off sentinel 4.5 is
    OFF, manual at any other target is HEAT, automatic, vacation and
    boost are AUTO, and a missing or unknown device mode gives no mode.
    This is so whether or not [_update_attrs] goes on to raise. *)
Theorem update_attrs_hvac_mode (h : Heap) (e : Climate.MaxCubeClimate)
    (Hmodes : NoDup [MAX_DEVICE_MODE_AUTOMATIC; MAX_DEVICE_MODE_MANUAL;
                     MAX_DEVICE_MODE_VACATION; MAX_DEVICE_MODE_BOOST]) :
  let d := device_obj h (Climate._device e) in
  let shown := Climate._attr_hvac_mode (snd (Climate._update_attrs h e)) in
  let off := same_number (target_temperature d) (Some Climate.OFF_TEMPERATURE) in
  (mode d = Some MAX_DEVICE_MODE_MANUAL -> off -> shown = Some HVACMode.OFF) /\
  (mode d = Some MAX_DEVICE_MODE_MANUAL -> ~ off -> shown = Some HVACMode.HEAT) /\
  (mode d = Some MAX_DEVICE_MODE_AUTOMATIC \/
   mode d = Some MAX_DEVICE_MODE_VACATION \/
   mode d = Some MAX_DEVICE_MODE_BOOST -> shown = Some HVACMode.AUTO) /\
  (mode d = None -> shown = None) /\
  (forall m, mode d = Some m ->
     m <> MAX_DEVICE_MODE_AUTOMATIC -> m <> MAX_DEVICE_MODE_MANUAL ->
     m <> MAX_DEVICE_MODE_VACATION -> m <> MAX_DEVICE_MODE_BOOST ->
     shown = None).
Proof.
  intros d shown off. subst shown off.
  rewrite update_attrs_sets_hvac_mode. fold d.
  split; [apply hvac_mode_manual_off|].
  split; [apply hvac_mode_manual_heat, Hmodes|].
  destruct (mode_to_hvac_mode_lookup Hmodes) as (La & Lm & Lv & Lb & Lo).
  pose proof Hmodes as Hd.
  apply modes_distinct in Hd as (Ham & Hav & Hab & Hmv & Hmb & Hvb).
  split; [|split].
  - intros [Hmode | [Hmode | Hmode]];
      [apply hvac_mode_automatic; assumption | |];
      unfold Climate.hvac_mode_for;
      rewrite Hmode; rewrite bool_decide_eq_false_2 by congruence; simpl;
      rewrite ?Lv, ?Lb; reflexivity.
  - intros Hmode. unfold Climate.hvac_mode_for. rewrite Hmode. reflexivity.
  - intros m Hmode Ha Hm Hv Hb.
    unfold Climate.hvac_mode_for.
    rewrite Hmode. rewrite bool_decide_eq_false_2 by congruence. simpl.
    rewrite (Lo m) by assumption. reflexivity.
Qed.

End UpdateAttrs.

Section UpdateAttrsAction.
Context `{MaxCubeLibrary}.

(** The loop over a room raises exactly when one of the room's
    thermostats has [None] as its valve position. *)
Lemma room_valve_raises (h : Heap) (devs : list ref) (v0 : Z) :
  Climate.room_valve h devs v0 = Raise Climate.none_gt_int <->
  exists r, r ∈ devs /\ is_thermostat (device_obj h r) = true /\
            valve_position (device_obj h r) = Present None.
Proof.
  revert v0. induction devs as [|r devs IH]; intros v0; simpl.
  - split; [discriminate|]. intros (r & Hin & _).
    apply elem_of_nil in Hin. contradiction.
  - assert ((exists r', r' ∈ devs /\ is_thermostat (device_obj h r') = true /\
                        valve_position (device_obj h r') = Present None) ->
            exists r', r' ∈ r :: devs /\ is_thermostat (device_obj h r') = true /\
                       valve_position (device_obj h r') = Present None) as Htail.
    { intros (r' & Hin & Hr). exists r'. rewrite elem_of_cons. tauto. }
    destruct (is_thermostat (device_obj h r)) eqn:Et.
    + destruct (valve_position (device_obj h r)) as [|[v|]] eqn:Ev.
      * rewrite IH. split; [exact Htail|].
        intros (r' & Hin & Ht & Hv).
        apply elem_of_cons in Hin as [-> | Hin]; [congruence|].
        exists r'. tauto.
      * rewrite IH. split; [exact Htail|].
        intros (r' & Hin & Ht & Hv).
        apply elem_of_cons in Hin as [-> | Hin]; [congruence|].
        exists r'. tauto.
      * split; [|reflexivity]. intros _. exists r.
        rewrite elem_of_cons. tauto.
    + rewrite IH. split; [exact Htail|].
      intros (r' & Hin & Ht & Hv).
      apply elem_of_cons in Hin as [-> | Hin]; [congruence|].
      exists r'. tauto.
Qed.

(** When it returns, the loop gives the largest valve position among
    the room's thermostats, or the starting value if that is larger. *)
Lemma room_valve_lt (h : Heap) (devs : list ref) (v0 m x : Z) :
  Climate.room_valve h devs v0 = Ok m ->
  (x < m <->
   x < v0 \/
   exists r v, r ∈ devs /\ is_thermostat (device_obj h r) = true /\
               valve_position (device_obj h r) = Present (Some v) /\ x < v).
Proof.
  revert v0. induction devs as [|r devs IH]; intros v0; simpl.
  - intros [= <-]. split; [tauto|]. intros [Hlt | (r & v & Hin & _)]; [exact Hlt|].
    apply elem_of_nil in Hin. contradiction.
  - assert (forall v1, (v1 <> v0 -> x < v1 -> x < v0 \/
                          exists r' v, r' ∈ r :: devs /\
                            is_thermostat (device_obj h r') = true /\
                            valve_position (device_obj h r') = Present (Some v) /\
                            x < v) ->
              Climate.room_valve h devs v1 = Ok m ->
              (x < v0 -> x < v1) ->
              ((exists v, is_thermostat (device_obj h r) = true /\
                  valve_position (device_obj h r) = Present (Some v) /\ x < v) ->
               x < v1) ->
              (x < m <->
               x < v0 \/
               exists r' v, r' ∈ r :: devs /\
                 is_thermostat (device_obj h r') = true /\
                 valve_position (device_obj h r') = Present (Some v) /\ x < v))
      as Hstep.
    { intros v1 Hup Hrun Hmono Hhead. rewrite (IH v1 Hrun). split.
      - intros [Hlt | (r' & v & Hin & Hr)].
        + destruct (Z.eq_dec v1 v0) as [-> | Hne]; [left; exact Hlt|].
          apply Hup; assumption.
        + right. exists r', v. rewrite elem_of_cons. tauto.
      - intros [Hlt | (r' & v & Hin & Ht & Hv & Hlt)].
        + left. apply Hmono, Hlt.
        + apply elem_of_cons in Hin as [-> | Hin].
          * left. apply Hhead. exists v. tauto.
          * right. exists r', v. tauto. }
    destruct (is_thermostat (device_obj h r)) eqn:Et.
    + destruct (valve_position (device_obj h r)) as [|[v|]] eqn:Ev.
      * intros Hrun. apply (Hstep v0); [congruence | exact Hrun | tauto |].
        intros (v & _ & Hv & _). discriminate.
      * intros Hrun.
        apply (Hstep (if v0 <? v then v else v0)); [| exact Hrun | |].
        -- destruct (Z.ltb_spec v0 v); [|congruence].
           intros _ Hlt. right. exists r, v. rewrite elem_of_cons. tauto.
        -- destruct (Z.ltb_spec v0 v); lia.
        -- intros (v' & _ & [= <-] & Hlt). destruct (Z.ltb_spec v0 v); lia.
      * discriminate.
    + intros Hrun. apply (Hstep v0); [congruence | exact Hrun | tauto |].
      intros (v & Hf & _). discriminate.
Qed.

(** The HVAC action an entity shows.  When [_update_attrs] returns, it
    is OFF exactly when the mode is OFF.  A radiator thermostat with a
    valve position is otherwise HEATING exactly when the valve is open;
    with [None] as valve position [_update_attrs] raises [TypeError]
    unless the mode is OFF.  A wall thermostat raises [TypeError] when a
    radiator thermostat of its room has [None] as valve position,
    whatever the mode, and is otherwise HEATING exactly when one of them
    has an open valve.  With no valve to look at the entity is IDLE.
    When [_update_attrs] raises, the action stays the one cached. *)
Theorem update_attrs_hvac_action (h : Heap) (e : Climate.MaxCubeClimate) :
  let d := device_obj h (Climate._device e) in
  let r := fst (Climate._update_attrs h e) in
  let e' := snd (Climate._update_attrs h e) in
  let action := Climate._attr_hvac_action e' in
  let is_off := Climate._attr_hvac_mode e' = Some HVACMode.OFF in
  let radiator v := is_thermostat d = true /\ valve_position d = Present v in
  let in_room v :=
    exists room r,
      room_by_id h (Climate._cube e) (room_id d) = Some room /\
      r ∈ devices_by_room h (Climate._cube e) room /\
      is_thermostat (device_obj h r) = true /\
      valve_position (device_obj h r) = Present v in
  let type_error :=
    (exists err, r = Raise err /\ exc_cls err = ExceptionSubclass "TypeError") /\
    action = Climate._attr_hvac_action e in
  (r = Ok tt -> (action = Some HVACAction.OFF <-> is_off)) /\
  (forall v, radiator (Some v) ->
     r = Ok tt /\
     (~ is_off ->
      (action = Some HVACAction.HEATING <-> 0 < v) /\
      (action = Some HVACAction.IDLE <-> v <= 0))) /\
  (radiator None -> (is_off -> r = Ok tt) /\ (~ is_off -> type_error)) /\
  ((forall v, ~ radiator v) -> is_wallthermostat d = true ->
   (in_room None -> type_error) /\
   (~ in_room None ->
    r = Ok tt /\
    (~ is_off ->
     (action = Some HVACAction.HEATING <->
      exists v, in_room (Some v) /\ 0 < v) /\
     (action = Some HVACAction.IDLE <->
      ~ exists v, in_room (Some v) /\ 0 < v)))) /\
  ((forall v, ~ radiator v) -> is_wallthermostat d = false ->
   r = Ok tt /\ (~ is_off -> action = Some HVACAction.IDLE)).
Proof.
  intros d r e' action is_off radiator in_room type_error.
  subst r e' action is_off radiator in_room type_error. cbv beta.
  rewrite update_attrs_sets_hvac_mode. fold d.
  set (hm := Climate.hvac_mode_for d).
  assert (forall valve,
            Climate.valve_for h (Climate._cube e) d = Ok valve ->
            Climate._update_attrs h e
            = match Climate.hvac_action_for hm valve with
              | Ok a =>
                  (Ok tt,
                   {| Climate._device := Climate._device e;
                      Climate._cube := Climate._cube e;
                      Climate._attr_unique_id := Climate._attr_unique_id e;
                      Climate._attr_hvac_mode := hm;
                      Climate._attr_hvac_action := Some a;
                      Climate._attr_current_temperature := actual_temperature d;
                      Climate._attr_target_temperature := Climate.target_for hm d;
                      Climate._attr_preset_mode := Climate._get_current_preset d;
                      Climate._attr_extra_state_attributes :=
                        Climate.extra_attrs_for d |})
              | Raise err => (Raise err, Climate.with_hvac_mode hm e)
              end) as Hrun.
  { intros valve Hv. unfold Climate._update_attrs. fold d hm. rewrite Hv.
    reflexivity. }
  assert ((forall v, ~ (is_thermostat d = true /\ valve_position d = Present v)) ->
          Climate.valve_for h (Climate._cube e) d
          = if is_wallthermostat d then
              match room_by_id h (Climate._cube e) (room_id d) with
              | Some room =>
                  match Climate.room_valve h
                          (devices_by_room h (Climate._cube e) room) 0 with
                  | Ok v => Ok (Some v)
                  | Raise err => Raise err
                  end
              | None => Ok (Some 0)
              end
            else Ok (Some 0)) as Hother.
  { intros Hrad. unfold Climate.valve_for.
    destruct (is_thermostat d) eqn:Et; [|reflexivity].
    destruct (valve_position d) as [|v] eqn:Ev; [reflexivity|].
    exfalso. apply (Hrad v). split; reflexivity. }
  split; [|split; [|split; [|split]]].
  - destruct (update_attrs_cases h e)
      as [(valve & a & Hv & Ha & ->) | [-> _]]; [|discriminate].
    intros _. simpl. fold d hm in Ha. unfold Climate.hvac_action_for in Ha.
    destruct (bool_decide_reflect (hm = Some HVACMode.OFF)) as [Hm|Hm].
    + injection Ha as <-. tauto.
    + split; [|contradiction]. intros [= ->].
      destruct valve as [v|]; [|discriminate].
      destruct (0 <? v); discriminate.
  - intros v [Ht Hv].
    rewrite (Hrun (Some v))
      by (unfold Climate.valve_for; rewrite Ht, Hv; reflexivity).
    unfold Climate.hvac_action_for.
    destruct (bool_decide_reflect (hm = Some HVACMode.OFF)) as [Hm|Hm].
    + split; [reflexivity|]. intros Hoff. contradiction.
    + split; [reflexivity|]. intros _. simpl.
      destruct (Z.ltb_spec 0 v); split; split;
        (reflexivity || discriminate || lia || (intros; lia)).
  - intros [Ht Hv].
    rewrite (Hrun None)
      by (unfold Climate.valve_for; rewrite Ht, Hv; reflexivity).
    unfold Climate.hvac_action_for.
    destruct (bool_decide_reflect (hm = Some HVACMode.OFF)) as [Hm|Hm].
    + split; [reflexivity|]. intros Hoff. contradiction.
    + split; [contradiction|]. intros _. simpl.
      split; [|reflexivity]. eexists. split; reflexivity.
  - intros Hrad Hwall. specialize (Hother Hrad). rewrite Hwall in Hother.
    destruct (room_by_id h (Climate._cube e) (room_id d)) as [room|] eqn:Eroom.
    + destruct (Climate.room_valve h (devices_by_room h (Climate._cube e) room) 0)
        as [m|err] eqn:Eloop.
      * assert (~ exists room0 r,
                    Some room = Some room0 /\
                    r ∈ devices_by_room h (Climate._cube e) room0 /\
                    is_thermostat (device_obj h r) = true /\
                    valve_position (device_obj h r) = Present None) as Hnone.
        { intros (room0 & r & [= <-] & Hin & Hr).
          assert (Climate.room_valve h
                    (devices_by_room h (Climate._cube e) room) 0
                  = Raise Climate.none_gt_int) as Hraise
            by (apply room_valve_raises; exists r; tauto).
          congruence. }
        split; [intros Hin; contradiction|]. intros _.
        rewrite (Hrun _ Hother). unfold Climate.hvac_action_for.
        destruct (bool_decide_reflect (hm = Some HVACMode.OFF)) as [Hm|Hm].
        -- split; [reflexivity|]. intros Hoff. contradiction.
        -- split; [reflexivity|]. intros _. simpl.
           pose proof (room_valve_lt h _ 0 m 0 Eloop) as Hlt.
           assert ((exists v,
                      (exists room0 r,
                         Some room = Some room0 /\
                         r ∈ devices_by_room h (Climate._cube e) room0 /\
                         is_thermostat (device_obj h r) = true /\
                         valve_position (device_obj h r) = Present (Some v)) /\
                      0 < v) <-> 0 < m) as Hiff.
           { rewrite Hlt. split.
             - intros (v & (room0 & r & [= <-] & Hr) & Hv).
               right. exists r, v. tauto.
             - intros [Hf | (r & v & Hin & Ht & Hv & Hpos)]; [lia|].
               exists v. split; [|exact Hpos]. exists room, r. tauto. }
           rewrite Hiff.
           destruct (Z.ltb_spec 0 m); split; split;
             (reflexivity || discriminate || lia || (intros; lia)).
      * apply room_valve_error in Eloop as Herr. subst err.
        assert (Climate._update_attrs h e
                = (Raise Climate.none_gt_int, Climate.with_hvac_mode hm e))
          as ->.
        { unfold Climate._update_attrs. fold d hm. rewrite Hother.
          reflexivity. }
        split.
        -- intros _. simpl. split; [|reflexivity].
           eexists. split; reflexivity.
        -- intros Hnone. exfalso. apply Hnone.
           apply room_valve_raises in Eloop as (r & Hin & Hr).
           exists room, r. tauto.
    + split; [intros (room & r & Hroom & _); discriminate|]. intros _.
      rewrite (Hrun _ Hother). unfold Climate.hvac_action_for.
      destruct (bool_decide_reflect (hm = Some HVACMode.OFF)) as [Hm|Hm].
      * split; [reflexivity|]. intros Hoff. contradiction.
      * split; [reflexivity|]. intros _. simpl.
        split; split; try discriminate.
        -- intros (v & (room & r & Hroom & _) & _). discriminate.
        -- intros _ (v & (room & r & Hroom & _) & _). discriminate.
        -- reflexivity.
  - intros Hrad Hwall. specialize (Hother Hrad). rewrite Hwall in Hother.
    rewrite (Hrun _ Hother). unfold Climate.hvac_action_for.
    destruct (bool_decide_reflect (hm = Some HVACMode.OFF)) as [Hm|Hm].
    + split; [reflexivity|]. intros Hoff. contradiction.
    + split; reflexivity.
Qed.

Lemma target_shown_when_valid (m : option HVACMode.t) (d : MaxDevice) (t : Q) :
  m <> Some HVACMode.OFF ->
  target_temperature d = Some t ->
  (Climate.min_temp d <= t)%Q -> (t <= Climate.max_temp d)%Q ->
  Climate.target_for m d = Some t.
Proof.
  unfold Climate.target_for.
  intros Hoff Ht Hlo Hhi. rewrite bool_decide_eq_true_2 by exact Hoff.
  rewrite Ht. apply py_le_spec in Hlo, Hhi. rewrite Hlo, Hhi. reflexivity.
Qed.

(** Once [_update_attrs] has returned, mode and target are those the
    device gives. *)
Lemma update_attrs_ok_target (h : Heap) (e : Climate.MaxCubeClimate) :
  fst (Climate._update_attrs h e) = Ok tt ->
  Climate._attr_target_temperature (snd (Climate._update_attrs h e))
  = Climate.target_for
      (Climate.hvac_mode_for (device_obj h (Climate._device e)))
      (device_obj h (Climate._device e)).
Proof.
  destruct (update_attrs_cases h e)
    as [(valve & a & _ & _ & ->) | [-> _]]; [reflexivity | discriminate].
Qed.

(** The target temperature an entity shows once [_update_attrs] has
    returned.  There is none when the mode is OFF.  Otherwise it is the
    device's target if that lies within [[min_temp, max_temp]]; if it
    does not, AUTO shows none and every other mode falls back to the
    comfort temperature, [None] included.  So a shown target in AUTO
    mode is always between 5.0 and 30.0.  When [_update_attrs] raises,
    the target stays the one cached. *)
Theorem update_attrs_target_temperature (h : Heap) (e : Climate.MaxCubeClimate) :
  let d := device_obj h (Climate._device e) in
  let r := fst (Climate._update_attrs h e) in
  let e' := snd (Climate._update_attrs h e) in
  let shown := Climate._attr_target_temperature e' in
  let hm := Climate._attr_hvac_mode e' in
  let valid t := (Climate.min_temp d <= t)%Q /\ (t <= Climate.max_temp d)%Q in
  (r = Ok tt ->
   (hm = Some HVACMode.OFF -> shown = None) /\
   (forall t, hm <> Some HVACMode.OFF -> target_temperature d = Some t ->
      valid t -> shown = Some t) /\
   (hm <> Some HVACMode.OFF ->
    (forall t, target_temperature d = Some t -> ~ valid t) ->
    shown = if bool_decide (hm = Some HVACMode.AUTO) then None
            else comfort_temperature d) /\
   (forall t, hm = Some HVACMode.AUTO -> shown = Some t ->
      (Climate.MIN_TEMPERATURE <= t)%Q /\ (t <= Climate.MAX_TEMPERATURE)%Q)) /\
  (r <> Ok tt -> shown = Climate._attr_target_temperature e).
Proof.
  intros d r e' shown hm valid. subst r e' shown hm valid. cbv beta.
  rewrite update_attrs_sets_hvac_mode. fold d.
  set (hm := Climate.hvac_mode_for d).
  split.
  - intros Hok. rewrite (update_attrs_ok_target h e Hok). fold d hm.
    unfold Climate.target_for.
    assert (forall t, py_le (Climate.min_temp d) t && py_le t (Climate.max_temp d)
                      = true <->
                      (Climate.min_temp d <= t)%Q /\ (t <= Climate.max_temp d)%Q)
      as Hvalid.
    { intros t. rewrite andb_true_iff, !py_le_spec. reflexivity. }
    split; [|split; [|split]].
    + intros Hoff. rewrite bool_decide_eq_false_2; [reflexivity|]. tauto.
    + intros t Hoff Ht [Hlo Hhi].
      apply (target_shown_when_valid hm d t Hoff Ht Hlo Hhi).
    + intros Hoff Hinv. rewrite bool_decide_eq_true_2 by exact Hoff.
      destruct (target_temperature d) as [t|]; [|reflexivity].
      destruct (py_le (Climate.min_temp d) t && py_le t (Climate.max_temp d))
        eqn:E; [|reflexivity].
      apply Hvalid in E. exfalso. apply (Hinv t eq_refl E).
    + intros t Hauto. rewrite bool_decide_eq_true_2 by congruence.
      rewrite (bool_decide_eq_true_2 _ Hauto).
      destruct (target_temperature d) as [t'|]; [|discriminate].
      destruct (py_le (Climate.min_temp d) t' && py_le t' (Climate.max_temp d))
        eqn:E; [|discriminate].
      intros [= ->]. apply Hvalid in E as [Hlo Hhi].
      pose proof (min_temp_lower d). pose proof (max_temp_upper d).
      split; lra.
  - destruct (update_attrs_cases h e)
      as [(valve & a & _ & _ & ->) | [-> _]]; [|reflexivity].
    intros Hne. exfalso. apply Hne. reflexivity.
Qed.

End UpdateAttrsAction.

(** ** Commands and what is read back *)

Section RoundTrips.
Context `{MaxCubeLibrary}.

(** The call [async_set_preset_mode] makes for each supported preset.
    Boost and away switch the mode and send no temperature; comfort and
    eco send the device's own preset temperature in manual mode, be it
    a number or [None]; "on" sends the on sentinel 30.5 in manual mode,
    unclamped. *)
Theorem set_preset_mode_commands (s : Env Climate.MaxCubeClimate) :
  let c := cube (coordinator (world s)) in
  let dev := Climate._device (self s) in
  let d := Climate.self_device s in
  let sent p := calls (world (snd (Climate.async_set_preset_mode p s))) in
  let call t m := calls (world s) ++ [CallSetTemperatureMode c dev t (Some m)] in
  sent PRESET_BOOST = call None MAX_DEVICE_MODE_BOOST /\
  sent PRESET_AWAY = call None MAX_DEVICE_MODE_VACATION /\
  sent PRESET_COMFORT = call (comfort_temperature d) MAX_DEVICE_MODE_MANUAL /\
  sent PRESET_ECO = call (eco_temperature d) MAX_DEVICE_MODE_MANUAL /\
  sent Climate.PRESET_ON = call (Some Climate.ON_TEMPERATURE) MAX_DEVICE_MODE_MANUAL.
Proof.
  intros c dev d sent call. subst sent call. cbv beta.
  split; [|split; [|split; [|split]]].
  - apply (set_temperature_mode_effect s None).
  - apply (set_temperature_mode_effect s None).
  - apply (set_temperature_mode_effect s (comfort_temperature d)).
  - apply (set_temperature_mode_effect s (eco_temperature d)).
  - apply (set_temperature_mode_effect s (Some Climate.ON_TEMPERATURE)).
Qed.

(** Requests the entity does not act on: a [set_temperature] without a
    temperature, an HVAC mode other than OFF, HEAT and AUTO, and a
    preset that is not supported.  Nothing is sent, no refresh is
    requested and nothing is raised. *)
Theorem unsupported_requests_do_nothing (s : Env Climate.MaxCubeClimate) :
  Climate.async_set_temperature None s = (Ok tt, s) /\
  (forall m, m ∉ [HVACMode.OFF; HVACMode.HEAT; HVACMode.AUTO] ->
     Climate.async_set_hvac_mode m s = (Ok tt, s)) /\
  (forall p, p ∉ Climate.SUPPORT_PRESETS ->
     Climate.async_set_preset_mode p s = (Ok tt, s)).
Proof.
  split; [reflexivity|]. split.
  - intros m Hm. rewrite !not_elem_of_cons in Hm.
    destruct m; try reflexivity; exfalso; tauto.
  - intros p Hp. unfold Climate.SUPPORT_PRESETS in Hp.
    rewrite !not_elem_of_cons in Hp.
    destruct Hp as (Hb & Hc & He & Ha & Ho & _).
    unfold Climate.async_set_preset_mode.
    cbv beta iota delta [mbind M_bind get].
    rewrite !bool_decide_eq_false_2 by assumption. reflexivity.
Qed.

(** A preset that was set is the preset read back, once the device
    shows what was sent: always for boost and away; for comfort when the
    device has a comfort temperature; for eco when it has an eco
    temperature that is not its comfort temperature; for "on" unless
    the comfort or the eco temperature is 30.5 itself. *)
Theorem preset_round_trip
    (s : Env Climate.MaxCubeClimate) (p : string) (c : LibCall) (d' : MaxDevice)
    (Hmodes : NoDup [MAX_DEVICE_MODE_AUTOMATIC; MAX_DEVICE_MODE_MANUAL;
                     MAX_DEVICE_MODE_VACATION; MAX_DEVICE_MODE_BOOST])
    (Hp : p ∈ Climate.SUPPORT_PRESETS)
    (Hsent : last (calls (world (snd (Climate.async_set_preset_mode p s))))
             = Some c)
    (Hshown : reflects c d')
    (Hcomfort : same_number (comfort_temperature d')
                  (comfort_temperature (Climate.self_device s)))
    (Heco : same_number (eco_temperature d')
              (eco_temperature (Climate.self_device s)))
    (Hcomfort_set : p = PRESET_COMFORT ->
       comfort_temperature (Climate.self_device s) <> None)
    (Heco_set : p = PRESET_ECO ->
       eco_temperature (Climate.self_device s) <> None)
    (Heco_free : p = PRESET_ECO ->
       ~ same_number (eco_temperature d') (comfort_temperature d'))
    (Hon_free : p = Climate.PRESET_ON ->
       ~ same_number (Some Climate.ON_TEMPERATURE) (comfort_temperature d') /\
       ~ same_number (Some Climate.ON_TEMPERATURE) (eco_temperature d')) :
  Climate._get_current_preset d' = Some p.
Proof.
  pose proof (fun t m => proj1 (proj2 (set_temperature_mode_effect s t m)))
    as Hcall. cbv zeta in Hcall.
  pose proof (Hcall None (Some MAX_DEVICE_MODE_BOOST)) as Sb.
  pose proof (Hcall None (Some MAX_DEVICE_MODE_VACATION)) as Sa.
  pose proof (Hcall (comfort_temperature (Climate.self_device s))
                (Some MAX_DEVICE_MODE_MANUAL)) as Sc.
  pose proof (Hcall (eco_temperature (Climate.self_device s))
                (Some MAX_DEVICE_MODE_MANUAL)) as Se.
  pose proof (Hcall (Some Climate.ON_TEMPERATURE)
                (Some MAX_DEVICE_MODE_MANUAL)) as So.
  change (Climate._async_set_temperature_mode None (Some MAX_DEVICE_MODE_BOOST) s)
    with (Climate.async_set_preset_mode PRESET_BOOST s) in Sb.
  change (Climate._async_set_temperature_mode None
            (Some MAX_DEVICE_MODE_VACATION) s)
    with (Climate.async_set_preset_mode PRESET_AWAY s) in Sa.
  change (Climate._async_set_temperature_mode
            (comfort_temperature (Climate.self_device s))
            (Some MAX_DEVICE_MODE_MANUAL) s)
    with (Climate.async_set_preset_mode PRESET_COMFORT s) in Sc.
  change (Climate._async_set_temperature_mode
            (eco_temperature (Climate.self_device s))
            (Some MAX_DEVICE_MODE_MANUAL) s)
    with (Climate.async_set_preset_mode PRESET_ECO s) in Se.
  change (Climate._async_set_temperature_mode (Some Climate.ON_TEMPERATURE)
            (Some MAX_DEVICE_MODE_MANUAL) s)
    with (Climate.async_set_preset_mode Climate.PRESET_ON s) in So.
  clear Hcall.
  apply modes_distinct in Hmodes as (Ham & Hav & Hab & Hmv & Hmb & Hvb).
  unfold Climate.SUPPORT_PRESETS in Hp.
  unfold Climate._get_current_preset.
  repeat (apply elem_of_cons in Hp as [-> | Hp]);
    [ rewrite Sb in Hsent | rewrite Sc in Hsent | rewrite Se in Hsent
    | rewrite Sa in Hsent | rewrite So in Hsent
    | apply elem_of_nil in Hp; contradiction ];
    rewrite last_snoc in Hsent; injection Hsent as <-;
    destruct Hshown as [Hmode Htarget].
  - rewrite Hmode, bool_decide_eq_true_2; reflexivity.
  - destruct (comfort_temperature (Climate.self_device s)) as [q|] eqn:Eq;
      [|exfalso; apply (Hcomfort_set eq_refl); reflexivity].
    rewrite Hmode, (Htarget _ eq_refl).
    rewrite !bool_decide_eq_false_2 by congruence.
    rewrite bool_decide_eq_true_2 by reflexivity.
    assert (py_eq (Some q) (comfort_temperature d') = true) as ->;
      [|reflexivity].
    apply py_eq_spec. destruct (comfort_temperature d'); simpl in *;
      [symmetry; exact Hcomfort | contradiction].
  - destruct (eco_temperature (Climate.self_device s)) as [q|] eqn:Eq;
      [|exfalso; apply (Heco_set eq_refl); reflexivity].
    rewrite Hmode, (Htarget _ eq_refl).
    rewrite !bool_decide_eq_false_2 by congruence.
    rewrite bool_decide_eq_true_2 by reflexivity.
    destruct (eco_temperature d') as [q'|]; simpl in Heco; [|contradiction].
    assert (py_eq (Some q) (comfort_temperature d') = false) as ->.
    { apply py_eq_not. intros Heq. apply (Heco_free eq_refl).
      destruct (comfort_temperature d'); simpl in *; [|contradiction].
      rewrite Heco. exact Heq. }
    assert (py_eq (Some q) (Some q') = true) as ->; [|reflexivity].
    apply py_eq_spec. simpl. symmetry. exact Heco.
  - rewrite Hmode. rewrite bool_decide_eq_false_2 by congruence.
    rewrite bool_decide_eq_true_2; reflexivity.
  - rewrite Hmode, (Htarget _ eq_refl).
    rewrite !bool_decide_eq_false_2 by congruence.
    rewrite bool_decide_eq_true_2 by reflexivity.
    destruct (Hon_free eq_refl) as [Hc He].
    apply py_eq_not in Hc, He. rewrite Hc, He. reflexivity.
Qed.

(** What [async_set_hvac_mode(HVACMode.HEAT)] has sent, if it has sent
    anything. *)
Lemma set_hvac_mode_heat_sent (s : Env Climate.MaxCubeClimate) (c : LibCall) :
  calls (world (snd (Climate.async_set_hvac_mode HVACMode.HEAT s)))
  = calls (world s) ++ [c] ->
  exists t,
    c = CallSetTemperatureMode (cube (coordinator (world s)))
          (Climate._device (self s)) (Some t) (Some MAX_DEVICE_MODE_MANUAL) /\
    (Climate.OFF_TEMPERATURE < t)%Q /\
    (Climate.min_temp (Climate.self_device s) <= t)%Q.
Proof.
  assert (forall temp,
            calls (world (snd (Climate._async_set_temperature_mode
                                 (Some (py_max temp
                                          (Climate.min_temp (Climate.self_device s))))
                                 (Some MAX_DEVICE_MODE_MANUAL) s)))
            = calls (world s) ++ [c] ->
            exists t,
              c = CallSetTemperatureMode (cube (coordinator (world s)))
                    (Climate._device (self s)) (Some t)
                    (Some MAX_DEVICE_MODE_MANUAL) /\
              (Climate.OFF_TEMPERATURE < t)%Q /\
              (Climate.min_temp (Climate.self_device s) <= t)%Q) as Hsend.
  { intros temp Hsent.
    rewrite (proj1 (proj2 (set_temperature_mode_effect s _ _))) in Hsent.
    apply app_inv_head in Hsent. injection Hsent as <-.
    eexists. split; [reflexivity|]. apply heat_temperature_bounds. }
  assert (Climate._attr_target_temperature (self s) = None \/
          (exists t, Climate._attr_target_temperature (self s) = Some t /\
                     (t <= Climate.OFF_TEMPERATURE)%Q) \/
          (exists t, Climate._attr_target_temperature (self s) = Some t /\
                     (Climate.OFF_TEMPERATURE < t)%Q)) as Hcached.
  { destruct (Climate._attr_target_temperature (self s)) as [t|]; [|tauto].
    destruct (Qlt_le_dec Climate.OFF_TEMPERATURE t); eauto. }
  destruct Hcached as [Hnone | [Hlow | (t & Ht & Hlt)]].
  - rewrite (set_hvac_mode_heat_fallback s (or_introl Hnone)).
    destruct (comfort_temperature _) as [t0|]; [apply Hsend|].
    simpl. intros Hsent. rewrite <- (app_nil_r (calls (world s))) in Hsent at 1.
    apply app_inv_head in Hsent. discriminate.
  - rewrite (set_hvac_mode_heat_fallback s (or_intror Hlow)).
    destruct (comfort_temperature _) as [t0|]; [apply Hsend|].
    simpl. intros Hsent. rewrite <- (app_nil_r (calls (world s))) in Hsent at 1.
    apply app_inv_head in Hsent. discriminate.
  - rewrite (set_hvac_mode_heat_cached s t Ht Hlt). apply Hsend.
Qed.

(** An HVAC mode that was set is the mode shown after the next update,
    once a command has been sent and the device shows what was sent. *)
Theorem hvac_mode_round_trip
    (s : Env Climate.MaxCubeClimate) (m : HVACMode.t) (c : LibCall)
    (h' : Heap) (e' : Climate.MaxCubeClimate)
    (Hmodes : NoDup [MAX_DEVICE_MODE_AUTOMATIC; MAX_DEVICE_MODE_MANUAL;
                     MAX_DEVICE_MODE_VACATION; MAX_DEVICE_MODE_BOOST])
    (Hm : m ∈ [HVACMode.OFF; HVACMode.HEAT; HVACMode.AUTO])
    (Hsent : calls (world (snd (Climate.async_set_hvac_mode m s)))
             = calls (world s) ++ [c])
    (Hshown : reflects c (device_obj h' (Climate._device e'))) :
  Climate._attr_hvac_mode (snd (Climate._update_attrs h' e')) = Some m.
Proof.
  rewrite update_attrs_sets_hvac_mode.
  pose proof (proj1 (proj2 (set_temperature_mode_effect s None
                              (Some MAX_DEVICE_MODE_AUTOMATIC)))) as Sauto.
  pose proof (proj1 (proj2 (set_temperature_mode_effect s
                              (Some Climate.OFF_TEMPERATURE)
                              (Some MAX_DEVICE_MODE_MANUAL)))) as Soff.
  change (Climate._async_set_temperature_mode None
            (Some MAX_DEVICE_MODE_AUTOMATIC) s)
    with (Climate.async_set_hvac_mode HVACMode.AUTO s) in Sauto.
  change (Climate._async_set_temperature_mode (Some Climate.OFF_TEMPERATURE)
            (Some MAX_DEVICE_MODE_MANUAL) s)
    with (Climate.async_set_hvac_mode HVACMode.OFF s) in Soff.
  cbv zeta in Sauto, Soff.
  repeat (apply elem_of_cons in Hm as [-> | Hm]);
    [ | | | apply elem_of_nil in Hm; contradiction ].
  - rewrite Soff in Hsent. apply app_inv_head in Hsent. injection Hsent as <-.
    destruct Hshown as [Hmode Htarget].
    apply hvac_mode_manual_off; [exact Hmode|].
    rewrite (Htarget _ eq_refl). simpl. reflexivity.
  - apply set_hvac_mode_heat_sent in Hsent as (t & -> & Ht & _).
    destruct Hshown as [Hmode Htarget].
    apply hvac_mode_manual_heat; [exact Hmodes | exact Hmode |].
    rewrite (Htarget _ eq_refl). simpl.
    intros Heq. rewrite Heq in Ht. apply (Qlt_irrefl _ Ht).
  - rewrite Sauto in Hsent. apply app_inv_head in Hsent. injection Hsent as <-.
    destruct Hshown as [Hmode Htarget].
    apply hvac_mode_automatic; [exact Hmodes | exact Hmode].
Qed.

(** A temperature that was set is the target shown after the next
    update, clamped, with the mode shown as HEAT, once the device shows
    what was sent, keeps its limits and these are ordered.  The mode is
    shown in any case, the target when [_update_attrs] returns. *)
Theorem set_temperature_round_trip
    (s : Env Climate.MaxCubeClimate) (t : Q) (c : LibCall)
    (h' : Heap) (e' : Climate.MaxCubeClimate)
    (Hmodes : NoDup [MAX_DEVICE_MODE_AUTOMATIC; MAX_DEVICE_MODE_MANUAL;
                     MAX_DEVICE_MODE_VACATION; MAX_DEVICE_MODE_BOOST])
    (Hsent : last (calls (world (snd (Climate.async_set_temperature (Some t) s))))
             = Some c)
    (Hshown : reflects c (device_obj h' (Climate._device e')))
    (Hlo : Climate.min_temp (device_obj h' (Climate._device e'))
           = Climate.min_temp (Climate.self_device s))
    (Hhi : Climate.max_temp (device_obj h' (Climate._device e'))
           = Climate.max_temp (Climate.self_device s))
    (Hrange : (Climate.min_temp (Climate.self_device s)
               <= Climate.max_temp (Climate.self_device s))%Q) :
  Climate._attr_hvac_mode (snd (Climate._update_attrs h' e'))
  = Some HVACMode.HEAT /\
  (fst (Climate._update_attrs h' e') = Ok tt ->
   Climate._attr_target_temperature (snd (Climate._update_attrs h' e'))
   = Some (clamped (Climate.self_device s) t)).
Proof.
  rewrite set_temperature_call, last_snoc in Hsent. injection Hsent as <-.
  destruct Hshown as [Hmode Htarget]. specialize (Htarget _ eq_refl).
  set (d := Climate.self_device s) in *.
  pose proof (clamped_lower d t) as Hv1.
  pose proof (clamped_upper d t Hrange) as Hv2.
  pose proof (min_temp_lower d) as H5.
  assert (Climate.hvac_mode_for (device_obj h' (Climate._device e'))
          = Some HVACMode.HEAT) as Hheat.
  { apply (hvac_mode_manual_heat _ Hmodes); [exact Hmode|].
    rewrite Htarget. simpl. intros Heq.
    unfold Climate.MIN_TEMPERATURE, Climate.OFF_TEMPERATURE in *. lra. }
  rewrite update_attrs_sets_hvac_mode.
  split; [exact Hheat|]. intros Hok.
  rewrite (update_attrs_ok_target h' e' Hok).
  apply target_shown_when_valid.
  - rewrite Hheat. discriminate.
  - exact Htarget.
  - rewrite Hlo. exact Hv1.
  - rewrite Hhi. exact Hv2.
Qed.

(** Clamping is idempotent: a value that [async_set_temperature] would
    send is sent unchanged when requested again. *)
Theorem clamped_idempotent (d : MaxDevice) (t : Q) :
  (clamped d (clamped d t) == clamped d t)%Q.
Proof.
  destruct (Qlt_le_dec (Climate.max_temp d) (Climate.min_temp d)) as [Hlt|Hle].
  - assert (forall x, clamped d x = Climate.min_temp d) as Hmin.
    { intros x. unfold clamped, py_max.
      pose proof (py_min_l (Climate.max_temp d) x) as Hx.
      destruct (py_lt _ _) eqn:E; [|reflexivity].
      apply py_lt_spec in E. lra. }
    rewrite !Hmin. reflexivity.
  - apply clamped_inside; [apply clamped_lower | apply clamped_upper, Hle].
Qed.

End RoundTrips.

(** ** Repeated coordinator updates *)

Section RepeatedUpdate.
Context `{MaxCubeLibrary}.

Lemma update_attrs_device (h : Heap) (e : Climate.MaxCubeClimate) :
  Climate._device (snd (Climate._update_attrs h e)) = Climate._device e.
Proof.
  unfold Climate._update_attrs.
  destruct (Climate.valve_for _ _ _); [|reflexivity].
  destruct (Climate.hvac_action_for _ _); reflexivity.
Qed.

(** Running [_update_attrs] again on what it left changes nothing. *)
Lemma update_attrs_again (h : Heap) (e : Climate.MaxCubeClimate) :
  Climate._update_attrs h
    (Climate.with_device (Climate._device e) (snd (Climate._update_attrs h e)))
  = Climate._update_attrs h e.
Proof.
  unfold Climate._update_attrs.
  destruct (Climate.valve_for h (Climate._cube e) _) as [valve|err] eqn:Ev.
  - destruct (Climate.hvac_action_for _ valve) as [a|err] eqn:Ea;
      simpl; rewrite Ev, Ea; reflexivity.
  - simpl. rewrite Ev. reflexivity.
Qed.

(** A second coordinator update on an unchanged snapshot changes
    nothing: it ends as the first did, the entity keeps the device and
    every attribute of the first update, and when the updates return
    the same state is published once more; when they raise nothing is
    published.  The precondition is that the library finds the device
    again under its own rf_address. *)
Theorem coordinator_update_twice
    (s : Env Climate.MaxCubeClimate) (snapshot found : ref)
    (Hdata : data (coordinator (world s)) = Some snapshot)
    (Hfound : device_by_rf (heap (world s)) snapshot
                (rf_address (device_obj (heap (world s))
                               (Climate._device (self s))))
              = Some found)
    (Hagain : device_by_rf (heap (world s)) snapshot
                (rf_address (device_obj (heap (world s)) found))
              = Some found) :
  let s1 := snd (Climate._handle_coordinator_update s) in
  let s2 := snd (Climate._handle_coordinator_update s1) in
  fst (Climate._handle_coordinator_update s1)
  = fst (Climate._handle_coordinator_update s) /\
  self s2 = self s1 /\
  Climate._device (self s2) = found /\
  states (world s2)
  = match fst (Climate._handle_coordinator_update s) with
    | Ok _ =>
        states (world s)
        ++ [Climate.climate_state (heap (world s)) (self s1);
            Climate.climate_state (heap (world s)) (self s1)]
    | Raise _ => states (world s)
    end.
Proof.
  intros s1 s2. subst s2 s1.
  rewrite (climate_update_found s snapshot found Hdata Hfound).
  pose proof (update_attrs_again (heap (world s))
                (Climate.with_device found (self s))) as Hsame.
  change (Climate._device (Climate.with_device found (self s)))
    with found in Hsame.
  destruct (Climate._update_attrs (heap (world s))
              (Climate.with_device found (self s))) as [[[]|err] e1] eqn:E1;
    cbn [fst snd] in *.
  - match goal with
    | |- context [Climate._handle_coordinator_update ?x] => set (s1 := x)
    end.
    assert (Climate._device e1 = found) as Hdev.
    { pose proof (update_attrs_device (heap (world s))
                    (Climate.with_device found (self s))) as Hd.
      rewrite E1 in Hd. exact Hd. }
    rewrite (climate_update_found s1 snapshot found);
      [| exact Hdata | subst s1; cbn [self world heap]; rewrite Hdev; exact Hagain].
    subst s1. cbn [self world heap states]. rewrite Hsame.
    cbn [fst snd self world states]. rewrite <- app_assoc.
    repeat split. exact Hdev.
  - match goal with
    | |- context [Climate._handle_coordinator_update ?x] => set (s1 := x)
    end.
    assert (Climate._device e1 = found) as Hdev.
    { pose proof (update_attrs_device (heap (world s))
                    (Climate.with_device found (self s))) as Hd.
      rewrite E1 in Hd. exact Hd. }
    rewrite (climate_update_found s1 snapshot found);
      [| exact Hdata | subst s1; cbn [self world heap]; rewrite Hdev; exact Hagain].
    subst s1. cbn [self world heap states]. rewrite Hsame.
    cbn [fst snd self world states].
    repeat split. exact Hdev.
Qed.

End RepeatedUpdate.

(** ** Entities created by the platforms *)

Lemma list_ascii_of_append (a b : string) :
  String.list_ascii_of_string (a +:+ b)
  = String.list_ascii_of_string a ++ String.list_ascii_of_string b.
Proof. induction a as [|x a IH]; simpl; [reflexivity | rewrite IH; reflexivity]. Qed.

Lemma list_ascii_of_string_inj (a b : string) :
  String.list_ascii_of_string a = String.list_ascii_of_string b -> a = b.
Proof.
  intros E. rewrite <- (String.string_of_list_ascii_of_string a),
              <- (String.string_of_list_ascii_of_string b), E. reflexivity.
Qed.

(** A sensor's unique id determines the device serial and the sensor
    class it was built from. *)
Lemma sensor_unique_id_inj (a b : string) (k k' : BinarySensorPlatform.SensorClass) :
  a +:+ "_" +:+ BinarySensorPlatform.key k
  = b +:+ "_" +:+ BinarySensorPlatform.key k' ->
  a = b /\ k = k'.
Proof.
  intros E. apply (f_equal String.list_ascii_of_string) in E.
  rewrite !list_ascii_of_append in E.
  destruct k, k'; simpl in E.
  - apply app_inv_tail in E. split; [apply list_ascii_of_string_inj, E | reflexivity].
  - exfalso. apply (f_equal (@List.rev _)) in E.
    rewrite !List.rev_app_distr in E. simpl in E. discriminate.
  - exfalso. apply (f_equal (@List.rev _)) in E.
    rewrite !List.rev_app_distr in E. simpl in E. discriminate.
  - apply app_inv_tail in E. split; [apply list_ascii_of_string_inj, E | reflexivity].
Qed.

Lemma NoDup_map_filter {A B} (f : A -> B) (p : A -> bool) (l : list A) :
  NoDup (map f l) -> NoDup (map f (List.filter p l)).
Proof.
  induction l as [|a l IH]; simpl; [auto|].
  rewrite NoDup_cons. intros [Ha Hl].
  destruct (p a); [|auto]. simpl. apply NoDup_cons. split; [|auto].
  intros Hin. apply Ha.
  apply list_elem_of_In, in_map_iff in Hin as (x & Hx & Hin).
  apply list_elem_of_In, in_map_iff. exists x. split; [exact Hx|].
  apply filter_In in Hin. tauto.
Qed.

Section Platforms.
Context `{MaxCubeLibrary} `{HomeAssistant}.

Lemma climate_init_cases (c : MaxCubeDataUpdateCoordinator) (h : Heap) (r : ref) :
  let made := snd (Climate._update_attrs h (ClimatePlatform.unset c h r)) in
  (ClimatePlatform.__init__ c h r = Ok made /\
   Climate._device made = r /\
   Climate._cube made = cube c /\
   Climate._attr_unique_id made = serial (device_obj h r) /\
   Climate._update_attrs h made = (Ok tt, made)) \/
  ClimatePlatform.__init__ c h r = Raise Climate.none_gt_int.
Proof.
  intros made. subst made. unfold ClimatePlatform.__init__.
  pose proof (update_attrs_again h (ClimatePlatform.unset c h r)) as Hsame.
  destruct (update_attrs_cases h (ClimatePlatform.unset c h r))
    as [(valve & a & _ & _ & E) | [E _]]; rewrite E in *; [|right; reflexivity].
  left. repeat split. exact Hsame.
Qed.

Lemma new_entities_ok (c : MaxCubeDataUpdateCoordinator) (h : Heap)
    (devs : list ref) :
  (forall r, r ∈ devs -> exists e, ClimatePlatform.__init__ c h r = Ok e) ->
  ClimatePlatform.new_entities c h devs
  = Ok (map (fun r => snd (Climate._update_attrs h (ClimatePlatform.unset c h r)))
          devs).
Proof.
  induction devs as [|r devs IH]; intros Hall; simpl; [reflexivity|].
  rewrite IH by (intros r' Hin; apply Hall; rewrite elem_of_cons; tauto).
  destruct (Hall r) as [e He]; [rewrite elem_of_cons; tauto|].
  destruct (climate_init_cases c h r) as [[E _] | E]; rewrite E in *;
    [reflexivity | discriminate].
Qed.

Lemma new_entities_raise (c : MaxCubeDataUpdateCoordinator) (h : Heap)
    (devs : list ref) :
  (exists r err, r ∈ devs /\ ClimatePlatform.__init__ c h r = Raise err) ->
  ClimatePlatform.new_entities c h devs = Raise Climate.none_gt_int.
Proof.
  induction devs as [|r devs IH]; intros (r' & err & Hin & Hr); simpl.
  - apply elem_of_nil in Hin. contradiction.
  - destruct (climate_init_cases c h r) as [[E _] | E]; rewrite E;
      [|reflexivity].
    apply elem_of_cons in Hin as [-> | Hin]; [congruence|].
    rewrite IH; [reflexivity|]. exists r', err. tauto.
Qed.

(** The climate platform creates one entity for every device of the
    cube that is a radiator or wall thermostat, in the cube's order and
    for no other device, provided that every constructor returns.  Each
    entity is the one its constructor made: it refers to its device and
    the coordinator's cube, has the device's serial as unique id and
    the attributes [_update_attrs] computes; distinct serials give
    distinct unique ids.  [async_add_entities] is called only when there
    is at least one entity.  When the constructor of one of these
    devices raises, the set-up raises [TypeError] and
    [async_add_entities] is not called.  [hass] is left as it was. *)
Theorem climate_platform_entities
    (hs : Hass) (entry : string)
    (domain : gmap string MaxCubeDataUpdateCoordinator)
    (c : MaxCubeDataUpdateCoordinator)
    (Hdomain : hass_data hs !! DOMAIN = Some domain)
    (Hentry : domain !! entry = Some c) :
  let h := hass_heap hs in
  let all := devices (cube_obj h (cube c)) in
  let wanted :=
    List.filter (fun r => is_thermostat (device_obj h r)
                          || is_wallthermostat (device_obj h r)) all in
  ((forall r, r ∈ wanted -> exists e, ClimatePlatform.__init__ c h r = Ok e) ->
   exists entities,
     ClimatePlatform.async_setup_entry entry hs
     = (Ok (match entities with [] => None | _ => Some entities end), hs) /\
     Forall2 (fun r e => ClimatePlatform.__init__ c h r = Ok e) wanted entities /\
     map Climate._device entities = wanted /\
     map Climate._attr_unique_id entities
     = map (fun r => serial (device_obj h r)) wanted /\
     Forall (fun e => Climate._cube e = cube c /\
                      Climate._update_attrs h e = (Ok tt, e))
       entities /\
     (NoDup (map (fun r => serial (device_obj h r)) all) ->
      NoDup (map Climate._attr_unique_id entities))) /\
  ((exists r err, r ∈ wanted /\ ClimatePlatform.__init__ c h r = Raise err) ->
   exists err,
     ClimatePlatform.async_setup_entry entry hs = (Raise err, hs) /\
     exc_cls err = ExceptionSubclass "TypeError").
Proof.
  intros h all wanted.
  assert (forall r : result (list Climate.MaxCubeClimate),
            ClimatePlatform.new_entities c h wanted = r ->
            ClimatePlatform.async_setup_entry entry hs
            = (match r with
               | Ok entities =>
                   Ok (match entities with [] => None | _ => Some entities end)
               | Raise err => Raise err
               end, hs)) as Hrun.
  { intros r Hr. unfold ClimatePlatform.async_setup_entry, lookup_coordinator.
    run_monad. rewrite Hdomain, Hentry. simpl.
    fold h. fold all. fold wanted. rewrite Hr.
    destruct r as [[|e l]|err]; destruct hs; reflexivity. }
  split.
  - intros Hall.
    set (made := fun r => snd (Climate._update_attrs h (ClimatePlatform.unset c h r))).
    assert (forall r, r ∈ wanted ->
              ClimatePlatform.__init__ c h r = Ok (made r) /\
              Climate._device (made r) = r /\
              Climate._cube (made r) = cube c /\
              Climate._attr_unique_id (made r) = serial (device_obj h r) /\
              Climate._update_attrs h (made r) = (Ok tt, made r)) as Hmade.
    { intros r Hin. destruct (Hall r Hin) as [e He].
      destruct (climate_init_cases c h r) as [Hok | E]; [exact Hok|].
      rewrite E in He. discriminate. }
    exists (map made wanted).
    split; [apply (Hrun _ (new_entities_ok c h wanted Hall))|].
    assert (forall l, (forall r, r ∈ l -> r ∈ wanted) ->
              Forall2 (fun r e => ClimatePlatform.__init__ c h r = Ok e)
                l (map made l) /\
              map Climate._device (map made l) = l /\
              map Climate._attr_unique_id (map made l)
              = map (fun r => serial (device_obj h r)) l) as Hlists.
    { induction l as [|r l IH]; intros Hsub; simpl.
      - repeat split. constructor.
      - destruct IH as (HF & Hdev & Hid).
        { intros r' Hin. apply Hsub. rewrite elem_of_cons. tauto. }
        destruct (Hmade r) as (Hinit & Hd & _ & Hu & _).
        { apply Hsub. rewrite elem_of_cons. tauto. }
        split; [constructor; assumption|].
        split; f_equal; assumption. }
    destruct (Hlists wanted (fun r Hin => Hin)) as (HF & Hdev & Hid).
    split; [exact HF|]. split; [exact Hdev|]. split; [exact Hid|]. split.
    + apply Forall_forall. intros e He.
      apply list_elem_of_In, in_map_iff in He as (r & <- & Hin).
      apply list_elem_of_In in Hin.
      destruct (Hmade r Hin) as (_ & _ & Hc & _ & Hu). split; assumption.
    + intros Hnd. rewrite Hid.
      apply (NoDup_map_filter (fun r => serial (device_obj h r))). exact Hnd.
  - intros Hraise. exists Climate.none_gt_int. split; [|reflexivity].
    apply (Hrun _ (new_entities_raise c h wanted Hraise)).
Qed.

(** Neither platform can be set up for an entry whose coordinator is
    not in [hass.data]: the look-up raises [KeyError] and [hass] is left
    as it was. *)
Theorem platform_setup_needs_coordinator (hs : Hass) (entry : string)
    (Hmissing : forall domain, hass_data hs !! DOMAIN = Some domain ->
                               domain !! entry = None) :
  exists missing,
    (missing = DOMAIN \/ missing = entry) /\
    ClimatePlatform.async_setup_entry entry hs = (Raise (KeyError missing), hs) /\
    BinarySensorPlatform.async_setup_entry entry hs
    = (Raise (KeyError missing), hs).
Proof.
  unfold ClimatePlatform.async_setup_entry,
    BinarySensorPlatform.async_setup_entry, lookup_coordinator.
  run_monad.
  destruct (hass_data hs !! DOMAIN) as [domain|] eqn:Ed.
  - rewrite (Hmissing domain eq_refl). simpl.
    exists entry. split; [right; reflexivity|]. split; reflexivity.
  - simpl. exists DOMAIN. split; [left; reflexivity|]. split; reflexivity.
Qed.

End Platforms.

Section SensorPlatform.
Context `{MaxCubeLibrary} `{HomeAssistant}.

Lemma sensors_of_spec (c : MaxCubeDataUpdateCoordinator) (h : Heap) (r : ref)
    (k : BinarySensorPlatform.SensorClass)
    (e : BinarySensor.MaxCubeBinarySensorBase) :
  In (k, e) (BinarySensorPlatform.sensors_of c h r) <->
  e = BinarySensorPlatform.__init__ k c h r /\ sensor_wanted k (device_obj h r).
Proof.
  unfold BinarySensorPlatform.sensors_of, sensor_wanted.
  rewrite in_app_iff.
  destruct (battery (device_obj h r)) as [|[b|]];
    destruct (is_windowshutter (device_obj h r)); destruct k; simpl;
    (split;
     [ intros Hin;
       repeat match goal with
              | X : _ \/ _ |- _ => destruct X
              | X : False |- _ => destruct X
              | X : (_, _) = (_, _) |- _ => inversion X; subst; clear X
              end;
       split; eauto
     | intros [-> Hw];
       repeat match goal with
              | X : exists _, _ |- _ => destruct X
              end;
       try discriminate; auto ]).
Qed.

Lemma sensors_of_unique_ids (c : MaxCubeDataUpdateCoordinator) (h : Heap) (r : ref) :
  NoDup (map (fun ke => BinarySensor._attr_unique_id (snd ke))
           (BinarySensorPlatform.sensors_of c h r)).
Proof.
  unfold BinarySensorPlatform.sensors_of.
  destruct (battery (device_obj h r)) as [|[b|]];
    destruct (is_windowshutter (device_obj h r)); simpl;
    repeat (apply NoDup_cons; split); try apply NoDup_nil_2;
    rewrite ?elem_of_cons, ?elem_of_nil; try tauto.
  intros [E | []].
  apply (sensor_unique_id_inj _ _ BinarySensorPlatform.MaxCubeBattery
           BinarySensorPlatform.MaxCubeShutter) in E as [_ E].
  discriminate.
Qed.

Lemma sensor_id_owner (c : MaxCubeDataUpdateCoordinator) (h : Heap)
    (l : list ref) (id : string) :
  In id (map (fun ke => BinarySensor._attr_unique_id (snd ke))
           (flat_map (BinarySensorPlatform.sensors_of c h) l)) ->
  exists r k, In r l /\
    id = serial (device_obj h r) +:+ "_" +:+ BinarySensorPlatform.key k.
Proof.
  intros Hin. apply in_map_iff in Hin as ([k e] & <- & Hin).
  apply in_flat_map in Hin as (r & Hr & Hin).
  apply sensors_of_spec in Hin as [-> _]. exists r, k. split; [exact Hr|].
  reflexivity.
Qed.

(** The binary sensor platform creates a battery sensor for exactly the
    devices of the cube whose [battery] attribute is present and not
    [None], and a window sensor for exactly its window shutters.  So a
    battery sensor never starts unknown.  [async_add_entities] is called
    only when there is at least one sensor, and [hass] is left as it
    was. *)
Theorem binary_sensor_platform_entities
    (hs : Hass) (entry : string)
    (domain : gmap string MaxCubeDataUpdateCoordinator)
    (c : MaxCubeDataUpdateCoordinator)
    (Hdomain : hass_data hs !! DOMAIN = Some domain)
    (Hentry : domain !! entry = Some c) :
  let h := hass_heap hs in
  let all := devices (cube_obj h (cube c)) in
  exists entities,
    BinarySensorPlatform.async_setup_entry entry hs
    = (Ok (match entities with [] => None | _ => Some entities end), hs) /\
    (forall k e,
       In (k, e) entities <->
       exists r, In r all /\ e = BinarySensorPlatform.__init__ k c h r /\
                 sensor_wanted k (device_obj h r)) /\
    (forall e, In (BinarySensorPlatform.MaxCubeBattery, e) entities ->
       exists b,
         BinarySensorPlatform.is_on BinarySensorPlatform.MaxCubeBattery
           (device_obj h (BinarySensor._device e)) = Some b).
Proof.
  intros h all.
  exists (flat_map (BinarySensorPlatform.sensors_of c h) all).
  assert (forall k e,
            In (k, e) (flat_map (BinarySensorPlatform.sensors_of c h) all) <->
            exists r, In r all /\ e = BinarySensorPlatform.__init__ k c h r /\
                      sensor_wanted k (device_obj h r)) as Hspec.
  { intros k e. rewrite in_flat_map. split.
    - intros (r & Hr & Hin). apply sensors_of_spec in Hin. eauto.
    - intros (r & Hr & He). exists r. split; [exact Hr|].
      apply sensors_of_spec. exact He. }
  split; [|split].
  - unfold BinarySensorPlatform.async_setup_entry, lookup_coordinator.
    run_monad. rewrite Hdomain, Hentry. simpl. destruct hs; reflexivity.
  - exact Hspec.
  - intros e He. apply Hspec in He as (r & _ & -> & b & Hb).
    simpl. unfold BinarySensor.MaxCubeBattery_is_on. rewrite Hb. eauto.
Qed.

(** The unique ids of the binary sensors are pairwise distinct whenever
    the serials of the cube's devices are: the id is the serial followed
    by the key of the sensor class, and neither key is a suffix of the
    other. *)
Theorem binary_sensor_unique_ids
    (c : MaxCubeDataUpdateCoordinator) (h : Heap)
    (Hserials : NoDup (map (fun r => serial (device_obj h r))
                         (devices (cube_obj h (cube c))))) :
  NoDup (map (fun ke => BinarySensor._attr_unique_id (snd ke))
           (flat_map (BinarySensorPlatform.sensors_of c h)
              (devices (cube_obj h (cube c))))).
Proof.
  induction (devices (cube_obj h (cube c))) as [|r l IH]; simpl in *.
  - apply NoDup_nil_2.
  - apply NoDup_cons in Hserials as [Hr Hl].
    rewrite map_app. apply NoDup_app. split; [apply sensors_of_unique_ids|].
    split; [|apply IH, Hl].
    intros id Hid Hrest. apply Hr.
    apply list_elem_of_In, in_map_iff in Hid as ([k e] & <- & Hin).
    apply sensors_of_spec in Hin as [-> _].
    apply list_elem_of_In, sensor_id_owner in Hrest as (r' & k' & Hr' & E).
    simpl in E. apply sensor_unique_id_inj in E as [E _].
    apply list_elem_of_In, in_map_iff. exists r'. split; [symmetry; exact E | exact Hr'].
Qed.

End SensorPlatform.

(** ** Setting up and unloading a config entry *)

Ltac run_hass :=
  unfold Integration.async_setup_entry, Integration.async_unload_entry,
    Integration.async_config_entry_first_refresh,
    Integration.pop_coordinator, Integration.drop_empty_domain,
    Integration.listen_until_unload, Integration.register_callback,
    Coordinator.__init__, Coordinator.async_refresh,
    Coordinator._async_update_data, Coordinator.set_data,
    lookup_coordinator, in_heap, in_ha, as_coordinator, executor_disconnect,
    with_data in *;
  run_monad.

Section SetupAndUnload.
Context `{MaxCubeLibrary} `{HomeAssistant}.

(** A set-up that cannot reach the cube leaves no trace in [hass.data]
    and registers nothing with Home Assistant.  When the constructor
    raises, its exception propagates; when the first refresh fails, the
    error is a [ConfigEntryNotReady] caused by the [UpdateFailed] that
    the library's exception caused. *)
Theorem setup_entry_failure_is_clean (entry : ConfigEntry) (hs : Hass) :
  let host := CONF_HOST (entry_data entry) in
  let port := CONF_PORT (entry_data entry) in
  let r := fst (Integration.async_setup_entry entry hs) in
  let hs' := snd (Integration.async_setup_entry entry hs) in
  match MaxCube_new host port (hass_heap hs) with
  | (Raise e, _) =>
      r = Raise e /\ hass_data hs' = hass_data hs /\ hass_ha hs' = hass_ha hs /\
      hass_calls hs' = hass_calls hs
  | (Ok c, h1) =>
      forall e h3,
        cube_update c (Coordinator.set_use_persistent_connection c true h1)
        = (Raise e, h3) ->
        (exists not_ready failed,
           r = Raise not_ready /\
           exc_cls not_ready = ExceptionSubclass "ConfigEntryNotReady" /\
           exc_cause not_ready = Some failed /\
           exc_cls failed = UpdateFailed /\ exc_cause failed = Some e) /\
        hass_data hs' = hass_data hs /\ hass_ha hs' = hass_ha hs /\
        hass_calls hs' = hass_calls hs ++ [CallUpdate c]
  end.
Proof.
  run_hass.
  destruct (MaxCube_new _ _ (hass_heap hs)) as [[c|e] h1]; simpl.
  - intros e h3 Hup.
    change (timedelta_le Coordinator.DEFAULT_SCAN_INTERVAL
              (timedelta_of_seconds 300)) with true.
    rewrite Hup. simpl.
    destruct (is_TimeoutError e); simpl;
      (split; [eexists _, _; repeat split | repeat split]).
  - repeat split.
Qed.

(** A set-up that reaches the cube stores its coordinator under the
    entry id, without touching other entries or domains, whatever the
    device registry and the platform forwarding do afterwards.  The
    stored coordinator owns the new cube, polls at the default interval
    and already has its first data; the platforms can look it up. *)
Theorem setup_entry_stores_coordinator
    (entry : ConfigEntry) (hs : Hass) (c : ref) (h1 h3 : Heap)
    (Hnew : MaxCube_new (CONF_HOST (entry_data entry))
              (CONF_PORT (entry_data entry)) (hass_heap hs) = (Ok c, h1))
    (Hupdate : cube_update c (Coordinator.set_use_persistent_connection c true h1)
               = (Ok tt, h3)) :
  let hs' := snd (Integration.async_setup_entry entry hs) in
  let coord := fresh_coordinator entry c (Some c) in
  hass_data hs' = Integration.store_coordinator (entry_id entry) coord (hass_data hs) /\
  fst (lookup_coordinator (entry_id entry) hs') = Ok coord /\
  (forall other, other <> DOMAIN -> hass_data hs' !! other = hass_data hs !! other) /\
  (forall domain other,
     hass_data hs !! DOMAIN = Some domain -> other <> entry_id entry ->
     hass_data hs' !! DOMAIN ≫= (.!! other) = domain !! other) /\
  hass_heap hs' = h3 /\
  hass_disconnects hs' = hass_disconnects hs.
Proof.
  intros hs' coord.
  assert (hass_data hs'
          = Integration.store_coordinator (entry_id entry) coord (hass_data hs)
          /\ hass_heap hs' = h3
          /\ hass_disconnects hs' = hass_disconnects hs) as (Hdata & Hheap & Hdisc).
  { subst hs'. run_hass. rewrite Hnew. simpl.
    change (timedelta_le Coordinator.DEFAULT_SCAN_INTERVAL
              (timedelta_of_seconds 300)) with true.
    rewrite Hupdate. simpl.
    destruct (async_get_or_create _ (hass_ha hs)) as [[u|e] a1]; simpl;
      [|repeat split].
    destruct (async_forward_entry_setups _ _ a1) as [[u'|e] a2]; simpl;
      repeat split. }
  split; [exact Hdata|].
  unfold Integration.store_coordinator in Hdata.
  split; [|split; [|split; [|split]]]; try assumption.
  - unfold lookup_coordinator. run_monad. rewrite Hdata.
    rewrite lookup_insert_eq. simpl. rewrite lookup_insert_eq. reflexivity.
  - intros other Hother. rewrite Hdata. apply lookup_insert_ne. congruence.
  - intros domain other Hdomain Hother. rewrite Hdata, lookup_insert_eq. simpl.
    rewrite Hdomain. simpl. apply lookup_insert_ne. congruence.
Qed.

End SetupAndUnload.

Section Unload.
Context `{MaxCubeLibrary} `{HomeAssistant}.

Lemma unload_entry_run (entry : ConfigEntry) (hs : Hass)
    (domain : gmap string MaxCubeDataUpdateCoordinator)
    (c : MaxCubeDataUpdateCoordinator) (a : HA) :
  async_unload_platforms (entry_id entry) Integration.PLATFORMS (hass_ha hs)
  = (Ok true, a) ->
  hass_data hs !! DOMAIN = Some domain ->
  domain !! entry_id entry = Some c ->
  Integration.async_unload_entry entry hs
  = let '(r, h) := cube_disconnect (cube c) (hass_heap hs) in
    let rest := delete (entry_id entry) domain in
    (match r with Ok _ => Ok true | Raise e => Raise e end,
     {| hass_data :=
          match r with
          | Ok _ => if bool_decide (rest = ∅)
                    then delete DOMAIN (<[DOMAIN := rest]> (hass_data hs))
                    else <[DOMAIN := rest]> (hass_data hs)
          | Raise _ => <[DOMAIN := rest]> (hass_data hs)
          end;
        hass_heap := h; hass_calls := hass_calls hs;
        hass_disconnects := hass_disconnects hs ++ [cube c];
        hass_ha := a |}).
Proof.
  intros Hplat Hdomain Hentry. run_hass.
  rewrite Hplat. simpl. rewrite Hdomain, Hentry. simpl.
  destruct (cube_disconnect (cube c) (hass_heap hs)) as [[u|e] h]; simpl;
    [|reflexivity].
  rewrite lookup_insert_eq. simpl.
  destruct (bool_decide (delete (entry_id entry) domain = ∅)); reflexivity.
Qed.

(** Unloading an entry whose platforms unload and whose cube
    disconnects removes exactly that entry's coordinator from
    [hass.data]: other entries of the domain and other domains stay, the
    [maxcube] key itself goes when this was its last entry, and the
    entry's cube is disconnected once. *)
Theorem unload_entry_removes_coordinator
    (entry : ConfigEntry) (hs : Hass)
    (domain : gmap string MaxCubeDataUpdateCoordinator)
    (c : MaxCubeDataUpdateCoordinator) (a : HA) (h : Heap)
    (Hplatforms : async_unload_platforms (entry_id entry) Integration.PLATFORMS
                    (hass_ha hs) = (Ok true, a))
    (Hdomain : hass_data hs !! DOMAIN = Some domain)
    (Hentry : domain !! entry_id entry = Some c)
    (Hdisconnect : cube_disconnect (cube c) (hass_heap hs) = (Ok tt, h)) :
  let hs' := snd (Integration.async_unload_entry entry hs) in
  fst (Integration.async_unload_entry entry hs) = Ok true /\
  hass_data hs' !! DOMAIN ≫= (.!! entry_id entry) = None /\
  (forall other, other <> entry_id entry ->
     hass_data hs' !! DOMAIN ≫= (.!! other) = domain !! other) /\
  (forall other, other <> DOMAIN -> hass_data hs' !! other = hass_data hs !! other) /\
  (hass_data hs' !! DOMAIN = None <->
   forall other, other <> entry_id entry -> domain !! other = None) /\
  hass_disconnects hs' = hass_disconnects hs ++ [cube c] /\
  hass_heap hs' = h.
Proof.
  intros hs'. subst hs'.
  rewrite (unload_entry_run entry hs domain c a Hplatforms Hdomain Hentry).
  rewrite Hdisconnect. cbn [fst snd hass_data hass_disconnects hass_heap].
  set (rest := delete (entry_id entry) domain).
  assert (rest = ∅ <-> forall other, other <> entry_id entry -> domain !! other = None)
    as Hempty.
  { split.
    - intros E other Hother.
      rewrite <- (lookup_delete_ne domain (entry_id entry) other) by congruence.
      fold rest. rewrite E. apply lookup_empty.
    - intros Hnone. apply map_eq. intros other. rewrite lookup_empty.
      subst rest. destruct (decide (entry_id entry = other)) as [<-|Hne].
      + apply lookup_delete_eq.
      + rewrite lookup_delete_ne by exact Hne. apply Hnone. congruence. }
  split; [reflexivity|].
  destruct (bool_decide_reflect (rest = ∅)) as [E|E].
  - rewrite delete_insert_eq.
    split; [rewrite lookup_delete_eq; reflexivity|].
    split; [|split; [|split; [|split]]]; try reflexivity.
    + intros other Hother. rewrite lookup_delete_eq. simpl. symmetry.
      apply Hempty; assumption.
    + intros other Hother. apply lookup_delete_ne. congruence.
    + rewrite lookup_delete_eq. split; [intros _; apply Hempty, E | reflexivity].
  - split; [rewrite lookup_insert_eq; simpl; apply lookup_delete_eq|].
    split; [|split; [|split; [|split]]]; try reflexivity.
    + intros other Hother. rewrite lookup_insert_eq. simpl.
      apply lookup_delete_ne. congruence.
    + intros other Hother. apply lookup_insert_ne. congruence.
    + rewrite lookup_insert_eq. split; [discriminate|].
      intros Hnone. exfalso. apply E, Hempty, Hnone.
Qed.

(** What unloading never does.  When the platforms refuse to unload or
    fail, [hass.data] is untouched and nothing is disconnected.  When
    the entry has no coordinator in [hass.data], a [KeyError] is raised
    before anything is disconnected.  When the cube fails to disconnect,
    that exception propagates with the coordinator already removed and
    the [maxcube] dict left in place, even if empty. *)
Theorem unload_entry_failures (entry : ConfigEntry) (hs : Hass) :
  let r := fst (Integration.async_unload_entry entry hs) in
  let hs' := snd (Integration.async_unload_entry entry hs) in
  let platforms :=
    async_unload_platforms (entry_id entry) Integration.PLATFORMS (hass_ha hs) in
  (fst platforms <> Ok true ->
   r = fst platforms /\ hass_data hs' = hass_data hs /\
   hass_disconnects hs' = hass_disconnects hs /\ hass_heap hs' = hass_heap hs) /\
  (fst platforms = Ok true ->
   hass_data hs !! DOMAIN ≫= (.!! entry_id entry) = None ->
   (r = Raise (KeyError DOMAIN) \/ r = Raise (KeyError (entry_id entry))) /\
   hass_data hs' = hass_data hs /\
   hass_disconnects hs' = hass_disconnects hs) /\
  (forall domain c e h,
     fst platforms = Ok true ->
     hass_data hs !! DOMAIN = Some domain ->
     domain !! entry_id entry = Some c ->
     cube_disconnect (cube c) (hass_heap hs) = (Raise e, h) ->
     r = Raise e /\
     hass_data hs' !! DOMAIN = Some (delete (entry_id entry) domain) /\
     hass_disconnects hs' = hass_disconnects hs ++ [cube c]).
Proof.
  intros r hs' platforms. subst r hs' platforms.
  split; [|split].
  - run_hass.
    destruct (async_unload_platforms _ _ (hass_ha hs)) as [[[|]|e] a]; simpl;
      intros Hne; try (exfalso; apply Hne; reflexivity); repeat split.
  - run_hass.
    destruct (async_unload_platforms _ _ (hass_ha hs)) as [[[|]|e] a]; simpl;
      intros Hok; try discriminate.
    destruct (hass_data hs !! DOMAIN) as [domain|]; simpl.
    + intros ->. simpl. split; [right; reflexivity|]. split; reflexivity.
    + intros _. split; [left; reflexivity|]. split; reflexivity.
  - intros domain c e h Hok Hdomain Hentry Hdisc.
    destruct (async_unload_platforms (entry_id entry) Integration.PLATFORMS
                (hass_ha hs)) as [rp a] eqn:Hplat.
    simpl in Hok. subst rp.
    rewrite (unload_entry_run entry hs domain c a Hplat Hdomain Hentry).
    rewrite Hdisc. cbn [fst snd hass_data hass_disconnects].
    split; [reflexivity|]. split; [apply lookup_insert_eq | reflexivity].
Qed.

(** Setting an entry up and unloading it again gives [hass.data] back as
    it was, provided the entry id was not in use and the [maxcube] key
    was not present with an empty dict (which unloading would drop). *)
Theorem setup_then_unload_restores_data
    (entry : ConfigEntry) (hs : Hass)
    (Hfresh : hass_data hs !! DOMAIN ≫= (.!! entry_id entry) = None)
    (Hnonempty : hass_data hs !! DOMAIN <> Some ∅)
    (Hsetup : fst (Integration.async_setup_entry entry hs) = Ok true) :
  let hs1 := snd (Integration.async_setup_entry entry hs) in
  fst (Integration.async_unload_entry entry hs1) = Ok true ->
  hass_data (snd (Integration.async_unload_entry entry hs1)) = hass_data hs.
Proof.
  intros hs1 Hunload.
  (* what the set-up stored *)
  assert (exists coord,
            hass_data hs1
            = Integration.store_coordinator (entry_id entry) coord (hass_data hs))
    as (coord & Hstored).
  { subst hs1. clear Hunload. revert Hsetup. run_hass.
    destruct (MaxCube_new _ _ (hass_heap hs)) as [[c|e] h1]; simpl;
      [|discriminate].
    destruct (cube_update c _) as [[u|e] h3]; simpl.
    - destruct (async_get_or_create _ (hass_ha hs)) as [[u1|e] a1]; simpl;
        [|discriminate].
      destruct (async_forward_entry_setups _ _ a1) as [[u2|e] a2]; simpl;
        [|discriminate].
      intros _. eexists. reflexivity.
    - destruct (is_TimeoutError e); discriminate. }
  unfold Integration.store_coordinator in Hstored.
  set (before := default ∅ (hass_data hs !! DOMAIN)) in *.
  assert (before !! entry_id entry = None) as Hbefore.
  { subst before. destruct (hass_data hs !! DOMAIN) as [domain|]; simpl in *;
      [exact Hfresh | apply lookup_empty]. }
  assert (hass_data hs1 !! DOMAIN = Some (<[entry_id entry := coord]> before))
    as Hdomain by (rewrite Hstored; apply lookup_insert_eq).
  (* what the unload did *)
  revert Hunload.
  destruct (async_unload_platforms (entry_id entry) Integration.PLATFORMS
              (hass_ha hs1)) as [[[|]|e] a] eqn:Hplat.
  - rewrite (unload_entry_run entry hs1 _ coord a Hplat Hdomain
               (lookup_insert_eq _ _ _)).
    destruct (cube_disconnect (cube coord) (hass_heap hs1)) as [[u|e] h];
      cbn [fst snd hass_data]; [|discriminate].
    intros _. rewrite delete_insert_id by exact Hbefore.
    rewrite Hstored. rewrite insert_insert_eq.
    destruct (bool_decide_reflect (before = ∅)) as [E|E].
    + rewrite delete_insert_eq. apply delete_id.
      subst before. destruct (hass_data hs !! DOMAIN) as [domain|];
        [|reflexivity].
      simpl in E. subst domain. contradiction.
    + apply insert_id. subst before.
      destruct (hass_data hs !! DOMAIN) as [domain|]; [reflexivity|].
      exfalso. apply E. reflexivity.
  - run_hass. rewrite Hplat. simpl. discriminate.
  - run_hass. rewrite Hplat. simpl. discriminate.
Qed.

End Unload.

(** ** The config flow *)

Section ConfigFlowProperties.
Context `{MaxCubeLibrary} `{HomeAssistant}.

Lemma validate_input_run (input : UserInput) (hs : Hass) :
  ConfigFlow.validate_input input hs
  = match MaxCube_new (CONF_HOST input) (CONF_PORT input) (hass_heap hs) with
    | (Raise e, h1) =>
        (Raise (ExcFrom ConfigFlow.CannotConnect "" e),
         {| hass_data := hass_data hs; hass_heap := h1;
            hass_calls := hass_calls hs;
            hass_disconnects := hass_disconnects hs; hass_ha := hass_ha hs |})
    | (Ok c, h1) =>
        let '(r, h2) := cube_disconnect c h1 in
        (match r with
         | Ok _ =>
             Ok {| ConfigFlow.title := "MAX! Cube (" +:+ CONF_HOST input +:+ ")";
                   ConfigFlow.unique_id := cube_serial (cube_obj h2 c) |}
         | Raise e => Raise (ExcFrom ConfigFlow.CannotConnect "" e)
         end,
         {| hass_data := hass_data hs; hass_heap := h2;
            hass_calls := hass_calls hs;
            hass_disconnects := hass_disconnects hs ++ [c];
            hass_ha := hass_ha hs |})
    end.
Proof.
  unfold ConfigFlow.validate_input, ConfigFlow.executor_connect, in_heap,
    executor_disconnect.
  run_monad.
  destruct (MaxCube_new _ _ (hass_heap hs)) as [[c|e] h1]; simpl.
  - destruct (cube_disconnect c h1) as [[u|e] h2]; simpl; [reflexivity|].
    destruct (is_TimeoutError e); reflexivity.
  - destruct (is_TimeoutError e); reflexivity.
Qed.

(** [validate_input] connects once and, if that worked, disconnects the
    cube it got before returning: the title names the host and the
    unique id is the cube's serial.  Whatever the connection or the
    disconnection raises comes out as a [CannotConnect] with that
    exception as its cause; after a failed connection nothing is
    disconnected.  [hass.data] and Home Assistant's own state are not
    touched. *)
Theorem validate_input_outcomes (input : UserInput) (hs : Hass) :
  let r := fst (ConfigFlow.validate_input input hs) in
  let hs' := snd (ConfigFlow.validate_input input hs) in
  hass_data hs' = hass_data hs /\ hass_ha hs' = hass_ha hs /\
  match MaxCube_new (CONF_HOST input) (CONF_PORT input) (hass_heap hs) with
  | (Raise e, h1) =>
      (exists failure,
         r = Raise failure /\ exc_cls failure = ConfigFlow.CannotConnect /\
         exc_cause failure = Some e) /\
      hass_disconnects hs' = hass_disconnects hs
  | (Ok c, h1) =>
      hass_disconnects hs' = hass_disconnects hs ++ [c] /\
      hass_heap hs' = snd (cube_disconnect c h1) /\
      match fst (cube_disconnect c h1) with
      | Ok _ =>
          r = Ok {| ConfigFlow.title := "MAX! Cube (" +:+ CONF_HOST input +:+ ")";
                    ConfigFlow.unique_id := cube_serial (cube_obj (hass_heap hs') c) |}
      | Raise e =>
          exists failure,
            r = Raise failure /\ exc_cls failure = ConfigFlow.CannotConnect /\
            exc_cause failure = Some e
      end
  end.
Proof.
  intros r hs'. subst r hs'. rewrite validate_input_run.
  destruct (MaxCube_new _ _ (hass_heap hs)) as [[c|e] h1]; simpl.
  - destruct (cube_disconnect c h1) as [[u|e] h2]; simpl;
      repeat split; eexists; repeat split.
  - repeat split. eexists; repeat split.
Qed.

(** The user step never raises: it returns a form or a created entry.
    Without input it shows the empty form and does nothing else.  With
    input an entry is created, holding the input and titled after the
    host, only when the validation, [async_set_unique_id] and the
    duplicate check all return; a failed validation shows the form with
    cannot_connect, and whatever the other two raise, the abort of an
    already configured cube included, is caught and shows the form with
    an error key instead.  [hass.data] is never touched. *)
Theorem step_user_outcomes (user_input : option UserInput) (hs : Hass) :
  let hs' := snd (ConfigFlow.async_step_user user_input hs) in
  let form key := ConfigFlow.ShowForm "user" {[ "base" := key ]} in
  hass_data hs' = hass_data hs /\
  exists res,
    fst (ConfigFlow.async_step_user user_input hs) = Ok res /\
    match user_input with
    | None => res = ConfigFlow.ShowForm "user" ∅ /\ hs' = hs
    | Some input =>
        match ConfigFlow.validate_input input hs with
        | (Raise e, _) => res = form "cannot_connect"
        | (Ok info, hs1) =>
            match async_set_unique_id (ConfigFlow.unique_id info) (hass_ha hs1) with
            | (Raise e, _) => res = form (error_key e)
            | (Ok _, a) =>
                match _abort_if_unique_id_configured a with
                | (Raise e, _) => res = form (error_key e)
                | (Ok _, _) =>
                    res = ConfigFlow.CreateEntry
                            ("MAX! Cube (" +:+ CONF_HOST input +:+ ")") input
                end
            end
        end
    end.
Proof.
  intros hs' form. subst hs' form.
  destruct user_input as [input|]; [|split; [reflexivity|]; eexists;
    split; [reflexivity|]; split; [reflexivity | destruct hs; reflexivity]].
  unfold ConfigFlow.async_step_user, in_ha, error_key. run_monad.
  rewrite validate_input_run in *.
  destruct (MaxCube_new _ _ (hass_heap hs)) as [[c|e] h1]; simpl in *.
  - destruct (cube_disconnect c h1) as [[u|e] h2]; simpl in *.
    + destruct (async_set_unique_id _ (hass_ha hs)) as [[u1|e] a1]; simpl.
      * destruct (_abort_if_unique_id_configured a1) as [[u2|e] a2]; simpl.
        -- split; [reflexivity|]. eexists. split; reflexivity.
        -- destruct (bool_decide _); simpl; (split; [reflexivity|]);
             eexists; split; reflexivity.
      * destruct (bool_decide _); simpl; (split; [reflexivity|]);
          eexists; split; reflexivity.
    + split; [reflexivity|]. eexists. split; reflexivity.
  - split; [reflexivity|]. eexists. split; reflexivity.
Qed.

End ConfigFlowProperties.

(** ** Sequences of refreshes *)

Section Refreshes.
Context `{MaxCubeLibrary}.

Lemma refresh_step (w : World) :
  let c := coordinator w in
  let w' := snd (Coordinator.async_refresh w) in
  fst (Coordinator.async_refresh w) = Ok tt /\
  cube (coordinator w') = cube c /\
  _host (coordinator w') = _host c /\
  update_interval (coordinator w') = update_interval c /\
  refresh_requests (coordinator w') = refresh_requests c /\
  (data (coordinator w') = data c \/ data (coordinator w') = Some (cube c)) /\
  calls w' = calls w ++ [CallUpdate (cube c)] /\
  states w' = states w.
Proof.
  unfold Coordinator.async_refresh, Coordinator._async_update_data,
    Coordinator.set_data.
  run_monad.
  destruct (cube_update (cube (coordinator w)) (heap w)) as [[u|e] h']; simpl.
  - repeat split. right. reflexivity.
  - destruct (is_TimeoutError e); simpl; repeat split; left; reflexivity.
Qed.

(** However many refreshes run and however many of them fail, the
    coordinator keeps its cube, host and interval, its [data] is either
    what it was or that same cube, and each refresh made exactly one
    [update] call on that cube; no refresh raises. *)
Theorem refreshes_keep_the_cube (n : nat) (w : World) :
  let c := coordinator w in
  let w' := snd (Integration.refreshes n w) in
  fst (Integration.refreshes n w) = Ok tt /\
  cube (coordinator w') = cube c /\
  _host (coordinator w') = _host c /\
  update_interval (coordinator w') = update_interval c /\
  (data (coordinator w') = data c \/ data (coordinator w') = Some (cube c)) /\
  calls w' = calls w ++ replicate n (CallUpdate (cube c)) /\
  states w' = states w.
Proof.
  revert w. induction n as [|n IH]; intros w; simpl.
  - cbn. rewrite app_nil_r. repeat split. left. reflexivity.
  - destruct (refresh_step w) as (Hr & Hc & Hh & Hi & _ & Hd & Hcalls & Hs).
    cbv zeta in *.
    unfold mbind, M_bind.
    destruct (Coordinator.async_refresh w) as [r w1]. simpl in *. subst r.
    destruct (IH w1) as (Hr' & Hc' & Hh' & Hi' & Hd' & Hcalls' & Hs').
    rewrite Hc in *.
    split; [exact Hr'|]. split; [congruence|]. split; [congruence|].
    split; [congruence|]. split.
    + destruct Hd' as [-> | ->]; [exact Hd | right; reflexivity].
    + split; [|congruence].
      rewrite Hcalls', Hcalls, <- app_assoc. reflexivity.
Qed.

End Refreshes.

(** ** The refresh lock *)

Module LockFacts.
Import Scheduling.

Lemma count_zero (p : list op -> bool) (ts : list (list op)) :
  count p ts = 0%nat <-> Forall (fun t => p t = false) ts.
Proof.
  induction ts as [|t ts IH]; simpl.
  - split; [constructor | reflexivity].
  - rewrite Forall_cons. destruct (p t); simpl.
    + split; [discriminate | intros [? _]; discriminate].
    + rewrite IH. tauto.
Qed.

(** Among refreshes, the lock is free exactly when no refresh is
    between its acquire and its release.  In particular it is free
    again once every refresh has finished, whether its [update]
    returned or raised. *)
Theorem lock_is_released (n : nat) (cs : list choice) (s : sched)
    (Hrun : run cs (start (replicate n refresh_task)) = Some s) :
  (locked s = false <-> Forall (fun t => in_lock t = false) (tasks s)) /\
  (Forall (fun t => t = []) (tasks s) -> locked s = false).
Proof.
  destruct (SchedulingFacts.run_invariant cs _ s
              (SchedulingFacts.start_invariant n) Hrun) as [_ Hcnt].
  assert (locked s = false <-> Forall (fun t => in_lock t = false) (tasks s))
    as Hfree.
  { rewrite <- count_zero, Hcnt. destruct (locked s); split; congruence. }
  split; [exact Hfree|].
  intros Hdone. apply Hfree. eapply Forall_impl; [exact Hdone|].
  intros t ->. reflexivity.
Qed.

End LockFacts.

(** ** The further properties at concrete inputs *)

Module MoreInstances.
Import Concrete ConcreteHost.
#[local] Existing Instance library.
#[local] Existing Instance host.

Lemma modes_0123 : NoDup [0; 1; 2; 3].
Proof. apply (bool_decide_unpack _). vm_compute. exact I. Defined.

Lemma update_attrs_hvac_mode_witness :
  mode thermostat_no_valve = Some 1 /\
  fst (Climate._update_attrs (heap_of thermostat_no_valve) blank_climate)
  = Raise Climate.none_gt_int /\
  Climate._attr_hvac_mode
    (snd (Climate._update_attrs (heap_of thermostat_no_valve) blank_climate))
  = Some HVACMode.HEAT.
Proof.
  split; [reflexivity|]. split; [reflexivity|].
  destruct (@update_attrs_hvac_mode library (heap_of thermostat_no_valve)
              blank_climate modes_0123)
    as (_ & Hheat & _).
  apply Hheat; [reflexivity|]. intros E. vm_compute in E. discriminate.
Defined.

Lemma update_attrs_hvac_action_witness :
  is_thermostat thermostat = true /\
  valve_position thermostat = Present (Some 40) /\
  valve_position thermostat_no_valve = Present None /\
  Climate._attr_hvac_action
    (snd (Climate._update_attrs (heap_of thermostat) blank_climate))
  = Some HVACAction.HEATING /\
  exists err,
    fst (Climate._update_attrs (heap_of thermostat_no_valve) blank_climate)
    = Raise err /\
    exc_cls err = ExceptionSubclass "TypeError".
Proof.
  split; [reflexivity|]. split; [reflexivity|]. split; [reflexivity|]. split.
  - destruct (@update_attrs_hvac_action library (heap_of thermostat)
                blank_climate) as (_ & Hradiator & _).
    destruct (Hradiator 40 (conj eq_refl eq_refl)) as [_ Hopen].
    apply Hopen; [discriminate | reflexivity].
  - destruct (@update_attrs_hvac_action library (heap_of thermostat_no_valve)
                blank_climate) as (_ & _ & Hnone & _).
    destruct (Hnone (conj eq_refl eq_refl)) as [_ Hraise].
    destruct Hraise as [Herr _]; [discriminate | exact Herr].
Defined.

Lemma update_attrs_target_temperature_witness :
  target_temperature thermostat = Some 21%Q /\
  fst (Climate._update_attrs (heap_of thermostat) blank_climate) = Ok tt /\
  Climate._attr_target_temperature
    (snd (Climate._update_attrs (heap_of thermostat) blank_climate))
  = Some 21%Q.
Proof.
  split; [reflexivity|]. split; [reflexivity|].
  destruct (@update_attrs_target_temperature library (heap_of thermostat)
              blank_climate) as [Hok _].
  destruct (Hok eq_refl) as (_ & Hvalid & _).
  apply Hvalid; [discriminate | reflexivity |].
  split; vm_compute; discriminate.
Defined.

Lemma preset_round_trip_witness :
  let s1 := snd (@Climate.async_set_preset_mode writing_library PRESET_ECO
                   (climate_env thermostat)) in
  last (calls (world s1))
  = Some (CallSetTemperatureMode 1%positive 2%positive (Some 17%Q) (Some 1)) /\
  eco_temperature thermostat = Some 17%Q /\
  @Climate._get_current_preset writing_library (Climate.self_device s1)
  = Some PRESET_ECO.
Proof.
  split; [reflexivity|]. split; [reflexivity|].
  apply (@preset_round_trip writing_library (climate_env thermostat) PRESET_ECO
           (CallSetTemperatureMode 1%positive 2%positive (Some 17%Q) (Some 1))).
  - exact modes_0123.
  - apply list_elem_of_In. simpl. tauto.
  - reflexivity.
  - split; [reflexivity|]. intros t [= <-]. reflexivity.
  - vm_compute. reflexivity.
  - vm_compute. reflexivity.
  - intros E. discriminate.
  - intros _. discriminate.
  - intros _ E. vm_compute in E. discriminate.
  - intros E. discriminate.
Defined.

Lemma hvac_mode_round_trip_witness :
  let s1 := snd (@Climate.async_set_hvac_mode writing_library HVACMode.HEAT
                   (climate_env thermostat)) in
  calls (world s1)
  = calls (world (climate_env thermostat))
    ++ [CallSetTemperatureMode 1%positive 2%positive (Some 21%Q) (Some 1)] /\
  Climate._attr_hvac_mode
    (snd (@Climate._update_attrs writing_library (heap (world s1)) (self s1)))
  = Some HVACMode.HEAT.
Proof.
  split; [reflexivity|].
  apply (@hvac_mode_round_trip writing_library (climate_env thermostat)
           HVACMode.HEAT
           (CallSetTemperatureMode 1%positive 2%positive (Some 21%Q) (Some 1))).
  - exact modes_0123.
  - apply list_elem_of_In. simpl. tauto.
  - reflexivity.
  - split; [reflexivity|]. intros t [= <-]. reflexivity.
Defined.

Lemma set_temperature_round_trip_witness :
  let s1 := snd (@Climate.async_set_temperature writing_library (Some 35%Q)
                   (climate_env thermostat)) in
  (Climate.min_temp thermostat <= Climate.max_temp thermostat)%Q /\
  fst (@Climate._update_attrs writing_library (heap (world s1)) (self s1))
  = Ok tt /\
  Climate._attr_target_temperature
    (snd (@Climate._update_attrs writing_library (heap (world s1)) (self s1)))
  = Some (clamped thermostat 35%Q).
Proof.
  intros s1.
  assert (Climate.min_temp thermostat <= Climate.max_temp thermostat)%Q as Hr.
  { vm_compute. discriminate. }
  split; [exact Hr|]. split; [reflexivity|].
  assert (reflects
            (CallSetTemperatureMode 1%positive 2%positive (Some 30%Q) (Some 1))
            (device_obj (heap (world s1)) (Climate._device (self s1))))
    as Hshown.
  { split; [reflexivity|]. intros t [= <-]. reflexivity. }
  destruct (@set_temperature_round_trip writing_library
              (climate_env thermostat) 35%Q
              (CallSetTemperatureMode 1%positive 2%positive (Some 30%Q) (Some 1))
              (heap (world s1)) (self s1)
              modes_0123 eq_refl Hshown eq_refl eq_refl Hr) as [_ Htarget].
  exact (Htarget eq_refl).
Defined.

Lemma coordinator_update_twice_witness :
  data (coordinator (world (climate_env thermostat))) = Some 1%positive /\
  length
    (states (world (snd (Climate._handle_coordinator_update
                           (snd (Climate._handle_coordinator_update
                                   (climate_env thermostat)))))))
  = 2%nat.
Proof.
  split; [reflexivity|].
  destruct (@coordinator_update_twice library (climate_env thermostat)
              1%positive 2%positive eq_refl eq_refl eq_refl)
    as (_ & _ & _ & Hstates).
  cbv zeta in Hstates. rewrite Hstates. reflexivity.
Defined.

Lemma ready_domain :
  hass_data hass_ready !! DOMAIN = Some {[ "entry-1" := the_coordinator ]}.
Proof. apply lookup_singleton_eq. Defined.

Lemma ready_entry :
  ({[ "entry-1" := the_coordinator ]} : gmap string MaxCubeDataUpdateCoordinator)
    !! "entry-1" = Some the_coordinator.
Proof. apply lookup_singleton_eq. Defined.

Lemma no_valve_domain :
  hass_data hass_no_valve !! DOMAIN = Some {[ "entry-1" := the_coordinator ]}.
Proof. apply lookup_singleton_eq. Defined.

Lemma climate_platform_entities_witness :
  (exists entities,
     fst (ClimatePlatform.async_setup_entry "entry-1" hass_ready)
     = Ok (match entities with [] => None | _ => Some entities end) /\
     map Climate._attr_unique_id entities = ["KEQ0000001"]) /\
  ClimatePlatform.__init__ the_coordinator (heap_of thermostat_no_valve) 2%positive
  = Raise Climate.none_gt_int /\
  exists err,
    ClimatePlatform.async_setup_entry "entry-1" hass_no_valve
    = (Raise err, hass_no_valve) /\
    exc_cls err = ExceptionSubclass "TypeError".
Proof.
  split; [|split; [reflexivity|]].
  - destruct (@climate_platform_entities library host hass_ready "entry-1" _
                the_coordinator ready_domain ready_entry) as [Hmade _].
    destruct Hmade as (entities & Hrun & _ & _ & Hids & _).
    + intros r Hin. simpl in Hin. apply list_elem_of_singleton in Hin.
      subst r. eexists. reflexivity.
    + exists entities. split; [rewrite Hrun; reflexivity | exact Hids].
  - destruct (@climate_platform_entities library host hass_no_valve "entry-1" _
                the_coordinator no_valve_domain ready_entry) as [_ Hraise].
    apply Hraise. exists 2%positive, Climate.none_gt_int.
    split; [|reflexivity]. simpl. apply list_elem_of_singleton. reflexivity.
Defined.

Lemma platform_setup_needs_coordinator_witness :
  exists missing,
    ClimatePlatform.async_setup_entry "entry-1" hass_empty
    = (Raise (KeyError missing), hass_empty).
Proof.
  destruct (@platform_setup_needs_coordinator library host hass_empty "entry-1")
    as (missing & _ & Hclimate & _).
  - intros domain E. simpl in E. rewrite lookup_empty in E. discriminate.
  - exists missing. exact Hclimate.
Defined.

Lemma binary_sensor_platform_entities_witness :
  exists entities,
    fst (BinarySensorPlatform.async_setup_entry "entry-1" hass_ready)
    = Ok (match entities with [] => None | _ => Some entities end) /\
    forall e, In (BinarySensorPlatform.MaxCubeBattery, e) entities ->
      exists b, BinarySensor.MaxCubeBattery_is_on
                  (device_obj (heap_of thermostat) (BinarySensor._device e))
                = Some b.
Proof.
  destruct (@binary_sensor_platform_entities library host hass_ready "entry-1" _
              the_coordinator ready_domain ready_entry)
    as (entities & Hrun & _ & Hknown).
  exists entities. split; [rewrite Hrun; reflexivity | exact Hknown].
Defined.

Lemma binary_sensor_unique_ids_witness :
  NoDup (map (fun r => serial (device_obj (heap_of thermostat) r))
           (devices (cube_obj (heap_of thermostat) (cube the_coordinator)))) /\
  NoDup (map (fun ke => BinarySensor._attr_unique_id (snd ke))
           (flat_map
              (BinarySensorPlatform.sensors_of the_coordinator (heap_of thermostat))
              (devices (cube_obj (heap_of thermostat) (cube the_coordinator))))).
Proof.
  assert (NoDup (map (fun r => serial (device_obj (heap_of thermostat) r))
                   (devices (cube_obj (heap_of thermostat) (cube the_coordinator)))))
    as Hserials.
  { simpl. apply NoDup_singleton. }
  split; [exact Hserials|].
  apply (@binary_sensor_unique_ids library host the_coordinator
           (heap_of thermostat) Hserials).
Defined.

Lemma setup_entry_stores_coordinator_witness :
  fst (lookup_coordinator "entry-1"
         (snd (Integration.async_setup_entry living_room_entry hass_empty)))
  = Ok (fresh_coordinator living_room_entry 1%positive (Some 1%positive)).
Proof.
  apply (@setup_entry_stores_coordinator library host living_room_entry
           hass_empty 1%positive (heap_of thermostat)
           (Coordinator.set_use_persistent_connection 1%positive true
              (heap_of thermostat))
           eq_refl eq_refl).
Defined.

Lemma unload_entry_removes_coordinator_witness :
  fst (Integration.async_unload_entry living_room_entry hass_ready) = Ok true /\
  hass_disconnects (snd (Integration.async_unload_entry living_room_entry hass_ready))
  = [1%positive].
Proof.
  destruct (@unload_entry_removes_coordinator host living_room_entry hass_ready
              _ the_coordinator idle (heap_of thermostat)
              eq_refl ready_domain ready_entry eq_refl)
    as (Hr & _ & _ & _ & _ & Hd & _).
  split; [exact Hr | exact Hd].
Defined.

Lemma setup_then_unload_restores_data_witness :
  hass_data
    (snd (Integration.async_unload_entry living_room_entry
            (snd (Integration.async_setup_entry living_room_entry hass_empty))))
  = hass_data hass_empty.
Proof.
  apply (@setup_then_unload_restores_data library host living_room_entry
           hass_empty).
  - simpl. rewrite lookup_empty. reflexivity.
  - simpl. rewrite lookup_empty. discriminate.
  - reflexivity.
  - reflexivity.
Defined.

Lemma refreshes_are_serialised_witness :
  exists s,
    Scheduling.run
      [Scheduling.Run 0; Scheduling.Run 0; Scheduling.Run 0; Scheduling.Run 0;
       Scheduling.Run 1; Scheduling.Run 1]
      (Scheduling.start (replicate 2 Scheduling.refresh_task)) = Some s /\
    (Scheduling.wire_users s <= 1)%nat.
Proof.
  eexists. split; [reflexivity|].
  apply (SchedulingFacts.refreshes_are_serialised 2
           [Scheduling.Run 0; Scheduling.Run 0; Scheduling.Run 0;
            Scheduling.Run 0; Scheduling.Run 1; Scheduling.Run 1]).
  reflexivity.
Defined.

Lemma lock_is_released_witness :
  exists s,
    Scheduling.run
      [Scheduling.Run 0; Scheduling.Run 0; Scheduling.Fail 0; Scheduling.Run 0;
       Scheduling.Run 1; Scheduling.Run 1; Scheduling.Run 1; Scheduling.Run 1]
      (Scheduling.start (replicate 2 Scheduling.refresh_task)) = Some s /\
    Scheduling.locked s = false.
Proof.
  eexists. split; [reflexivity|].
  apply (LockFacts.lock_is_released 2
           [Scheduling.Run 0; Scheduling.Run 0; Scheduling.Fail 0;
            Scheduling.Run 0; Scheduling.Run 1; Scheduling.Run 1;
            Scheduling.Run 1; Scheduling.Run 1]); [reflexivity|].
  repeat constructor.
Defined.

(** A new cube is connected, disconnected and offered as an entry. *)
Example new_cube_creates_entry :
  ConfigFlow.async_step_user (Some (entry_data living_room_entry)) hass_empty
  = (Ok (ConfigFlow.CreateEntry "MAX! Cube (192.168.0.20)"
           (entry_data living_room_entry)),
     {| hass_data := ∅; hass_heap := heap_of thermostat; hass_calls := [];
        hass_disconnects := [1%positive];
        hass_ha := ((Some "KEQ0523864", []) : @HA host) |}).
Proof. reflexivity. Qed.

(** A cube that is already configured: the abort raised by the
    duplicate check is caught by the step, which shows the form with
    the error "unknown". *)
Example configured_cube_shows_unknown :
  fst (ConfigFlow.async_step_user (Some (entry_data living_room_entry))
         hass_configured)
  = Ok (ConfigFlow.ShowForm "user" {[ "base" := "unknown" ]}).
Proof. reflexivity. Qed.

End MoreInstances.
